(** * varnish.logs: reassembling request logs from Varnish log chunks

    A shallow embedding of [varnish/logs.py]: the [RequestLog] factory with
    its class-level table [_lines], the two record classes
    [ClientRequestLog] and [BackendRequestLog], and the chunk callback of
    [VarnishLogs.dispatch_requests].

    Python objects live in a heap and are referred to by address, because
    the table, a client's [backend_request] and the consumer all hold
    references to the same mutable records.  Methods run in a state and
    exception monad in which the mutations made before a [raise] stay. *)

From Stdlib Require Import ZArith Ascii String List Lia.
From stdpp Require Import base option list gmap strings.

Local Open Scope Z_scope.
Local Open Scope string_scope.
Local Open Scope list_scope.

(** ** Python string primitives used by the module *)

Module PyStr.

(** [str.split(sep)] for a one-character separator: every occurrence
    cuts, so the result is never empty and may hold empty strings. *)
Fixpoint split (sep : ascii) (s : string) : list string :=
  match s with
  | EmptyString => [EmptyString]
  | String c r =>
      if Ascii.eqb c sep then EmptyString :: split sep r
      else match split sep r with
           | h :: t => String c h :: t
           | [] => [String c EmptyString]
           end
  end.

(** [str.split(sep, 1)] unpacked into two names: [None] when [sep] does
    not occur (the unpacking raises [ValueError]). *)
Fixpoint split1 (sep : ascii) (s : string) : option (string * string) :=
  match s with
  | EmptyString => None
  | String c r =>
      if Ascii.eqb c sep then Some (EmptyString, r)
      else match split1 sep r with
           | Some (k, v) => Some (String c k, v)
           | None => None
           end
  end.

(** The characters [str.strip()] removes: space, \t, \n, \v, \f, \r. *)
Definition is_space (c : ascii) : bool :=
  let n := nat_of_ascii c in
  (Nat.eqb n 32 || (Nat.leb 9 n && Nat.leb n 13))%bool.

Fixpoint lstrip (s : string) : string :=
  match s with
  | EmptyString => EmptyString
  | String c r => if is_space c then lstrip r else s
  end.

Fixpoint rstrip (s : string) : string :=
  match s with
  | EmptyString => EmptyString
  | String c r =>
      match rstrip r with
      | EmptyString => if is_space c then EmptyString else String c EmptyString
      | r' => String c r'
      end
  end.

Definition strip (s : string) : string := rstrip (lstrip s).

Definition lower_char (c : ascii) : ascii :=
  let n := nat_of_ascii c in
  if (Nat.leb 65 n && Nat.leb n 90)%bool then ascii_of_nat (n + 32) else c.

Fixpoint lower (s : string) : string :=
  match s with
  | EmptyString => EmptyString
  | String c r => String (lower_char c) (lower r)
  end.

Definition digit (c : ascii) : option Z :=
  let n := nat_of_ascii c in
  if (Nat.leb 48 n && Nat.leb n 57)%bool then Some (Z.of_nat (n - 48)) else None.

(** Value of a non-empty run of decimal digits, most significant first. *)
Fixpoint digits (acc : Z) (s : string) : option Z :=
  match s with
  | EmptyString => Some acc
  | String c r =>
      match digit c with
      | Some d => digits (10 * acc + d) r
      | None => None
      end
  end.

Definition unsigned (s : string) : option Z :=
  match s with
  | EmptyString => None
  | _ => digits 0 s
  end.

(** [int(s)] on a string: surrounding white space is dropped, one sign
    is allowed, the rest is a non-empty run of decimal digits.  [None]
    stands for [ValueError]. *)
Definition int (s : string) : option Z :=
  match strip s with
  | String "+" r => unsigned r
  | String "-" r => Z.opp <$> unsigned r
  | r => unsigned r
  end.

(** Truth value of an attribute holding [None] or a string. *)
Definition truthy (o : option string) : bool :=
  match o with
  | None | Some EmptyString => false
  | Some _ => true
  end.

End PyStr.

(** ** Floating point

    [reqend] payloads go through [float()] and [datetime.fromtimestamp].
    Their values play no part in the bookkeeping of chunks, so they stay
    behind an interface: only whether they raise is observable here. *)

Class PyFloat := {
  float_t : Type;
  datetime_t : Type;
  (** [float(s)]; [None] is [ValueError]. *)
  float : string -> option float_t;
  (** [datetime.fromtimestamp(x)]; [None] is its range error. *)
  fromtimestamp : float_t -> option datetime_t
}.

(** A small instance for running the model on concrete streams: plain
    decimal literals, kept as written. *)
Definition is_decimal (s : string) : bool :=
  match PyStr.split1 "." s with
  | Some (a, b) => bool_decide (is_Some (PyStr.unsigned a)) && bool_decide (is_Some (PyStr.unsigned b))
  | None => bool_decide (is_Some (PyStr.unsigned s))
  end.

Definition decimal_float : PyFloat := {|
  float_t := string;
  datetime_t := string;
  float := fun s => if is_decimal s then Some s else None;
  fromtimestamp := fun x => Some x
|}.

(** ** Log chunks *)

(** Modelled from the spec: [varnish.api.logs.LogChunk] is not part of the
    sources at hand.  A fragment carries a descriptor, a role (client,
    backend or none), a tag and a payload; [chunk.client] and
    [chunk.backend] read the role and [chunk.tag.name] is the tag's
    lower-case name. *)
Inductive Role := RClient | RBackend | RNone.

Record LogChunk := {
  chunk_fd : Z;
  chunk_role : Role;
  chunk_tag : string;
  chunk_data : string
}.

Definition chunk_client (c : LogChunk) : bool :=
  match chunk_role c with RClient => true | _ => false end.

Definition chunk_backend (c : LogChunk) : bool :=
  match chunk_role c with RBackend => true | _ => false end.

(** Modelled from the spec: [varnish.utils.MultiDict] is not part of the
    sources at hand.  It is an ordered multi-valued mapping: item
    assignment adds an entry after the existing ones and keeps entries
    with the same key.  The source uses [in] on the mapping of the
    routine calls only, and the specification reads that test as
    presence among the values recorded there, the outcomes; so does
    [md_contains]. *)
Abbreviation MultiDict := (list (string * string)) (only parsing).

Definition md_setitem (k v : string) (m : MultiDict) : MultiDict := m ++ [(k, v)].

(** Modelled from the spec: [v in m], for the mapping of the routine calls,
    is presence of [v] among the values of the mapping. *)
Definition md_contains (v : string) (m : MultiDict) : bool :=
  existsb (String.eqb v) (map snd m).

Definition md_getall (k : string) (m : MultiDict) : list string :=
  map snd (filter (fun kv => String.eqb k (fst kv) = true) m).

(** Heap addresses of record objects. *)
Abbreviation addr := nat (only parsing).

(** The exceptions the module can raise.  [SystemError] stands for the use
    of a reference to no object, which no run from [initial] reaches. *)
Inductive exn := AssertionError | ValueError | AttributeError | KeyError | SystemError.

Section Logs.

Context {F : PyFloat}.

(** ** Records *)

(** Attributes set by [RequestLog.init], and [client] and [backend], which
    exist only once [on_append_chunk] has run ([None] = no attribute). *)
Record RequestLog := {
  fd : Z;
  chunks : list LogChunk;
  active : bool;
  complete : bool;
  rxheaders : MultiDict;
  txheaders : MultiDict;
  rxprotocol : option string;
  txprotocol : option string;
  method : option string;
  url : option string;
  status : option Z;
  response : option string;
  length : option Z;
  client : option bool;
  backend : option bool
}.

(** Attributes added by [ClientRequestLog.init], and [_last_vcl], which
    exists between a [vcl_call] and the next [vcl_return]. *)
Record ClientAttrs := {
  id : option string;
  vcl_calls : MultiDict;
  hash_data : list string;
  client_ip : option string;
  client_port : option string;
  started_at : option datetime_t;
  completed_at : option datetime_t;
  req_start_delay : option float_t;
  processing_time : option float_t;
  deliver_time : option float_t;
  backend_request : option addr;
  _last_vcl : option string
}.

Record BackendAttrs := {
  backend_name : option string;
  director_name : option string
}.

Inductive PyObj :=
| ClientRequestLog (r : RequestLog) (c : ClientAttrs)
| BackendRequestLog (r : RequestLog) (b : BackendAttrs).

Definition base (o : PyObj) : RequestLog :=
  match o with ClientRequestLog r _ | BackendRequestLog r _ => r end.

Definition is_client (o : PyObj) : bool :=
  match o with ClientRequestLog _ _ => true | _ => false end.

Definition is_backend (o : PyObj) : bool :=
  match o with BackendRequestLog _ _ => true | _ => false end.

(** What a call of the consumer was given: the record's address and the
    record as it was at that moment. *)
Inductive Call :=
| Delivered (ev : addr) (o : PyObj)
| NonRequest (c : LogChunk).

(** The interpreter state: the heap of records, the class attribute
    [RequestLog._lines], the calls made to the consumers so far, and the
    exceptions whose traceback [print_exc] has written. *)
Record State := {
  heap : list PyObj;
  _lines : gmap Z addr;
  calls : list Call;
  stderr : list exn
}.

(** ** Attribute assignment

    One function per attribute that the module assigns to. *)

Definition set_chunks (v : list LogChunk) (r : RequestLog) : RequestLog :=
  {| fd := fd r; chunks := v; active := active r; complete := complete r; rxheaders := rxheaders r; txheaders := txheaders r; rxprotocol := rxprotocol r; txprotocol := txprotocol r; method := method r; url := url r; status := status r; response := response r; length := length r; client := client r; backend := backend r |}.

Definition set_active (v : bool) (r : RequestLog) : RequestLog :=
  {| fd := fd r; chunks := chunks r; active := v; complete := complete r; rxheaders := rxheaders r; txheaders := txheaders r; rxprotocol := rxprotocol r; txprotocol := txprotocol r; method := method r; url := url r; status := status r; response := response r; length := length r; client := client r; backend := backend r |}.

Definition set_complete (v : bool) (r : RequestLog) : RequestLog :=
  {| fd := fd r; chunks := chunks r; active := active r; complete := v; rxheaders := rxheaders r; txheaders := txheaders r; rxprotocol := rxprotocol r; txprotocol := txprotocol r; method := method r; url := url r; status := status r; response := response r; length := length r; client := client r; backend := backend r |}.

Definition set_rxheaders (v : MultiDict) (r : RequestLog) : RequestLog :=
  {| fd := fd r; chunks := chunks r; active := active r; complete := complete r; rxheaders := v; txheaders := txheaders r; rxprotocol := rxprotocol r; txprotocol := txprotocol r; method := method r; url := url r; status := status r; response := response r; length := length r; client := client r; backend := backend r |}.

Definition set_txheaders (v : MultiDict) (r : RequestLog) : RequestLog :=
  {| fd := fd r; chunks := chunks r; active := active r; complete := complete r; rxheaders := rxheaders r; txheaders := v; rxprotocol := rxprotocol r; txprotocol := txprotocol r; method := method r; url := url r; status := status r; response := response r; length := length r; client := client r; backend := backend r |}.

Definition set_rxprotocol (v : option string) (r : RequestLog) : RequestLog :=
  {| fd := fd r; chunks := chunks r; active := active r; complete := complete r; rxheaders := rxheaders r; txheaders := txheaders r; rxprotocol := v; txprotocol := txprotocol r; method := method r; url := url r; status := status r; response := response r; length := length r; client := client r; backend := backend r |}.

Definition set_txprotocol (v : option string) (r : RequestLog) : RequestLog :=
  {| fd := fd r; chunks := chunks r; active := active r; complete := complete r; rxheaders := rxheaders r; txheaders := txheaders r; rxprotocol := rxprotocol r; txprotocol := v; method := method r; url := url r; status := status r; response := response r; length := length r; client := client r; backend := backend r |}.

Definition set_method (v : option string) (r : RequestLog) : RequestLog :=
  {| fd := fd r; chunks := chunks r; active := active r; complete := complete r; rxheaders := rxheaders r; txheaders := txheaders r; rxprotocol := rxprotocol r; txprotocol := txprotocol r; method := v; url := url r; status := status r; response := response r; length := length r; client := client r; backend := backend r |}.

Definition set_url (v : option string) (r : RequestLog) : RequestLog :=
  {| fd := fd r; chunks := chunks r; active := active r; complete := complete r; rxheaders := rxheaders r; txheaders := txheaders r; rxprotocol := rxprotocol r; txprotocol := txprotocol r; method := method r; url := v; status := status r; response := response r; length := length r; client := client r; backend := backend r |}.

Definition set_status (v : option Z) (r : RequestLog) : RequestLog :=
  {| fd := fd r; chunks := chunks r; active := active r; complete := complete r; rxheaders := rxheaders r; txheaders := txheaders r; rxprotocol := rxprotocol r; txprotocol := txprotocol r; method := method r; url := url r; status := v; response := response r; length := length r; client := client r; backend := backend r |}.

Definition set_response (v : option string) (r : RequestLog) : RequestLog :=
  {| fd := fd r; chunks := chunks r; active := active r; complete := complete r; rxheaders := rxheaders r; txheaders := txheaders r; rxprotocol := rxprotocol r; txprotocol := txprotocol r; method := method r; url := url r; status := status r; response := v; length := length r; client := client r; backend := backend r |}.

Definition set_length (v : option Z) (r : RequestLog) : RequestLog :=
  {| fd := fd r; chunks := chunks r; active := active r; complete := complete r; rxheaders := rxheaders r; txheaders := txheaders r; rxprotocol := rxprotocol r; txprotocol := txprotocol r; method := method r; url := url r; status := status r; response := response r; length := v; client := client r; backend := backend r |}.

Definition set_client (v : option bool) (r : RequestLog) : RequestLog :=
  {| fd := fd r; chunks := chunks r; active := active r; complete := complete r; rxheaders := rxheaders r; txheaders := txheaders r; rxprotocol := rxprotocol r; txprotocol := txprotocol r; method := method r; url := url r; status := status r; response := response r; length := length r; client := v; backend := backend r |}.

Definition set_backend (v : option bool) (r : RequestLog) : RequestLog :=
  {| fd := fd r; chunks := chunks r; active := active r; complete := complete r; rxheaders := rxheaders r; txheaders := txheaders r; rxprotocol := rxprotocol r; txprotocol := txprotocol r; method := method r; url := url r; status := status r; response := response r; length := length r; client := client r; backend := v |}.

Definition set_id (v : option string) (c : ClientAttrs) : ClientAttrs :=
  {| id := v; vcl_calls := vcl_calls c; hash_data := hash_data c; client_ip := client_ip c; client_port := client_port c; started_at := started_at c; completed_at := completed_at c; req_start_delay := req_start_delay c; processing_time := processing_time c; deliver_time := deliver_time c; backend_request := backend_request c; _last_vcl := _last_vcl c |}.

Definition set_vcl_calls (v : MultiDict) (c : ClientAttrs) : ClientAttrs :=
  {| id := id c; vcl_calls := v; hash_data := hash_data c; client_ip := client_ip c; client_port := client_port c; started_at := started_at c; completed_at := completed_at c; req_start_delay := req_start_delay c; processing_time := processing_time c; deliver_time := deliver_time c; backend_request := backend_request c; _last_vcl := _last_vcl c |}.

Definition set_hash_data (v : list string) (c : ClientAttrs) : ClientAttrs :=
  {| id := id c; vcl_calls := vcl_calls c; hash_data := v; client_ip := client_ip c; client_port := client_port c; started_at := started_at c; completed_at := completed_at c; req_start_delay := req_start_delay c; processing_time := processing_time c; deliver_time := deliver_time c; backend_request := backend_request c; _last_vcl := _last_vcl c |}.

Definition set_client_ip (v : option string) (c : ClientAttrs) : ClientAttrs :=
  {| id := id c; vcl_calls := vcl_calls c; hash_data := hash_data c; client_ip := v; client_port := client_port c; started_at := started_at c; completed_at := completed_at c; req_start_delay := req_start_delay c; processing_time := processing_time c; deliver_time := deliver_time c; backend_request := backend_request c; _last_vcl := _last_vcl c |}.

Definition set_client_port (v : option string) (c : ClientAttrs) : ClientAttrs :=
  {| id := id c; vcl_calls := vcl_calls c; hash_data := hash_data c; client_ip := client_ip c; client_port := v; started_at := started_at c; completed_at := completed_at c; req_start_delay := req_start_delay c; processing_time := processing_time c; deliver_time := deliver_time c; backend_request := backend_request c; _last_vcl := _last_vcl c |}.

Definition set_started_at (v : option datetime_t) (c : ClientAttrs) : ClientAttrs :=
  {| id := id c; vcl_calls := vcl_calls c; hash_data := hash_data c; client_ip := client_ip c; client_port := client_port c; started_at := v; completed_at := completed_at c; req_start_delay := req_start_delay c; processing_time := processing_time c; deliver_time := deliver_time c; backend_request := backend_request c; _last_vcl := _last_vcl c |}.

Definition set_completed_at (v : option datetime_t) (c : ClientAttrs) : ClientAttrs :=
  {| id := id c; vcl_calls := vcl_calls c; hash_data := hash_data c; client_ip := client_ip c; client_port := client_port c; started_at := started_at c; completed_at := v; req_start_delay := req_start_delay c; processing_time := processing_time c; deliver_time := deliver_time c; backend_request := backend_request c; _last_vcl := _last_vcl c |}.

Definition set_req_start_delay (v : option float_t) (c : ClientAttrs) : ClientAttrs :=
  {| id := id c; vcl_calls := vcl_calls c; hash_data := hash_data c; client_ip := client_ip c; client_port := client_port c; started_at := started_at c; completed_at := completed_at c; req_start_delay := v; processing_time := processing_time c; deliver_time := deliver_time c; backend_request := backend_request c; _last_vcl := _last_vcl c |}.

Definition set_processing_time (v : option float_t) (c : ClientAttrs) : ClientAttrs :=
  {| id := id c; vcl_calls := vcl_calls c; hash_data := hash_data c; client_ip := client_ip c; client_port := client_port c; started_at := started_at c; completed_at := completed_at c; req_start_delay := req_start_delay c; processing_time := v; deliver_time := deliver_time c; backend_request := backend_request c; _last_vcl := _last_vcl c |}.

Definition set_deliver_time (v : option float_t) (c : ClientAttrs) : ClientAttrs :=
  {| id := id c; vcl_calls := vcl_calls c; hash_data := hash_data c; client_ip := client_ip c; client_port := client_port c; started_at := started_at c; completed_at := completed_at c; req_start_delay := req_start_delay c; processing_time := processing_time c; deliver_time := v; backend_request := backend_request c; _last_vcl := _last_vcl c |}.

Definition set_backend_request (v : option addr) (c : ClientAttrs) : ClientAttrs :=
  {| id := id c; vcl_calls := vcl_calls c; hash_data := hash_data c; client_ip := client_ip c; client_port := client_port c; started_at := started_at c; completed_at := completed_at c; req_start_delay := req_start_delay c; processing_time := processing_time c; deliver_time := deliver_time c; backend_request := v; _last_vcl := _last_vcl c |}.

Definition set_last_vcl (v : option string) (c : ClientAttrs) : ClientAttrs :=
  {| id := id c; vcl_calls := vcl_calls c; hash_data := hash_data c; client_ip := client_ip c; client_port := client_port c; started_at := started_at c; completed_at := completed_at c; req_start_delay := req_start_delay c; processing_time := processing_time c; deliver_time := deliver_time c; backend_request := backend_request c; _last_vcl := v |}.

Definition set_backend_name (v : option string) (b : BackendAttrs) : BackendAttrs :=
  {| backend_name := v; director_name := director_name b |}.

Definition set_director_name (v : option string) (b : BackendAttrs) : BackendAttrs :=
  {| backend_name := backend_name b; director_name := v |}.

Definition on_base (f : RequestLog -> RequestLog) (o : PyObj) : PyObj :=
  match o with
  | ClientRequestLog r c => ClientRequestLog (f r) c
  | BackendRequestLog r b => BackendRequestLog (f r) b
  end.

Definition on_client (f : ClientAttrs -> ClientAttrs) (o : PyObj) : PyObj :=
  match o with
  | ClientRequestLog r c => ClientRequestLog r (f c)
  | BackendRequestLog r b => o
  end.

Definition on_backend (f : BackendAttrs -> BackendAttrs) (o : PyObj) : PyObj :=
  match o with
  | ClientRequestLog r c => o
  | BackendRequestLog r b => BackendRequestLog r (f b)
  end.

Definition client_attrs (o : PyObj) : option ClientAttrs :=
  match o with ClientRequestLog _ c => Some c | _ => None end.

Definition backend_attrs (o : PyObj) : option BackendAttrs :=
  match o with BackendRequestLog _ b => Some b | _ => None end.

Definition set_heap (h : list PyObj) (s : State) : State :=
  {| heap := h; _lines := _lines s; calls := calls s; stderr := stderr s |}.

Definition set_lines (l : gmap Z addr) (s : State) : State :=
  {| heap := heap s; _lines := l; calls := calls s; stderr := stderr s |}.

Definition set_calls (c : list Call) (s : State) : State :=
  {| heap := heap s; _lines := _lines s; calls := c; stderr := stderr s |}.

Definition set_stderr (e : list exn) (s : State) : State :=
  {| heap := heap s; _lines := _lines s; calls := calls s; stderr := e |}.

(** ** The monad of method bodies

    A computation takes the state and gives a value or an exception,
    together with the state it leaves; the state left by a [raise] holds
    every mutation made before it. *)

Definition Py (A : Type) : Type := State -> (exn + A) * State.

Definition ret {A} (a : A) : Py A := fun s => (inr a, s).

Definition raise {A} (e : exn) : Py A := fun s => (inl e, s).

Definition bind {A B} (m : Py A) (k : A -> Py B) : Py B :=
  fun s =>
    match m s with
    | (inr a, s') => k a s'
    | (inl e, s') => (inl e, s')
    end.

(** [try: m except: h] with a bare [except]; [h] is given the exception. *)
Definition try_except {A} (m : Py A) (h : exn -> Py A) : Py A :=
  fun s =>
    match m s with
    | (inr a, s') => (inr a, s')
    | (inl e, s') => h e s'
    end.

Notation "x <- c ;; k" := (bind c (fun x => k))
  (at level 100, c at next level, k at level 200, right associativity).
Notation "c ;; k" := (bind c (fun _ => k))
  (at level 100, k at level 200, right associativity).

Definition unpack {A} (e : exn) (o : option A) : Py A :=
  match o with
  | Some a => ret a
  | None => raise e
  end.

(** Reading and assigning attributes of the object at [self]. *)
Definition getattr {A} (self : addr) (g : PyObj -> A) : Py A :=
  fun s =>
    match heap s !! self with
    | Some o => (inr (g o), s)
    | None => (inl SystemError, s)
    end.

Definition setattr (self : addr) (f : PyObj -> PyObj) : Py unit :=
  fun s =>
    match heap s !! self with
    | Some o => (inr tt, set_heap (<[self := f o]> (heap s)) s)
    | None => (inl SystemError, s)
    end.

(** An attribute that may not exist yet: reading it then raises
    [AttributeError]. *)
Definition getattr_opt {A} (self : addr) (g : PyObj -> option A) : Py A :=
  o <- getattr self g ;; unpack AttributeError o.

(** [object.__new__] followed by the class's [init]: the new object is
    placed at the end of the heap. *)
Definition alloc (o : PyObj) : Py addr :=
  fun s => (inr (List.length (heap s)), set_heap (heap s ++ [o]) s).

Definition lines_get (k : Z) : Py (option addr) :=
  fun s => (inr (_lines s !! k), s).

Definition lines_set (k : Z) (a : addr) : Py unit :=
  fun s => (inr tt, set_lines (<[k := a]> (_lines s)) s).

(** [del _lines[k]] *)
Definition lines_del (k : Z) : Py unit :=
  fun s =>
    match _lines s !! k with
    | Some _ => (inr tt, set_lines (delete k (_lines s)) s)
    | None => (inl KeyError, s)
    end.

Definition record_call (c : Call) : Py unit :=
  fun s => (inr tt, set_calls (calls s ++ [c]) s).

(** [traceback.print_exc()] in a handler that caught [e]. *)
Definition print_exc (e : exn) : Py unit :=
  fun s => (inr tt, set_stderr (stderr s ++ [e]) s).

(** ** [init] *)

Definition RequestLog_init (fd0 : Z) (active0 : bool) : RequestLog :=
  {| fd := fd0; chunks := []; active := active0; complete := false;
     rxheaders := []; txheaders := [];
     rxprotocol := None; txprotocol := None; method := None; url := None;
     status := None; response := None; length := None;
     client := None; backend := None |}.

Definition ClientRequestLog_init (fd0 : Z) (active0 : bool) : PyObj :=
  ClientRequestLog (RequestLog_init fd0 active0)
    {| id := None; vcl_calls := []; hash_data := [];
       client_ip := None; client_port := None;
       started_at := None; completed_at := None;
       req_start_delay := None; processing_time := None; deliver_time := None;
       backend_request := None; _last_vcl := None |}.

Definition BackendRequestLog_init (fd0 : Z) (active0 : bool) : PyObj :=
  BackendRequestLog (RequestLog_init fd0 active0)
    {| backend_name := None; director_name := None |}.

(** ** [on_append_chunk] *)

(** [key, value = chunk.data.split(":", 1)] and the two [strip]s. *)
Definition header_item (data : string) : option (string * string) :=
  match PyStr.split1 ":" data with
  | Some (key, value) => Some (PyStr.lower (PyStr.strip key), PyStr.strip value)
  | None => None
  end.

Definition RequestLog_on_append_chunk (self : addr) (chunk : LogChunk) : Py unit :=
  setattr self (on_base (set_client (Some (chunk_client chunk)))) ;;
  setattr self (on_base (set_backend (Some (chunk_backend chunk)))) ;;
  setattr self (on_base (fun r => set_chunks (chunks r ++ [chunk]) r)) ;;
  let name := chunk_tag chunk in
  if name =? "rxheader" then
    kv <- unpack ValueError (header_item (chunk_data chunk)) ;;
    setattr self (on_base (fun r => set_rxheaders (md_setitem (fst kv) (snd kv) (rxheaders r)) r))
  else if name =? "txheader" then
    kv <- unpack ValueError (header_item (chunk_data chunk)) ;;
    setattr self (on_base (fun r => set_txheaders (md_setitem (fst kv) (snd kv) (txheaders r)) r))
  else if name =? "rxprotocol" then
    setattr self (on_base (set_rxprotocol (Some (chunk_data chunk))))
  else if name =? "txprotocol" then
    setattr self (on_base (set_txprotocol (Some (chunk_data chunk))))
  else if name =? "length" then
    n <- unpack ValueError (PyStr.int (chunk_data chunk)) ;;
    setattr self (on_base (set_length (Some n)))
  else ret tt.

(** [if not self.backend_request.director_name: ... = director], with
    [b] the record [self.backend_request] refers to. *)
Definition propagate_director (b : addr) (director : string) : Py unit :=
  dn <- getattr b (fun o => director_name <$> backend_attrs o) ;;
  dn <- unpack AttributeError dn ;;
  if PyStr.truthy dn then ret tt
  else setattr b (on_backend (set_director_name (Some director))).

(** The [else] branch of the [backend] tag: a new backend record, which
    is not active, is made [self.backend_request], given its name and
    bound to its descriptor. *)
Definition new_backend_request (self : addr) (backend_fd : Z) (backend0 : string) : Py addr :=
  b <- alloc (BackendRequestLog_init backend_fd false) ;;
  setattr self (on_client (set_backend_request (Some b))) ;;
  setattr b (on_backend (set_backend_name (Some backend0))) ;;
  lines_set backend_fd b ;;
  ret b.

(** The [backend] tag of a client record: find or create the backend
    record named by the payload and pass the director's name on to it. *)
Definition client_backend_ref (self : addr) (chunk : LogChunk) : Py unit :=
  match PyStr.split " " (chunk_data chunk) with
  | [backend_fd; director; backend0] =>
      backend_fd <- unpack ValueError (PyStr.int backend_fd) ;;
      known <- lines_get backend_fd ;;
      b <- match known with
           | Some b =>
               setattr self (on_client (set_backend_request (Some b))) ;;
               isb <- getattr b is_backend ;;
               (if isb : bool then ret tt else raise AssertionError) ;;
               ret b
           | None => new_backend_request self backend_fd backend0
           end ;;
      propagate_director b director
  | _ => raise ValueError
  end.

(** The [reqend] tag of a client record: six fields, the last five
    converted one after the other. *)
Definition client_reqend (self : addr) (chunk : LogChunk) : Py unit :=
  match PyStr.split " " (chunk_data chunk) with
  | [xid; started; completed; delay; processing; deliver] =>
      x <- unpack ValueError (float started) ;;
      t <- unpack ValueError (fromtimestamp x) ;;
      setattr self (on_client (set_started_at (Some t))) ;;
      x <- unpack ValueError (float completed) ;;
      t <- unpack ValueError (fromtimestamp x) ;;
      setattr self (on_client (set_completed_at (Some t))) ;;
      x <- unpack ValueError (float delay) ;;
      setattr self (on_client (set_req_start_delay (Some x))) ;;
      x <- unpack ValueError (float processing) ;;
      setattr self (on_client (set_processing_time (Some x))) ;;
      x <- unpack ValueError (float deliver) ;;
      setattr self (on_client (set_deliver_time (Some x)))
  | _ => raise ValueError
  end.

Definition ClientRequestLog_on_append_chunk (self : addr) (chunk : LogChunk) : Py unit :=
  RequestLog_on_append_chunk self chunk ;;
  let name := chunk_tag chunk in
  if name =? "vcl_call" then
    setattr self (on_client (set_last_vcl (Some (chunk_data chunk))))
  else if name =? "vcl_return" then
    last <- getattr self (fun o => match client_attrs o with Some c => _last_vcl c | None => None end) ;;
    last <- unpack AttributeError last ;;
    setattr self (on_client (fun c => set_vcl_calls (md_setitem last (chunk_data chunk) (vcl_calls c)) c)) ;;
    setattr self (on_client (set_last_vcl None))
  else if name =? "hash" then
    setattr self (on_client (fun c => set_hash_data (hash_data c ++ [chunk_data chunk]) c))
  else if name =? "length" then
    n <- unpack ValueError (PyStr.int (chunk_data chunk)) ;;
    setattr self (on_base (set_length (Some n)))
  else if name =? "rxrequest" then
    setattr self (on_base (set_method (Some (chunk_data chunk))))
  else if name =? "rxurl" then
    setattr self (on_base (set_url (Some (chunk_data chunk))))
  else if name =? "reqstart" then
    match PyStr.split " " (chunk_data chunk) with
    | [ip; port; xid] =>
        setattr self (on_client (set_client_ip (Some ip))) ;;
        setattr self (on_client (set_client_port (Some port))) ;;
        setattr self (on_client (set_id (Some xid)))
    | _ => raise ValueError
    end
  else if name =? "txstatus" then
    n <- unpack ValueError (PyStr.int (chunk_data chunk)) ;;
    setattr self (on_base (set_status (Some n)))
  else if name =? "txresponse" then
    setattr self (on_base (set_response (Some (chunk_data chunk))))
  else if name =? "backend" then
    client_backend_ref self chunk
  else if name =? "reqend" then
    client_reqend self chunk
  else ret tt.

Definition BackendRequestLog_on_append_chunk (self : addr) (chunk : LogChunk) : Py unit :=
  RequestLog_on_append_chunk self chunk ;;
  let name := chunk_tag chunk in
  if name =? "txrequest" then
    setattr self (on_base (set_method (Some (chunk_data chunk))))
  else if name =? "txurl" then
    setattr self (on_base (set_url (Some (chunk_data chunk))))
  else if name =? "rxstatus" then
    n <- unpack ValueError (PyStr.int (chunk_data chunk)) ;;
    setattr self (on_base (set_status (Some n)))
  else if name =? "rxresponse" then
    setattr self (on_base (set_response (Some (chunk_data chunk))))
  else if (name =? "backendopen") || (name =? "backendreuse") then
    setattr self (on_backend (set_backend_name (head (PyStr.split " " (chunk_data chunk)))))
  else ret tt.

(** The method the object's class provides. *)
Definition on_append_chunk (self : addr) (chunk : LogChunk) : Py unit :=
  cls <- getattr self is_client ;;
  if cls : bool then ClientRequestLog_on_append_chunk self chunk
  else BackendRequestLog_on_append_chunk self chunk.

(** ** [add_chunk] *)

Definition is_start (chunk : LogChunk) : bool :=
  (chunk_client chunk && (chunk_tag chunk =? "reqstart"))
  || (chunk_backend chunk && (chunk_tag chunk =? "backendopen")).

Definition is_end (chunk : LogChunk) : bool :=
  (chunk_client chunk && (chunk_tag chunk =? "reqend"))
  || (chunk_backend chunk && ((chunk_tag chunk =? "backendclose")
                              || (chunk_tag chunk =? "backendreuse"))).

(** The part of [add_chunk] after the activation test. *)
Definition add_chunk_active (self : addr) (chunk : LogChunk) : Py bool :=
  (if is_end chunk then
     setattr self (on_base (set_complete true)) ;;
     setattr self (on_base (set_active false)) ;;
     if chunk_client chunk then
       k <- getattr self (fun o => fd (base o)) ;;
       lines_del k
     else ret tt
   else ret tt) ;;
  on_append_chunk self chunk ;;
  getattr self (fun o => complete (base o)).

Definition add_chunk (self : addr) (chunk : LogChunk) : Py bool :=
  k <- getattr self (fun o => fd (base o)) ;;
  if Z.eqb k 0 then ret false
  else
    a <- getattr self (fun o => active (base o)) ;;
    if negb a && is_start chunk then
      setattr self (on_base (set_active true)) ;;
      add_chunk_active self chunk
    else if negb a then ret false
    else add_chunk_active self chunk.

(** ** The factory [RequestLog.__new__] *)

Definition RequestLog_new (chunk : LogChunk) : Py (option addr) :=
  known <- lines_get (chunk_fd chunk) ;;
  match known with
  | Some obj =>
      (if chunk_client chunk then
         isc <- getattr obj is_client ;;
         if isc : bool then ret tt else raise AssertionError
       else if chunk_backend chunk then
         isb <- getattr obj is_backend ;;
         if isb : bool then ret tt else raise AssertionError
       else ret tt) ;;
      add_chunk obj chunk ;;
      ret (Some obj)
  | None =>
      if chunk_client chunk then
        obj <- alloc (ClientRequestLog_init (chunk_fd chunk) false) ;;
        lines_set (chunk_fd chunk) obj ;;
        add_chunk obj chunk ;;
        ret (Some obj)
      else if chunk_backend chunk then
        obj <- alloc (BackendRequestLog_init (chunk_fd chunk) false) ;;
        lines_set (chunk_fd chunk) obj ;;
        add_chunk obj chunk ;;
        ret (Some obj)
      else ret None
  end.

(** ** [VarnishLogs.dispatch_requests] *)

(** A consumer reads the record it is handed, and answers or raises. *)
Definition Consumer := addr -> State -> exn + bool.

Definition NonRequestConsumer := LogChunk -> exn + bool.

Definition call_consumer (callback : Consumer) (ev : addr) : Py bool :=
  o <- getattr ev (fun o => o) ;;
  record_call (Delivered ev o) ;;
  fun s => (callback ev s, s).

Definition call_nonrequest (f : NonRequestConsumer) (chunk : LogChunk) : Py bool :=
  record_call (NonRequest chunk) ;;
  fun s => (f chunk, s).

(** Modelled from the spec: [name_to_tag] is not part of the sources at
    hand; a tag is identified with its name. *)
Definition _ignored_tags : list string := ["sessionopen"; "sessionclose"; "statsess"].

Definition is_nil {A} (l : list A) : bool :=
  match l with [] => true | _ => false end.

(** The statements of [cb] after [res = True]. *)
Definition cb_deliver (callback : Consumer) (aggregate : bool) (ev : option addr) : Py bool :=
  match ev with
  | None => ret true
  | Some ev =>
      c <- getattr ev (fun o => complete (base o)) ;;
      if negb c then ret true
      else
        b <- getattr_opt ev (fun o => backend (base o)) ;;
        ch <- getattr ev (fun o => chunks (base o)) ;;
        if b && is_nil ch then ret true
        else
          wanted <- (if aggregate then getattr_opt ev (fun o => client (base o))
                     else ret true) ;;
          if wanted : bool then call_consumer callback ev else ret true
  end.

(** The closure [cb]: the whole body is inside [try].  The handler prints
    the traceback and falls through to [return res], and [res] is [False]
    until the record has been built and [True] from then on; hence one
    handler for each of the two stretches. *)
Definition cb (callback : Consumer) (aggregate : bool)
    (nonrequest_callback : option NonRequestConsumer) (chunk : LogChunk) : Py bool :=
  try_except
    (if Z.eqb (chunk_fd chunk) 0 then
       match nonrequest_callback with
       | Some f => call_nonrequest f chunk
       | None => ret true
       end
     else if existsb (String.eqb (chunk_tag chunk)) _ignored_tags then ret true
     else
       ev <- RequestLog_new chunk ;;
       try_except (cb_deliver callback aggregate ev)
         (fun e => print_exc e ;; ret true))
    (fun e => print_exc e ;; ret false).

(** ** [VarnishLogs.dispatch_chunks] *)

(** A callable as [inspect.getargspec] sees it: no parameter, or one. *)
Inductive Callable :=
| Args0 (f : Py bool)
| Args1 (f : LogChunk -> Py bool).

Definition wrapper (callback : option Callable) (chunk : LogChunk) : Py bool :=
  match callback with
  | Some (Args0 f) => f
  | Some (Args1 f) => f chunk
  | None => ret false
  end.

(** Modelled from the spec: [varnish.api.logs.dispatch] is not part of the
    sources at hand.  It hands the fragments to the wrapper one at a time,
    in arrival order; the wrapper's answer is advisory and does not stop
    the iteration, an exception leaving the wrapper does. *)
Fixpoint logs_dispatch (w : LogChunk -> Py bool) (stream : list LogChunk) : Py unit :=
  match stream with
  | [] => ret tt
  | chunk :: rest => w chunk ;; logs_dispatch w rest
  end.

Definition dispatch_chunks (callback : option Callable) (stream : list LogChunk) : Py unit :=
  logs_dispatch (wrapper callback) stream.

Definition dispatch_requests (callback : Consumer) (aggregate : bool)
    (nonrequest_callback : option NonRequestConsumer) (stream : list LogChunk) : Py unit :=
  dispatch_chunks (Some (Args1 (cb callback aggregate nonrequest_callback))) stream.

(** ** Derived properties of a client record *)

Definition hit (c : ClientAttrs) : bool := md_contains "hit" (vcl_calls c).

Definition miss (c : ClientAttrs) : bool := md_contains "miss" (vcl_calls c).

(** The state before any chunk: no object, an empty [_lines]. *)
Definition initial : State := {| heap := []; _lines := ∅; calls := []; stderr := [] |}.

End Logs.

Definition mk (k : Z) (r : Role) (t d : string) : LogChunk :=
  {| chunk_fd := k; chunk_role := r; chunk_tag := t; chunk_data := d |}.

Definition quiet : @Consumer decimal_float := fun _ _ => inr true.

(** A non-request consumer that only answers. *)
Definition hush : NonRequestConsumer := fun _ => inr true.

Definition fixture : list LogChunk :=
  [ mk 13 RBackend "backendopen" "b1 127.0.0.1 1 127.0.0.1 2";
    mk 13 RBackend "txrequest" "GET";
    mk 13 RBackend "rxstatus" "200";
    mk 13 RBackend "backendreuse" "b1";
    mk 12 RClient "sessionopen" "x";
    mk 12 RClient "reqstart" "10.0.0.1 4000 1001";
    mk 12 RClient "rxrequest" "GET";
    mk 12 RClient "rxheader" "Host: Example.org ";
    mk 12 RClient "vcl_call" "miss";
    mk 12 RClient "vcl_return" "fetch";
    mk 12 RClient "backend" "13 dir b1";
    mk 12 RClient "txstatus" "200";
    mk 12 RClient "reqend" "1001 1.0 2.0 0.1 0.2 0.3" ].


(** The state a stream leaves when it is read from [initial] without
    aggregation by a consumer that only answers. *)
Definition after (stream : list LogChunk) : @State decimal_float :=
  snd (dispatch_requests quiet false None stream initial).

(** The class and the bookkeeping attributes of a record, for looking at
    a record of a run. *)
Definition summary {F : PyFloat} (o : PyObj)
    : bool * Z * bool * bool * option bool * list LogChunk :=
  (is_client o, fd (base o), active (base o), complete (base o),
   backend (base o), chunks (base o)).

Definition look {F : PyFloat} (s : State) (a : addr)
    : option (bool * Z * bool * bool * option bool * list LogChunk) :=
  summary <$> heap s !! a.

(** The names of the backend record at [a], if there is one. *)
Definition names {F : PyFloat} (s : State) (a : addr) : option BackendAttrs :=
  heap s !! a ≫= backend_attrs.

(** The request headers and the routine calls of the record at [a]. *)
Definition rxheaders_at {F : PyFloat} (s : State) (a : addr)
    : option (list (string * string)) :=
  (fun o => rxheaders (base o)) <$> heap s !! a.

Definition vcl_calls_at {F : PyFloat} (s : State) (a : addr)
    : option (list (string * string)) :=
  vcl_calls <$> (heap s !! a ≫= client_attrs).

(** What an [rxheader] chunk with the item [kv] makes of an active record. *)
Definition with_rxheader {F : PyFloat} (k : Z) (d : string) (kv : string * string)
    (r : RequestLog) : RequestLog :=
  set_rxheaders (md_setitem (fst kv) (snd kv) (rxheaders r))
    (set_chunks (chunks r ++ [mk k RClient "rxheader" d])
       (set_backend (Some false) (set_client (Some true) r))).

(** ** Invariants of computations *)

(** [m] keeps [I]: whatever the outcome of [m], a value or an exception,
    [I] holds of the state it leaves if it held of the state it found. *)
Definition keeps {F : PyFloat} {A} (I : State -> Prop) (m : Py A) : Prop :=
  forall s, I s -> I (snd (m s)).

(** There is an object at [a] and it satisfies [P]. *)
Definition obj_inv {F : PyFloat} (a : addr) (P : PyObj -> Prop) (s : State) : Prop :=
  exists o, heap s !! a = Some o /\ P o.

(** A backend record whose [director_name] is [d]. *)
Definition has_director {F : PyFloat} (d : option string) (o : PyObj) : Prop :=
  exists r b, o = BackendRequestLog r b /\ director_name b = d.

(** A backend record whose [backend_name] is [n]. *)
Definition has_backend_name {F : PyFloat} (n : option string) (o : PyObj) : Prop :=
  exists r b, o = BackendRequestLog r b /\ backend_name b = n.

(** What [cb] does once it has decided to hand the record [o] at [ev] to
    the consumer: the call is made, and an exception of the consumer is
    printed and swallowed. *)
Definition deliver {F : PyFloat} (callback : Consumer) (ev : addr) (o : PyObj)
    (s : State) : (exn + bool) * State :=
  let s' := set_calls (calls s ++ [Delivered ev o]) s in
  match callback ev s' with
  | inr v => (inr v, s')
  | inl e => (inr true, set_stderr (stderr s' ++ [e]) s')
  end.

(** What [RequestLog.on_append_chunk] does first with any chunk. *)
Definition with_chunk {F : PyFloat} (chunk : LogChunk) (r : RequestLog) : RequestLog :=
  set_chunks (chunks r ++ [chunk])
    (set_backend (Some (chunk_backend chunk))
       (set_client (Some (chunk_client chunk)) r)).

(** ** Chunks inside a transaction

    The chunks that may stand inside a transaction on [k], between its
    start chunk and its end chunk: of the same descriptor and role, not
    an end chunk, not one of the ignored tags; inside a client
    transaction, not a [backend] chunk either (the reference to the
    backend is told apart). *)
Definition backend_body (k : Z) (c : LogChunk) : Prop :=
  chunk_fd c = k /\ chunk_role c = RBackend /\ is_end c = false
  /\ existsb (String.eqb (chunk_tag c)) _ignored_tags = false.

Definition client_body (k : Z) (c : LogChunk) : Prop :=
  chunk_fd c = k /\ chunk_role c = RClient /\ is_end c = false
  /\ existsb (String.eqb (chunk_tag c)) _ignored_tags = false
  /\ chunk_tag c <> "backend".

(** The chunks that [cb] keeps away from the record factory: those on
    descriptor 0 and those with one of the ignored tags. *)
Definition outside_requests (c : LogChunk) : bool :=
  Z.eqb (chunk_fd c) 0 || existsb (String.eqb (chunk_tag c)) _ignored_tags.

(** ** What a chunk may do to the records

    The vocabulary for saying what one chunk changes. *)

(** Every descriptor bound in [_lines] refers to an object of the heap,
    and that object's [fd] is the descriptor. *)
Definition lines_wf {F : PyFloat} (s : State) : Prop :=
  forall k a, _lines s !! k = Some a ->
    exists o, heap s !! a = Some o /\ fd (base o) = k.

(** The [client] and [backend] flags of a record agree with its class:
    they are set from chunks of the record's own role, or of none. *)
Definition role_ok {F : PyFloat} (o : PyObj) : Prop :=
  (client (base o) = Some true -> is_client o = true)
  /\ (backend (base o) = Some true -> is_backend o = true).

Definition roles_wf {F : PyFloat} (s : State) : Prop :=
  forall a o, heap s !! a = Some o -> role_ok o.

(** The class of the object may take the chunk: what the assertions of
    [RequestLog.__new__] check. *)
Definition class_ok {F : PyFloat} (chunk : LogChunk) (o : PyObj) : Prop :=
  (chunk_client chunk = true -> is_client o = true)
  /\ (chunk_backend chunk = true -> is_backend o = true).

(** [o'] is a later state of the record [o]: same class, same descriptor,
    the chunks it had and maybe more, and complete if it was. *)
Definition grows {F : PyFloat} (o o' : PyObj) : Prop :=
  is_client o' = is_client o
  /\ fd (base o') = fd (base o)
  /\ (exists more, chunks (base o') = chunks (base o) ++ more)
  /\ (complete (base o) = true -> complete (base o') = true).

(** The role flags are as they were, or they are those of the chunk, which
    the record's class may take. *)
Definition flags_ok {F : PyFloat} (chunk : LogChunk) (o o' : PyObj) : Prop :=
  (client (base o') = client (base o) /\ backend (base o') = backend (base o))
  \/ (client (base o') = Some (chunk_client chunk)
      /\ backend (base o') = Some (chunk_backend chunk)
      /\ class_ok chunk o).


(** What handing one chunk to [RequestLog.__new__] may change: nothing; or
    a record is created for the chunk's descriptor; or the record bound
    to the descriptor changes and maybe leaves the table, and besides
    the backend record that its [backend] chunk names changes or is
    created. *)
Definition chunk_effect {F : PyFloat} (chunk : LogChunk) (s s' : State) : Prop :=
  calls s' = calls s /\ stderr s' = stderr s
  /\ (s' = s
      \/ (exists o',
             _lines s !! chunk_fd chunk = None
             /\ heap s' = heap s ++ [o']
             /\ _lines s' = <[chunk_fd chunk := List.length (heap s)]> (_lines s)
             /\ fd (base o') = chunk_fd chunk /\ role_ok o' /\ class_ok chunk o')
      \/ (exists a o o',
             _lines s !! chunk_fd chunk = Some a /\ heap s !! a = Some o
             /\ grows o o' /\ flags_ok chunk o o'
             /\ ((heap s' = <[a := o']> (heap s)
                  /\ (_lines s' = _lines s
                      \/ _lines s' = delete (chunk_fd chunk) (_lines s)
                         /\ is_client o = true))
                 \/ (exists kb b ob ob',
                        _lines s !! kb = Some b /\ b <> a /\ heap s !! b = Some ob
                        /\ is_backend ob = true /\ grows ob ob'
                        /\ client (base ob') = client (base ob)
                        /\ backend (base ob') = backend (base ob)
                        /\ heap s' = <[b := ob']> (<[a := o']> (heap s))
                        /\ _lines s' = _lines s)
                 \/ (exists kb ob',
                        _lines s !! kb = None /\ is_backend ob' = true
                        /\ fd (base ob') = kb
                        /\ client (base ob') = None /\ backend (base ob') = None
                        /\ heap s' = <[a := o']> (heap s) ++ [ob']
                        /\ _lines s' = <[kb := List.length (heap s)]> (_lines s))))).

(** The calls one chunk may add: none; the non-request consumer with a
    chunk on descriptor 0; or the consumer with a complete record of the
    heap, which with aggregation has the client flag. *)
Definition call_ok {F : PyFloat} (aggregate : bool) (s : State) (c : Call) : Prop :=
  match c with
  | NonRequest chunk => chunk_fd chunk = 0
  | Delivered ev o =>
      heap s !! ev = Some o /\ complete (base o) = true
      /\ (aggregate = true -> client (base o) = Some true)
  end.

(** What may be said of every call a run makes: the non-request consumer
    gets chunks on descriptor 0; the consumer gets complete records, and
    with aggregation client records only. *)
Definition delivery_ok {F : PyFloat} (aggregate : bool) (c : Call) : Prop :=
  match c with
  | NonRequest chunk => chunk_fd chunk = 0
  | Delivered ev o =>
      complete (base o) = true /\ (aggregate = true -> is_client o = true)
  end.

(** ** Streams that hold one client and one backend transaction

    The chunks of a log arrive in any order across descriptors.  To speak
    of every stream that holds the chunks of two transactions, and chunks
    that belong to no request between them, [merge3] says that a list is
    made of the elements of three lists, each in its own order. *)
Inductive merge3 {A : Type} : list A -> list A -> list A -> list A -> Prop :=
| merge3_nil : merge3 [] [] [] []
| merge3_fst x xs ys zs l : merge3 xs ys zs l -> merge3 (x :: xs) ys zs (x :: l)
| merge3_snd y xs ys zs l : merge3 xs ys zs l -> merge3 xs (y :: ys) zs (y :: l)
| merge3_thd z xs ys zs l : merge3 xs ys zs l -> merge3 xs ys (z :: zs) (z :: l).

(** The calls of the consumer among the calls recorded; the others are
    calls of the non-request consumer. *)
Definition is_delivered {F : PyFloat} (c : Call) : bool :=
  match c with Delivered _ _ => true | NonRequest _ => false end.

Definition deliveries {F : PyFloat} (cs : list Call) : list Call :=
  List.filter is_delivered cs.

(** How far a backend transaction has come: no record yet; a record that
    a client's reference has made, waiting for its [backendopen]; an open
    record; a record that has ended.  And a client transaction: no record
    yet, an open record, a record that has ended. *)
Inductive bphase := BNone | BHeld | BOpen | BDone.

Inductive cphase := CNone | COpen | CDone.

(** Whether the client's reference to the backend is among the chunks
    [done]. *)
Definition refers (done : list LogChunk) : bool :=
  existsb (fun c => String.eqb (chunk_tag c) "backend") done.

Definition bphase_of (done rest : list LogChunk) (refd : bool) : bphase :=
  match done, rest with
  | [], _ => if refd then BHeld else BNone
  | _ :: _, _ :: _ => BOpen
  | _ :: _, [] => BDone
  end.

Definition cphase_of (done rest : list LogChunk) : cphase :=
  match done, rest with
  | [], _ => CNone
  | _ :: _, _ :: _ => COpen
  | _ :: _, [] => CDone
  end.

(** The backend record of descriptor [kb], at [ab], in the phase [p] and
    with the chunks [done]. *)
Definition backend_at {F : PyFloat} (kb : Z) (ab : addr) (p : bphase)
    (done : list LogChunk) (st : State) : Prop :=
  match p with
  | BNone => _lines st !! kb = None
  | _ =>
      exists rb bb,
        _lines st !! kb = Some ab
        /\ heap st !! ab = Some (BackendRequestLog rb bb)
        /\ fd rb = kb /\ chunks rb = done
        /\ active rb = match p with BOpen => true | _ => false end
        /\ complete rb = match p with BDone => true | _ => false end
  end.

(** The client record of descriptor [kc], at [ac], in the phase [p] and
    with the chunks [done]; [refd] says whether it refers to the backend
    record at [ab] already. *)
Definition client_at {F : PyFloat} (kc : Z) (ac ab : addr) (p : cphase) (refd : bool)
    (done : list LogChunk) (st : State) : Prop :=
  match p with
  | COpen =>
      exists rc cc,
        _lines st !! kc = Some ac
        /\ heap st !! ac = Some (ClientRequestLog rc cc)
        /\ fd rc = kc /\ chunks rc = done
        /\ active rc = true /\ complete rc = false
        /\ backend_request cc = if refd then Some ab else None
  | _ => _lines st !! kc = None
  end.

(** The calls the consumer has had for the backend record and for the
    client record: one when the record has ended (for the backend record,
    without aggregation only), none before. *)
Definition delivered_backend {F : PyFloat} (aggregate : bool) (p : bphase) (ab : addr)
    (bchunks : list LogChunk) (bd : list Call) : Prop :=
  match p, aggregate with
  | BDone, false =>
      exists rb bb,
        bd = [Delivered ab (BackendRequestLog rb bb)]
        /\ complete rb = true /\ chunks rb = bchunks
  | _, _ => bd = []
  end.

Definition delivered_client {F : PyFloat} (p : cphase) (ac ab : addr)
    (cchunks : list LogChunk) (cd : list Call) : Prop :=
  match p with
  | CDone =>
      exists rc cc,
        cd = [Delivered ac (ClientRequestLog rc cc)]
        /\ complete rc = true /\ chunks rc = cchunks
        /\ backend_request cc = Some ab
  | _ => cd = []
  end.

(** The state of a run that began with the calls [cs0], when the two
    transactions are in the phases [pb] and [pc]. *)
Definition two_transactions {F : PyFloat} (aggregate : bool) (kb kc : Z)
    (bchunks cchunks : list LogChunk) (cs0 : list Call)
    (pb : bphase) (pc : cphase) (refd : bool) (bdone cdone : list LogChunk)
    (st : State) : Prop :=
  exists ab ac bd cd,
    backend_at kb ab pb bdone st
    /\ client_at kc ac ab pc refd cdone st
    /\ delivered_backend aggregate pb ab bchunks bd
    /\ delivered_client pc ac ab cchunks cd
    /\ (deliveries (calls st) = deliveries cs0 ++ bd ++ cd
        \/ deliveries (calls st) = deliveries cs0 ++ cd ++ bd).

(** ** [VarnishLogs.__init__]: applying the settings

    The constructor merges the keyword arguments into [default_settings]
    and turns every setting that is set into calls of the low-level log
    API. *)

Module Settings.

(** The values a setting is given: [None], a flag, a number, a string,
    or a tuple such as the pair of [filter_transactions_by_tag_regex]. *)
#[warnings="-register-all"]
Inductive value :=
| VNone
| VBool (b : bool)
| VInt (n : Z)
| VStr (s : string)
| VTuple (l : list value).

(** The truth value [if value] tests. *)
Definition truthy (v : value) : bool :=
  match v with
  | VNone => false
  | VBool b => b
  | VInt n => negb (Z.eqb n 0)
  | VStr s => negb (String.eqb s "")
  | VTuple l => negb (is_nil l)
  end.

Inductive fault :=
| KeyError
| TypeError
| IndexError
| Raised (what : string).

(** [value[i]]: an item of a tuple, a character of a string. *)
Definition getitem (v : value) (i : nat) : fault + value :=
  match v with
  | VTuple l =>
      match nth_error l i with
      | Some x => inr x
      | None => inl IndexError
      end
  | VStr s =>
      match String.get i s with
      | Some c => inr (VStr (String c EmptyString))
      | None => inl IndexError
      end
  | _ => inl TypeError
  end.

Definition default_settings : list (string * value) :=
  [ ("process_old_entries", VBool false);
    ("process_backend_requests", VBool false);
    ("process_client_requests", VBool false);
    ("include_tag", VNone);
    ("include_tag_regex", VNone);
    ("exclude_tag", VNone);
    ("exclude_tag_regex", VNone);
    ("stop_after", VNone);
    ("skip_first", VNone);
    ("read_entries_from_file", VNone);
    ("filter_transactions_by_tag_regex", VNone);
    ("ignore_case_in_regex", VBool false) ].

(** [d[key]] of a dict given by its items; [None] is [KeyError]. *)
Fixpoint getkey (key : string) (d : list (string * value)) : option value :=
  match d with
  | [] => None
  | (k, v) :: rest => if String.eqb key k then Some v else getkey key rest
  end.

(** [self.settings] after [dict(default_settings)] and [update(settings)]:
    a keyword argument wins over the default of its name. *)
Definition settings_of (kwargs : list (string * value)) (key : string) : option value :=
  match getkey key kwargs with
  | Some v => Some v
  | None => getkey key default_settings
  end.

(** [items] may be what [self.settings.items()] yields: each key once
    with its value, in an order the dict chooses. *)
Definition items_of (kwargs items : list (string * value)) : Prop :=
  NoDup (map fst items)
  /\ forall k v, In (k, v) items <-> settings_of kwargs k = Some v.

(** Modelled from the spec: the functions of [varnish.api.logs] are not
    part of the sources at hand.  Each is a control operation of the
    fragment source, found under the name of its setting and called with
    the handle [vd] and the arguments shown; a call returns or raises. *)
Record call := { fn : string; args : list value }.

Definition Api := call -> option fault.

(** A call is written to the trace, and may raise. *)
Definition invoke (api : Api) (c : call) (t : list call) : option fault * list call :=
  (api c, t ++ [c]).

(** The body of the loop for one item [(st, value)]. *)
Definition apply_setting (api : Api) (item : string * value) (t : list call)
    : option fault * list call :=
  let (st, v) := item in
  if negb (truthy v) then (None, t)
  else
    match getkey st default_settings with
    | None => (Some KeyError, t)
    | Some d =>
        let (r, t1) :=
          match d with
          | VNone => invoke api {| fn := st; args := [v] |} t
          | VBool false => invoke api {| fn := st; args := [] |} t
          | _ => (None, t)
          end in
        match r with
        | Some e => (Some e, t1)
        | None =>
            if String.eqb st "filter_transactions_by_tag_regex" then
              match getitem v 0 with
              | inl e => (Some e, t1)
              | inr a =>
                  match getitem v 1 with
                  | inl e => (Some e, t1)
                  | inr b => invoke api {| fn := st; args := [a; b] |} t1
                  end
              end
            else (None, t1)
        end
    end.

Fixpoint apply_settings (api : Api) (items : list (string * value)) (t : list call)
    : option fault * list call :=
  match items with
  | [] => (None, t)
  | item :: rest =>
      match apply_setting api item t with
      | (None, t1) => apply_settings api rest t1
      | (Some e, t1) => (Some e, t1)
      end
  end.

Definition init_call : call := {| fn := "init"; args := [VBool true] |}.

(** [VarnishLogs.__init__], from [logs.init(self.vd, True)] on: the
    exception that leaves it, if one does, and the calls made. *)
Definition VarnishLogs_init (api : Api) (items : list (string * value))
    : option fault * list call :=
  match invoke api init_call [] with
  | (None, t) => apply_settings api items t
  | (Some e, t) => (Some e, t)
  end.

(** An API that raises nothing. *)
Definition silent : Api := fun _ => None.

End Settings.

(** * Properties *)

Section Properties.

Context {F : PyFloat}.

Implicit Types (s : State) (o : PyObj) (a : addr) (chunk : LogChunk).

(** ** Running the primitives *)

Lemma getattr_Some {A} a (g : PyObj -> A) s o :
  heap s !! a = Some o -> getattr a g s = (inr (g o), s).
Proof. intros H. unfold getattr. now rewrite H. Qed.

Lemma setattr_Some a f s o :
  heap s !! a = Some o ->
  setattr a f s = (inr tt, set_heap (<[a := f o]> (heap s)) s).
Proof. intros H. unfold setattr. now rewrite H. Qed.

Lemma lookup_set_heap a f s o :
  heap s !! a = Some o ->
  heap (set_heap (<[a := f o]> (heap s)) s) !! a = Some (f o).
Proof.
  intros H. simpl. apply list_lookup_insert_eq.
  apply lookup_lt_Some in H. exact H.
Qed.

(** ** A record that is not active drops what is not a start chunk *)

Lemma add_chunk_inactive a chunk s o :
  heap s !! a = Some o ->
  active (base o) = false ->
  is_start chunk = false ->
  add_chunk a chunk s = (inr false, s).
Proof.
  intros Ho Hact Hst. unfold add_chunk, bind.
  rewrite (getattr_Some _ _ _ _ Ho).
  destruct (Z.eqb (fd (base o)) 0); [reflexivity|].
  rewrite (getattr_Some _ _ _ _ Ho), Hact, Hst. reflexivity.
Qed.

Lemma RequestLog_new_inactive chunk s a o :
  _lines s !! chunk_fd chunk = Some a ->
  heap s !! a = Some o ->
  active (base o) = false ->
  is_start chunk = false ->
  snd (RequestLog_new chunk s) = s.
Proof.
  intros Hl Ho Hact Hst. unfold RequestLog_new, bind, lines_get. rewrite Hl.
  destruct (chunk_client chunk).
  - rewrite (getattr_Some _ _ _ _ Ho). destruct (is_client o); simpl; [|reflexivity].
    now rewrite (add_chunk_inactive _ _ _ _ Ho Hact Hst).
  - destruct (chunk_backend chunk).
    + rewrite (getattr_Some _ _ _ _ Ho). destruct (is_backend o); simpl; [|reflexivity].
      now rewrite (add_chunk_inactive _ _ _ _ Ho Hact Hst).
    + simpl. now rewrite (add_chunk_inactive _ _ _ _ Ho Hact Hst).
Qed.

(** ** Symbolic runs

    A state is brought to the form [Build_State (<[a := o]> h) l c e], in
    which the object under work is on display; the primitives then run by
    rewriting. *)

Lemma state_at s a o :
  heap s !! a = Some o ->
  s = Build_State (<[a := o]> (heap s)) (_lines s) (calls s) (stderr s)
  /\ (a < List.length (heap s))%nat.
Proof.
  intros H. split.
  - destruct s as [h l c e]. cbn [heap _lines calls stderr] in *.
    now rewrite (list_insert_id _ _ _ H).
  - now apply lookup_lt_Some in H.
Qed.

Lemma getattr_at {A} a (g : PyObj -> A) h l c e x :
  (a < List.length h)%nat ->
  getattr a g (Build_State (<[a := x]> h) l c e)
  = (inr (g x), Build_State (<[a := x]> h) l c e).
Proof.
  intros H. unfold getattr. cbn [heap]. now rewrite list_lookup_insert_eq.
Qed.

Lemma setattr_at a f h l c e x :
  (a < List.length h)%nat ->
  setattr a f (Build_State (<[a := x]> h) l c e)
  = (inr tt, Build_State (<[a := f x]> h) l c e).
Proof.
  intros H. unfold setattr, set_heap. cbn [heap _lines calls stderr].
  now rewrite list_lookup_insert_eq, list_insert_insert_eq.
Qed.

Lemma lines_del_at k h l c e b :
  l !! k = Some b ->
  lines_del k (Build_State h l c e) = (inr tt, Build_State h (delete k l) c e).
Proof. intros H. unfold lines_del. cbn [_lines]. now rewrite H. Qed.

Ltac attrs :=
  cbn [
          fd chunks active complete rxheaders txheaders rxprotocol
          txprotocol method url status response length client backend
          id vcl_calls hash_data client_ip client_port started_at
          completed_at req_start_delay processing_time deliver_time
          backend_request _last_vcl backend_name director_name
          set_chunks set_active set_complete set_rxheaders
          set_txheaders set_rxprotocol set_txprotocol set_method
          set_url set_status set_response set_length set_client
          set_backend set_id set_vcl_calls set_hash_data set_client_ip
          set_client_port set_started_at set_completed_at
          set_req_start_delay set_processing_time set_deliver_time
          set_backend_request set_last_vcl set_backend_name
          set_director_name ] in *.

Ltac run_prims :=
  unfold bind, try_except, unpack, getattr_opt, alloc, lines_get, lines_set,
    record_call, print_exc, set_heap, set_lines, set_calls, set_stderr;
  repeat first
    [ progress cbn [ret raise unpack fst snd lines_get lines_set
                    alloc record_call print_exc getattr_opt
                    set_heap set_lines set_calls set_stderr
                    heap _lines calls stderr
                    chunk_fd chunk_role chunk_tag chunk_data
                    chunk_client chunk_backend is_start is_end
                    base is_client is_backend on_base on_client on_backend
                    client_attrs backend_attrs
                    andb orb negb]
    | progress simpl (String.eqb _ _)
    | rewrite getattr_at by assumption
    | rewrite setattr_at by assumption
    | erewrite lines_del_at by eassumption ].

Ltac unfold_methods :=
  unfold RequestLog_new, add_chunk, add_chunk_active, on_append_chunk,
    ClientRequestLog_on_append_chunk, BackendRequestLog_on_append_chunk,
    RequestLog_on_append_chunk, is_start, is_end, chunk_client, chunk_backend.

(** ** A backend record's end chunk *)

Lemma backend_end_run k tag data h l c e a r b :
  (a < List.length h)%nat ->
  l !! k = Some a ->
  fd r = k -> k <> 0 ->
  active r = true ->
  tag = "backendclose" \/ tag = "backendreuse" ->
  exists r' b',
    RequestLog_new (mk k RBackend tag data)
      (Build_State (<[a := BackendRequestLog r b]> h) l c e)
    = (inr (Some a), Build_State (<[a := BackendRequestLog r' b']> h) l c e)
    /\ complete r' = true /\ active r' = false /\ fd r' = k
    /\ chunks r' = chunks r ++ [mk k RBackend tag data]
    /\ client r' = Some false /\ backend r' = Some true
    /\ director_name b' = director_name b.
Proof.
  intros Ha Hl Hfd Hk Hact Htag.
  unfold_methods. unfold mk.
  destruct Htag; subst tag; run_prims.
  all: rewrite Hl; run_prims.
  all: rewrite Hfd.
  all: destruct (Z.eqb_spec k 0) as [|_]; [contradiction|].
  all: run_prims; rewrite Hact; run_prims.
  all: eexists _, _; split; [reflexivity|]; cbn; auto 10.
Qed.

(** ** Rules for [keeps] *)

Lemma keeps_ret {A} (I : State -> Prop) (x : A) : keeps I (ret x).
Proof. intros s H. exact H. Qed.

Lemma keeps_raise {A} (I : State -> Prop) e : keeps I (@raise _ A e).
Proof. intros s H. exact H. Qed.

Lemma keeps_bind {A B} (I : State -> Prop) (m : Py A) (k : A -> Py B) :
  keeps I m -> (forall x, keeps I (k x)) -> keeps I (bind m k).
Proof.
  intros Hm Hk s H. unfold bind. specialize (Hm s H).
  destruct (m s) as [[e|x] s1]; cbn [snd] in *; [exact Hm|]. now apply Hk.
Qed.

Lemma keeps_unpack {A} (I : State -> Prop) e (o : option A) : keeps I (unpack e o).
Proof. destruct o; [apply keeps_ret|apply keeps_raise]. Qed.

Lemma keeps_getattr {A} (I : State -> Prop) x (g : PyObj -> A) : keeps I (getattr x g).
Proof. intros s H. unfold getattr. now destruct (heap s !! x). Qed.

Lemma keeps_getattr_opt {A} (I : State -> Prop) x (g : PyObj -> option A) :
  keeps I (getattr_opt x g).
Proof.
  unfold getattr_opt. apply keeps_bind; [apply keeps_getattr|].
  intros o. apply keeps_unpack.
Qed.

Lemma keeps_lines_get (I : State -> Prop) k : keeps I (lines_get k).
Proof. intros s H. exact H. Qed.

Lemma keeps_and {A} (I J : State -> Prop) (m : Py A) :
  keeps I m -> keeps J m -> keeps (fun s => I s /\ J s) m.
Proof. intros HI HJ s [H1 H2]. split; [now apply HI|now apply HJ]. Qed.

Section ObjectInvariant.

Variables (a : addr) (P : PyObj -> Prop).

Lemma keeps_setattr x f :
  (forall o, P o -> P (f o)) -> keeps (obj_inv a P) (setattr x f).
Proof.
  intros Hf s (o & Ho & HP). unfold setattr.
  destruct (heap s !! x) as [ox|] eqn:Hx; cbn [snd]; [|now exists o].
  unfold obj_inv, set_heap. cbn [heap].
  destruct (decide (x = a)) as [->|Hne].
  - exists (f ox). rewrite list_lookup_insert_eq by (now apply lookup_lt_Some in Hx).
    split; [reflexivity|]. apply Hf. congruence.
  - exists o. now rewrite list_lookup_insert_ne.
Qed.

Lemma keeps_alloc o' : keeps (obj_inv a P) (alloc o').
Proof.
  intros s (o & Ho & HP). exists o. split; [|exact HP].
  unfold alloc, set_heap. cbn [snd heap]. rewrite lookup_app_l; [exact Ho|].
  now apply lookup_lt_Some in Ho.
Qed.

Lemma keeps_lines_set k b : keeps (obj_inv a P) (lines_set k b).
Proof. intros s H. exact H. Qed.

Lemma keeps_lines_del k : keeps (obj_inv a P) (lines_del k).
Proof. intros s H. unfold lines_del. now destruct (_lines s !! k). Qed.

Lemma keeps_record_call c : keeps (obj_inv a P) (record_call c).
Proof. intros s H. exact H. Qed.

Lemma keeps_print_exc e : keeps (obj_inv a P) (print_exc e).
Proof. intros s H. exact H. Qed.

End ObjectInvariant.

Lemma keeps_setattr_other (a : addr) (P : PyObj -> Prop) x f :
  x <> a -> keeps (obj_inv a P) (setattr x f).
Proof.
  intros Hne s (o & Ho & HP). unfold setattr.
  destruct (heap s !! x) as [ox|] eqn:Hx; cbn [snd]; [|now exists o].
  exists o. unfold set_heap. cbn [heap]. now rewrite list_lookup_insert_ne.
Qed.

(** What the assignments of the module do to the class and to the names
    of a record. *)
Lemma has_director_on_base d g o : has_director d o -> has_director d (on_base g o).
Proof. intros (r & b & -> & H). now exists (g r), b. Qed.

Lemma has_director_on_client d g o : has_director d o -> has_director d (on_client g o).
Proof. intros (r & b & -> & H). now exists r, b. Qed.

Lemma has_director_set_name d v o :
  has_director d o -> has_director d (on_backend (set_backend_name v) o).
Proof. intros (r & b & -> & H). now exists r, (set_backend_name v b). Qed.

Lemma has_backend_name_on_base n g o :
  has_backend_name n o -> has_backend_name n (on_base g o).
Proof. intros (r & b & -> & H). now exists (g r), b. Qed.

Lemma has_backend_name_on_client n g o :
  has_backend_name n o -> has_backend_name n (on_client g o).
Proof. intros (r & b & -> & H). now exists r, b. Qed.

Lemma has_backend_name_set_director n v o :
  has_backend_name n o -> has_backend_name n (on_backend (set_director_name v) o).
Proof. intros (r & b & -> & H). now exists r, (set_director_name v b). Qed.

Lemma is_client_on_base g o : is_client o = true -> is_client (on_base g o) = true.
Proof. now destruct o. Qed.

Lemma is_client_on_client g o : is_client o = true -> is_client (on_client g o) = true.
Proof. now destruct o. Qed.

Lemma is_client_on_backend g o : is_client o = true -> is_client (on_backend g o) = true.
Proof. now destruct o. Qed.

Lemma is_backend_on_base g o : is_backend o = true -> is_backend (on_base g o) = true.
Proof. now destruct o. Qed.

Lemma is_backend_on_client g o : is_backend o = true -> is_backend (on_client g o) = true.
Proof. now destruct o. Qed.

Lemma is_backend_on_backend g o : is_backend o = true -> is_backend (on_backend g o) = true.
Proof. now destruct o. Qed.

Create HintDb keeps_db.

#[local] Hint Resolve is_backend_on_base is_backend_on_client is_backend_on_backend : keeps_db.

#[local] Hint Resolve has_director_on_base has_director_on_client has_director_set_name
  has_backend_name_on_base has_backend_name_on_client has_backend_name_set_director
  is_client_on_base is_client_on_client is_client_on_backend : keeps_db.

(** One step of a proof that a method keeps an invariant on an object:
    the rule of the construct at the head, with the closure of the
    invariant under the assignment at the leaves. *)
Ltac keeps_step :=
  lazymatch goal with
  | |- keeps _ (bind _ _) => apply keeps_bind; [|intros ?]
  | |- keeps _ (ret _) => apply keeps_ret
  | |- keeps _ (raise _) => apply keeps_raise
  | |- keeps _ (unpack _ _) => apply keeps_unpack
  | |- keeps _ (getattr _ _) => apply keeps_getattr
  | |- keeps _ (getattr_opt _ _) => apply keeps_getattr_opt
  | |- keeps _ (lines_get _) => apply keeps_lines_get
  | |- keeps _ (lines_set _ _) => apply keeps_lines_set
  | |- keeps _ (lines_del _) => apply keeps_lines_del
  | |- keeps _ (alloc _) => apply keeps_alloc
  | |- keeps _ (setattr _ _) => apply keeps_setattr; intros; eauto with keeps_db
  | |- keeps _ (if ?b then _ else _) => destruct b
  | |- keeps _ (match ?x with _ => _ end) => destruct x
  | |- keeps _ _ => solve [eauto with keeps_db]
  end.

Ltac keeps_auto := cbv zeta; repeat keeps_step.

(** ** A client chunk on a descriptor held by a backend record *)

Lemma client_chunk_on_backend k tag data s a r b :
  _lines s !! k = Some a ->
  heap s !! a = Some (BackendRequestLog r b) ->
  RequestLog_new (mk k RClient tag data) s = (inl AssertionError, s).
Proof.
  intros Hl Ho. unfold RequestLog_new, bind, lines_get, mk.
  cbn [chunk_fd chunk_client chunk_role]. rewrite Hl.
  now rewrite (getattr_Some _ _ _ _ Ho).
Qed.

(** C1 (as amended).  A descriptor on which a backend record has reached
    completion stays bound to that record, and every client chunk that
    comes on it afterwards makes [RequestLog.__new__] fail its assertion:
    the state is left as it was and no client record comes to exist. *)
Theorem C1_reuse_after_backend_asserts k tag data s a r b :
  _lines s !! k = Some a ->
  heap s !! a = Some (BackendRequestLog r b) ->
  fd r = k -> k <> 0 -> active r = true ->
  tag = "backendclose" \/ tag = "backendreuse" ->
  let s1 := snd (RequestLog_new (mk k RBackend tag data) s) in
  (exists r' b', heap s1 !! a = Some (BackendRequestLog r' b')
                 /\ complete r' = true /\ active r' = false)
  /\ _lines s1 !! k = Some a
  /\ forall ctag cdata,
       RequestLog_new (mk k RClient ctag cdata) s1 = (inl AssertionError, s1).
Proof.
  intros Hl Ho Hfd Hk Hact Htag s1.
  destruct (state_at _ _ _ Ho) as [Hs Hlt].
  destruct (backend_end_run k tag data (heap s) (_lines s) (calls s) (stderr s)
              a r b Hlt Hl Hfd Hk Hact Htag)
    as (r' & b' & Hrun & Hc & Ha & _).
  assert (Hs1 : s1 = Build_State (<[a := BackendRequestLog r' b']> (heap s))
                       (_lines s) (calls s) (stderr s)).
  { subst s1. rewrite Hs at 1. now rewrite Hrun. }
  assert (Hh1 : heap s1 !! a = Some (BackendRequestLog r' b')).
  { rewrite Hs1. cbn [heap]. now apply list_lookup_insert_eq. }
  assert (Hl1 : _lines s1 !! k = Some a) by now rewrite Hs1.
  split; [now exists r', b'|]. split; [exact Hl1|].
  intros ctag cdata. exact (client_chunk_on_backend _ _ _ _ _ _ _ Hl1 Hh1).
Qed.

(** C3 (as amended).  For a chunk of a client or of a backend,
    [RequestLog.__new__] gives the record of the chunk's descriptor, the
    one [_lines] held or the one just created, whenever it does not
    raise, whether or not the chunk has completed that record. *)
Theorem C3_factory_returns_the_record chunk s :
  chunk_role chunk <> RNone ->
  match fst (RequestLog_new chunk s) with
  | inr ev => ev = Some (default (List.length (heap s)) (_lines s !! chunk_fd chunk))
  | inl _ => True
  end.
Proof.
  intros Hrole. unfold RequestLog_new, bind, lines_get, chunk_client, chunk_backend.
  destruct (_lines s !! chunk_fd chunk) as [obj|] eqn:Hl; cbn [default].
  - destruct (chunk_role chunk); try contradiction.
    + destruct (getattr obj is_client s) as [[e|[]] s1]; cbn; auto.
      destruct (add_chunk obj chunk s1) as [[e|v] s2]; cbn; auto.
    + destruct (getattr obj is_backend s) as [[e|[]] s1]; cbn; auto.
      destruct (add_chunk obj chunk s1) as [[e|v] s2]; cbn; auto.
  - destruct (chunk_role chunk); try contradiction; unfold alloc, lines_set.
    + destruct (add_chunk _ chunk _) as [[e|v] s2]; cbn; auto.
    + destruct (add_chunk _ chunk _) as [[e|v] s2]; cbn; auto.
Qed.

(** ** A client record's end chunk *)

Lemma client_end_run k data h l cs e a r c :
  (a < List.length h)%nat ->
  l !! k = Some a ->
  fd r = k -> k <> 0 ->
  active r = true ->
  exists res r' c',
    RequestLog_new (mk k RClient "reqend" data)
      (Build_State (<[a := ClientRequestLog r c]> h) l cs e)
    = (res, Build_State (<[a := ClientRequestLog r' c']> h) (delete k l) cs e)
    /\ complete r' = true /\ active r' = false /\ fd r' = k
    /\ chunks r' = chunks r ++ [mk k RClient "reqend" data]
    /\ client r' = Some true /\ backend r' = Some false
    /\ backend_request c' = backend_request c
    /\ (res = inr (Some a) \/ res = inl ValueError).
Proof.
  intros Ha Hl Hfd Hk Hact.
  unfold_methods. unfold client_reqend, mk. run_prims.
  rewrite Hl; run_prims. rewrite Hfd.
  destruct (Z.eqb_spec k 0) as [|_]; [contradiction|].
  run_prims. rewrite Hact. run_prims. attrs.
  rewrite Hfd. run_prims.
  destruct (PyStr.split " " data) as [|t1 [|t2 [|t3 [|t4 [|t5 [|t6 [|t7 ts]]]]]]];
    run_prims;
    try (eexists _, _, _; split; [reflexivity|]; cbn; auto 10; fail).
  repeat (match goal with
          | |- context [match float ?x with _ => _ end] => destruct (float x)
          | |- context [match fromtimestamp ?x with _ => _ end] => destruct (fromtimestamp x)
          end; run_prims;
          try (eexists _, _, _; split; [reflexivity|]; cbn; auto 10; fail)).
Qed.

(** ** A chunk on a descriptor that [_lines] does not hold *)

Lemma heap_snoc_at (h : list PyObj) x :
  h ++ [x] = <[List.length h := x]> (h ++ [x])
  /\ (List.length h < List.length (h ++ [x]))%nat.
Proof.
  split.
  - symmetry. apply list_insert_id. rewrite lookup_app_r by lia.
    now rewrite Nat.sub_diag.
  - rewrite length_app. simpl. lia.
Qed.

Lemma client_start_run k data h l cs e :
  l !! k = None -> k <> 0 ->
  exists res o',
    RequestLog_new (mk k RClient "reqstart" data) (Build_State h l cs e)
    = (res, Build_State (<[List.length h := o']> (h ++ [ClientRequestLog_init k false]))
              (<[k := List.length h]> l) cs e)
    /\ is_client o' = true
    /\ fd (base o') = k /\ active (base o') = true /\ complete (base o') = false
    /\ chunks (base o') = [mk k RClient "reqstart" data]
    /\ match PyStr.split " " data with
       | [ip; port; xid] =>
           res = inr (Some (List.length h))
           /\ (exists c, client_attrs o' = Some c /\ client_ip c = Some ip
                         /\ client_port c = Some port /\ id c = Some xid
                         /\ backend_request c = None)
       | _ => res = inl ValueError
       end.
Proof.
  intros Hl Hk. unfold_methods. unfold mk. run_prims. rewrite Hl. run_prims.
  destruct (heap_snoc_at h (ClientRequestLog_init k false)) as [Hh Hlt].
  set (h' := h ++ [ClientRequestLog_init k false]) in *.
  replace (Build_State h' (<[k:=List.length h]> l) cs e)
    with (Build_State (<[List.length h := ClientRequestLog_init k false]> h')
            (<[k:=List.length h]> l) cs e) by (now rewrite <- Hh).
  unfold ClientRequestLog_init at 1, RequestLog_init. run_prims. attrs.
  destruct (Z.eqb_spec k 0) as [|_]; [contradiction|].
  run_prims. attrs. run_prims.
  destruct (PyStr.split " " data) as [|t1 [|t2 [|t3 [|t4 ts]]]]; run_prims.
  all: eexists _, _; split; [reflexivity|]; cbn; auto 10.
  repeat split; eauto 10.
Qed.

Lemma backend_start_run k data h l cs e :
  l !! k = None -> k <> 0 ->
  exists o',
    RequestLog_new (mk k RBackend "backendopen" data) (Build_State h l cs e)
    = (inr (Some (List.length h)),
       Build_State (<[List.length h := o']> (h ++ [BackendRequestLog_init k false]))
         (<[k := List.length h]> l) cs e)
    /\ is_backend o' = true
    /\ fd (base o') = k /\ active (base o') = true /\ complete (base o') = false
    /\ chunks (base o') = [mk k RBackend "backendopen" data]
    /\ exists b, backend_attrs o' = Some b /\ director_name b = None
                 /\ backend_name b = head (PyStr.split " " data).
Proof.
  intros Hl Hk. unfold_methods. unfold mk. run_prims. rewrite Hl. run_prims.
  destruct (heap_snoc_at h (BackendRequestLog_init k false)) as [Hh Hlt].
  set (h' := h ++ [BackendRequestLog_init k false]) in *.
  replace (Build_State h' (<[k:=List.length h]> l) cs e)
    with (Build_State (<[List.length h := BackendRequestLog_init k false]> h')
            (<[k:=List.length h]> l) cs e) by (now rewrite <- Hh).
  unfold BackendRequestLog_init at 1, RequestLog_init. run_prims. attrs.
  destruct (Z.eqb_spec k 0) as [|_]; [contradiction|].
  run_prims. attrs. run_prims.
  eexists; split; [reflexivity|]; cbn; eauto 10.
Qed.

Lemma insert_snoc (h : list PyObj) x y :
  <[List.length h := x]> (h ++ [y]) = h ++ [x].
Proof.
  rewrite insert_app_r_alt by lia. now rewrite Nat.sub_diag.
Qed.

(** Whatever the chunk, a descriptor that is not bound gets a new record,
    placed after the existing objects, and nothing else moves. *)
Lemma unbound_binds_new chunk s :
  _lines s !! chunk_fd chunk = None ->
  chunk_fd chunk <> 0 ->
  chunk_role chunk <> RNone ->
  exists o',
    heap (snd (RequestLog_new chunk s)) = heap s ++ [o']
    /\ _lines (snd (RequestLog_new chunk s))
       = <[chunk_fd chunk := List.length (heap s)]> (_lines s)
    /\ calls (snd (RequestLog_new chunk s)) = calls s
    /\ stderr (snd (RequestLog_new chunk s)) = stderr s
    /\ is_client o' = chunk_client chunk
    /\ fd (base o') = chunk_fd chunk
    /\ active (base o') = is_start chunk
    /\ complete (base o') = false.
Proof.
  destruct chunk as [k role tag data], s as [h l cs e].
  cbn [chunk_fd chunk_role heap _lines calls stderr]. intros Hl Hk Hrole.
  destruct (is_start (Build_LogChunk k role tag data)) eqn:Hst.
  - (* the start chunk of its role *)
    unfold is_start, chunk_client, chunk_backend in Hst. cbn in Hst.
    destruct role; try contradiction; cbn in Hst.
    + rewrite orb_false_r in Hst. apply String.eqb_eq in Hst. subst tag.
      destruct (client_start_run k data h l cs e Hl Hk)
        as (res & o' & Hrun & Hc & Hfd & Ha & Hco & _).
      unfold mk in Hrun. rewrite Hrun. cbn [snd heap _lines calls stderr].
      exists o'. rewrite insert_snoc. unfold chunk_client; cbn. auto 10.
    + apply String.eqb_eq in Hst. subst tag.
      destruct (backend_start_run k data h l cs e Hl Hk)
        as (o' & Hrun & Hc & Hfd & Ha & Hco & _).
      unfold mk in Hrun. rewrite Hrun. cbn [snd heap _lines calls stderr].
      exists o'. rewrite insert_snoc. unfold chunk_client; cbn.
      destruct o'; try discriminate. cbn in *. auto 10.
  - (* any other chunk: the new record drops it *)
    unfold RequestLog_new, chunk_client, chunk_backend.
    destruct role; try contradiction; run_prims; rewrite Hl; run_prims.
    + erewrite (add_chunk_inactive _ _ _ (ClientRequestLog_init k false)); eauto.
      * cbn. eexists; repeat split; eauto.
      * cbn [heap]. rewrite lookup_app_r by lia. now rewrite Nat.sub_diag.
    + erewrite (add_chunk_inactive _ _ _ (BackendRequestLog_init k false)); eauto.
      * cbn. eexists; repeat split; eauto.
      * cbn [heap]. rewrite lookup_app_r by lia. now rewrite Nat.sub_diag.
Qed.

(** C2 (as amended).  A record that is complete and no longer active is
    left as it is by every chunk of its descriptor that is not a start
    chunk; and the [reqend] chunk of an active client record makes the
    record complete and takes its descriptor out of [_lines] at once, so
    that the next client or backend chunk on that descriptor binds a new
    record and leaves the completed one alone. *)
Theorem C2_completed_record_and_unbinding :
  (forall chunk s a o,
      _lines s !! chunk_fd chunk = Some a ->
      heap s !! a = Some o ->
      complete (base o) = true ->
      active (base o) = false ->
      is_start chunk = false ->
      snd (RequestLog_new chunk s) = s)
  /\ (forall k data s a r c,
        _lines s !! k = Some a ->
        heap s !! a = Some (ClientRequestLog r c) ->
        fd r = k -> k <> 0 -> active r = true ->
        let s1 := snd (RequestLog_new (mk k RClient "reqend" data) s) in
        _lines s1 !! k = None
        /\ (exists r' c', heap s1 !! a = Some (ClientRequestLog r' c')
                          /\ complete r' = true /\ active r' = false)
        /\ forall chunk,
             chunk_fd chunk = k -> chunk_role chunk <> RNone ->
             let s2 := snd (RequestLog_new chunk s1) in
             _lines s2 !! k = Some (List.length (heap s1))
             /\ heap s2 !! a = heap s1 !! a).
Proof.
  split.
  - intros chunk s a o Hl Ho _ Hact Hst.
    exact (RequestLog_new_inactive _ _ _ _ Hl Ho Hact Hst).
  - intros k data s a r c Hl Ho Hfd Hk Hact s1.
    destruct (state_at _ _ _ Ho) as [Hs Hlt].
    destruct (client_end_run k data (heap s) (_lines s) (calls s) (stderr s)
                a r c Hlt Hl Hfd Hk Hact)
      as (res & r' & c' & Hrun & Hc & Ha & _).
    assert (Hs1 : s1 = Build_State (<[a := ClientRequestLog r' c']> (heap s))
                         (delete k (_lines s)) (calls s) (stderr s)).
    { subst s1. rewrite Hs at 1. now rewrite Hrun. }
    assert (Hh1 : heap s1 !! a = Some (ClientRequestLog r' c')).
    { rewrite Hs1. cbn [heap]. now apply list_lookup_insert_eq. }
    assert (Hl1 : _lines s1 !! k = None).
    { rewrite Hs1. cbn [_lines]. apply lookup_delete_eq. }
    split; [exact Hl1|]. split; [now exists r', c'|].
    intros chunk Hck Hrole s2. subst s2.
    rewrite <- Hck in Hl1. assert (Hk' : chunk_fd chunk <> 0) by now rewrite Hck.
    destruct (unbound_binds_new chunk s1 Hl1 Hk' Hrole) as (o' & Hh & Hls & _).
    rewrite Hh, Hls, <- Hck. split; [apply lookup_insert_eq|].
    apply lookup_app_l. now apply lookup_lt_Some in Hh1.
Qed.

(** ** Request headers of a client record *)

Lemma cb_rxheader callback aggregate nrc k d kv h l cs e a r c :
  (a < List.length h)%nat ->
  l !! k = Some a ->
  fd r = k -> k <> 0 ->
  active r = true -> complete r = false ->
  header_item d = Some kv ->
  cb callback aggregate nrc (mk k RClient "rxheader" d)
    (Build_State (<[a := ClientRequestLog r c]> h) l cs e)
  = (inr true,
     Build_State (<[a := ClientRequestLog (with_rxheader k d kv r) c]> h) l cs e).
Proof.
  intros Ha Hl Hfd Hk Hact Hco Hd.
  unfold cb, cb_deliver, call_consumer. unfold_methods. unfold mk. run_prims.
  destruct (Z.eqb_spec k 0) as [|_]; [contradiction|].
  cbn [existsb _ignored_tags]. run_prims. rewrite Hl. run_prims. attrs.
  rewrite Hfd. destruct (Z.eqb_spec k 0) as [|_]; [contradiction|].
  run_prims. rewrite Hact. run_prims. rewrite Hd. run_prims. attrs.
  rewrite Hco. run_prims. reflexivity.
Qed.

Lemma dispatch_requests_cons callback aggregate nrc chunk rest s :
  dispatch_requests callback aggregate nrc (chunk :: rest) s
  = match cb callback aggregate nrc chunk s with
    | (inr _, s') => dispatch_requests callback aggregate nrc rest s'
    | (inl e, s') => (inl e, s')
    end.
Proof. reflexivity. Qed.

Lemma rxheaders_run callback aggregate nrc k h l cs e a c datas :
  (a < List.length h)%nat ->
  l !! k = Some a -> k <> 0 ->
  forall kvs r,
    fd r = k -> active r = true -> complete r = false ->
    Forall2 (fun d kv => header_item d = Some kv) datas kvs ->
    exists r',
      dispatch_requests callback aggregate nrc (map (mk k RClient "rxheader") datas)
        (Build_State (<[a := ClientRequestLog r c]> h) l cs e)
      = (inr tt, Build_State (<[a := ClientRequestLog r' c]> h) l cs e)
      /\ rxheaders r' = rxheaders r ++ kvs
      /\ chunks r' = chunks r ++ map (mk k RClient "rxheader") datas.
Proof.
  intros Ha Hl Hk. induction datas as [|d datas IH]; intros kvs r Hfd Hact Hco Hall.
  - apply Forall2_nil_inv_l in Hall as ->. exists r. now rewrite !app_nil_r.
  - apply Forall2_cons_inv_l in Hall as (kv & kvs' & Hd & Hrest & ->).
    cbn [map]. rewrite dispatch_requests_cons.
    rewrite (cb_rxheader _ _ _ _ _ kv _ _ _ _ _ _ _ Ha Hl Hfd Hk Hact Hco Hd).
    destruct (IH kvs' (with_rxheader k d kv r)) as (r' & Hrun & Hh & Hc); auto.
    exists r'. split; [exact Hrun|]. rewrite Hh, Hc. unfold with_rxheader, md_setitem.
    attrs. destruct kv. now rewrite <- !app_assoc.
Qed.

Lemma md_getall_app key (m1 m2 : list (string * string)) :
  md_getall key (m1 ++ m2) = md_getall key m1 ++ md_getall key m2.
Proof. unfold md_getall. now rewrite filter_app, map_app. Qed.

(** C7.  Request-header chunks given to an active client record add one
    entry each to [rxheaders], in the order of arrival: the key is what
    stands before the first colon, stripped and in lower case, the value
    is the rest, stripped.  So [N] chunks make the mapping [N] entries
    longer, and the values recorded under one key keep their order. *)
Theorem C7_request_headers callback aggregate nrc k datas kvs s a r c :
  _lines s !! k = Some a ->
  heap s !! a = Some (ClientRequestLog r c) ->
  fd r = k -> k <> 0 -> active r = true -> complete r = false ->
  Forall2 (fun d kv => exists key value,
               PyStr.split1 ":" d = Some (key, value)
               /\ kv = (PyStr.lower (PyStr.strip key), PyStr.strip value))
          datas kvs ->
  let s' := snd (dispatch_requests callback aggregate nrc
                   (map (mk k RClient "rxheader") datas) s) in
  exists r',
    heap s' !! a = Some (ClientRequestLog r' c)
    /\ rxheaders r' = rxheaders r ++ kvs
    /\ List.length (rxheaders r') = (List.length (rxheaders r) + List.length datas)%nat
    /\ forall key, md_getall key (rxheaders r')
                   = md_getall key (rxheaders r) ++ md_getall key kvs.
Proof.
  intros Hl Ho Hfd Hk Hact Hco Hall s'.
  destruct (state_at _ _ _ Ho) as [Hs Hlt].
  assert (Hitems : Forall2 (fun d kv => header_item d = Some kv) datas kvs).
  { eapply Forall2_impl; [exact Hall|]. intros d kv (key & value & Hsp & ->).
    unfold header_item. now rewrite Hsp. }
  destruct (rxheaders_run callback aggregate nrc k (heap s) (_lines s) (calls s)
              (stderr s) a c datas Hlt Hl Hk kvs r Hfd Hact Hco Hitems)
    as (r' & Hrun & Hh & _).
  exists r'. subst s'. rewrite Hs at 1. rewrite Hrun. cbn [snd heap].
  split; [now apply list_lookup_insert_eq|]. split; [exact Hh|].
  split.
  - rewrite Hh, length_app. f_equal. symmetry. eapply Forall2_length. exact Hall.
  - intros key. now rewrite Hh, md_getall_app.
Qed.

(** ** A backend record that is complete and still bound *)


(** ** The names of a backend record *)

Section Names.

Variables (a : addr).

(** Invariants on the object at [a] that the assignments of the base
    class and of the client class, and the [backend_name] assignment,
    respect. *)
Section BaseAndClient.

Variable P : PyObj -> Prop.
Hypothesis P_base : forall g o, P o -> P (on_base g o).
Hypothesis P_client : forall g o, P o -> P (on_client g o).

#[local] Hint Resolve P_base P_client : keeps_db.

Lemma keeps_RequestLog_on_append_chunk self chunk :
  keeps (obj_inv a P) (RequestLog_on_append_chunk self chunk).
Proof. unfold RequestLog_on_append_chunk. keeps_auto. Qed.

Lemma keeps_client_reqend self chunk :
  keeps (obj_inv a P) (client_reqend self chunk).
Proof. unfold client_reqend. keeps_auto. Qed.

End BaseAndClient.

#[local] Hint Resolve keeps_RequestLog_on_append_chunk keeps_client_reqend : keeps_db.

(** *** [director_name], once it holds a name *)

Section Director.

Variable d : option string.
Hypothesis d_set : PyStr.truthy d = true.

Lemma keeps_propagate_director b director :
  keeps (obj_inv a (has_director d)) (propagate_director b director).
Proof.
  intros s (o & Ho & r & bb & -> & Hd).
  unfold propagate_director, bind, getattr.
  assert (Hinv : obj_inv a (has_director d) s).
  { exists (BackendRequestLog r bb). split; [exact Ho|]. now exists r, bb. }
  destruct (heap s !! b) as [ob|] eqn:Hb; cbn [snd]; [|exact Hinv].
  destruct ob as [rc cc|rb b2]; cbn; [exact Hinv|].
  destruct (PyStr.truthy (director_name b2)) eqn:Ht; cbn; [exact Hinv|].
  apply keeps_setattr_other; [|exact Hinv].
  intros ->. rewrite Ho in Hb. injection Hb as <- <-. congruence.
Qed.

#[local] Hint Resolve keeps_propagate_director : keeps_db.

Lemma keeps_director_client_backend_ref self chunk :
  keeps (obj_inv a (has_director d)) (client_backend_ref self chunk).
Proof. unfold client_backend_ref, new_backend_request. keeps_auto. Qed.

#[local] Hint Resolve keeps_director_client_backend_ref : keeps_db.

Lemma keeps_director_on_append_chunk self chunk :
  keeps (obj_inv a (has_director d)) (on_append_chunk self chunk).
Proof.
  unfold on_append_chunk, ClientRequestLog_on_append_chunk,
    BackendRequestLog_on_append_chunk.
  keeps_auto.
Qed.

#[local] Hint Resolve keeps_director_on_append_chunk : keeps_db.

Lemma keeps_director_add_chunk self chunk :
  keeps (obj_inv a (has_director d)) (add_chunk self chunk).
Proof. unfold add_chunk, add_chunk_active. keeps_auto. Qed.

#[local] Hint Resolve keeps_director_add_chunk : keeps_db.

Lemma keeps_director_RequestLog_new chunk :
  keeps (obj_inv a (has_director d)) (RequestLog_new chunk).
Proof. unfold RequestLog_new. keeps_auto. Qed.

End Director.

(** *** [backend_name], under the chunks of a client *)

Section BackendName.

Variable n : option string.

Abbreviation named := (obj_inv a (has_backend_name n)).
Abbreviation client_at self := (obj_inv self (fun o => is_client o = true)).

Lemma keeps_name_new_backend_request self k nm :
  keeps named (new_backend_request self k nm).
Proof.
  intros s Hinv. unfold new_backend_request.
  assert (Hlt : (a < List.length (heap s))%nat).
  { destruct Hinv as (o & Ho & _). now apply lookup_lt_Some in Ho. }
  unfold bind at 1. unfold alloc at 1.
  apply (keeps_alloc a _ (BackendRequestLog_init k false)) in Hinv.
  unfold alloc in Hinv. cbn [snd] in Hinv. revert Hinv.
  generalize (set_heap (heap s ++ [BackendRequestLog_init k false]) s).
  change (keeps named
            (bind (setattr self (on_client (set_backend_request (Some (List.length (heap s))))))
               (fun _ => bind (setattr (List.length (heap s))
                                 (on_backend (set_backend_name (Some nm))))
                           (fun _ => bind (lines_set k (List.length (heap s)))
                                       (fun _ => ret (List.length (heap s))))))).
  apply keeps_bind; [keeps_auto|intros _].
  apply keeps_bind; [apply keeps_setattr_other; lia|intros _].
  keeps_auto.
Qed.

#[local] Hint Resolve keeps_name_new_backend_request : keeps_db.

Lemma keeps_name_client_on_append_chunk self chunk :
  keeps named (ClientRequestLog_on_append_chunk self chunk).
Proof.
  unfold ClientRequestLog_on_append_chunk, client_backend_ref, propagate_director.
  keeps_auto.
Qed.

Lemma keeps_class_on_append_chunk self x chunk :
  keeps (client_at self) (on_append_chunk x chunk).
Proof.
  unfold on_append_chunk, ClientRequestLog_on_append_chunk,
    BackendRequestLog_on_append_chunk, RequestLog_on_append_chunk,
    client_backend_ref, client_reqend, new_backend_request, propagate_director.
  keeps_auto.
Qed.

Lemma keeps_name_on_append_chunk self chunk :
  keeps (fun s => named s /\ client_at self s) (on_append_chunk self chunk).
Proof.
  intros s [Hn Hc]. split; [|now apply keeps_class_on_append_chunk].
  destruct Hc as (o & Ho & Hc). unfold on_append_chunk, bind.
  rewrite (getattr_Some _ _ _ _ Ho), Hc.
  now apply keeps_name_client_on_append_chunk.
Qed.

#[local] Hint Resolve keeps_name_on_append_chunk : keeps_db.

Lemma keeps_name_add_chunk self chunk :
  keeps (fun s => named s /\ client_at self s) (add_chunk self chunk).
Proof.
  unfold add_chunk, add_chunk_active.
  cbv zeta.
  repeat first
    [ apply keeps_name_on_append_chunk
    | keeps_step
    | apply keeps_and ].
Qed.

Lemma keeps_name_RequestLog_new chunk :
  chunk_role chunk = RClient ->
  keeps named (RequestLog_new chunk).
Proof.
  intros Hrole s Hinv. unfold RequestLog_new, chunk_client, chunk_backend.
  rewrite Hrole. unfold bind at 1. unfold lines_get at 1.
  destruct (_lines s !! chunk_fd chunk) as [obj|].
  - unfold bind, getattr.
    destruct (heap s !! obj) as [o|] eqn:Ho; cbn [snd]; [|exact Hinv].
    destruct (is_client o) eqn:Hc; cbn [snd ret raise]; [|exact Hinv].
    assert (HJ : named s /\ client_at obj s) by (split; [exact Hinv|now exists o]).
    apply (keeps_name_add_chunk obj chunk) in HJ.
    destruct (add_chunk obj chunk s) as [[e|v] s1]; cbn [snd] in *; apply HJ.
  - unfold bind at 1. unfold alloc at 1.
    assert (HJ : named (set_heap (heap s ++ [ClientRequestLog_init (chunk_fd chunk) false]) s)
                 /\ client_at (List.length (heap s))
                      (set_heap (heap s ++ [ClientRequestLog_init (chunk_fd chunk) false]) s)).
    { split.
      - now apply (keeps_alloc a _ (ClientRequestLog_init (chunk_fd chunk) false)) in Hinv.
      - eexists. cbn [heap set_heap].
        split; [rewrite lookup_app_r by lia; now rewrite Nat.sub_diag|reflexivity]. }
    revert HJ. generalize (set_heap (heap s ++ [ClientRequestLog_init (chunk_fd chunk) false]) s).
    intros s1 HJ. unfold bind at 1. unfold lines_set at 1.
    change (set_lines (<[chunk_fd chunk:=List.length (heap s)]> (_lines s1)) s1)
      with (Build_State (heap s1) (<[chunk_fd chunk:=List.length (heap s)]> (_lines s1))
              (calls s1) (stderr s1)).
    assert (HJ' : named (Build_State (heap s1)
                          (<[chunk_fd chunk:=List.length (heap s)]> (_lines s1))
                          (calls s1) (stderr s1))
                  /\ client_at (List.length (heap s))
                       (Build_State (heap s1)
                          (<[chunk_fd chunk:=List.length (heap s)]> (_lines s1))
                          (calls s1) (stderr s1))) by exact HJ.
    apply (keeps_name_add_chunk (List.length (heap s)) chunk) in HJ'.
    unfold bind.
    destruct (add_chunk _ chunk _) as [[e|v] s2]; cbn [snd] in *; apply HJ'.
Qed.

End BackendName.

End Names.

(** C8 (as amended).  Whatever the chunk given to [RequestLog.__new__], a
    backend record stays a backend record and keeps its [director_name]
    once this holds a name that is not empty; and no chunk of a client
    changes the [backend_name] of a backend record that exists.  (The
    record's own [backendopen] and [backendreuse] chunks assign
    [backend_name] whatever it held.) *)
Theorem C8_director_set_once_name_kept_by_clients chunk s a r b :
  heap s !! a = Some (BackendRequestLog r b) ->
  exists r' b',
    heap (snd (RequestLog_new chunk s)) !! a = Some (BackendRequestLog r' b')
    /\ (PyStr.truthy (director_name b) = true -> director_name b' = director_name b)
    /\ (chunk_role chunk = RClient -> backend_name b' = backend_name b).
Proof.
  intros Ho.
  assert (Hbk : obj_inv a (fun o => is_backend o = true) (snd (RequestLog_new chunk s))).
  { assert (H0 : obj_inv a (fun o => is_backend o = true) s)
      by (eexists; split; [exact Ho|reflexivity]).
    revert H0. generalize s. change (keeps (obj_inv a (fun o => is_backend o = true))
                                       (RequestLog_new chunk)).
    unfold RequestLog_new, add_chunk, add_chunk_active, on_append_chunk,
      ClientRequestLog_on_append_chunk, BackendRequestLog_on_append_chunk,
      RequestLog_on_append_chunk, client_backend_ref, client_reqend,
      new_backend_request, propagate_director.
    keeps_auto. }
  destruct Hbk as (o' & Ho' & Hb'). destruct o' as [|r' b']; [discriminate|].
  exists r', b'. split; [exact Ho'|]. split.
  - intros Ht.
    assert (H0 : obj_inv a (has_director (director_name b)) s).
    { eexists. split; [exact Ho|]. now exists r, b. }
    apply (keeps_director_RequestLog_new a _ Ht chunk) in H0.
    destruct H0 as (o2 & Ho2 & r2 & b2 & -> & Hd). congruence.
  - intros Hrole.
    assert (H0 : obj_inv a (has_backend_name (backend_name b)) s).
    { eexists. split; [exact Ho|]. now exists r, b. }
    apply (keeps_name_RequestLog_new a _ chunk Hrole) in H0.
    destruct H0 as (o2 & Ho2 & r2 & b2 & -> & Hd). congruence.
Qed.

(** ** The closure [cb], by cases *)

Lemma cb_request callback aggregate nrc chunk s :
  chunk_fd chunk <> 0 ->
  existsb (String.eqb (chunk_tag chunk)) _ignored_tags = false ->
  cb callback aggregate nrc chunk s
  = match RequestLog_new chunk s with
    | (inl e, s1) => (inr false, set_stderr (stderr s1 ++ [e]) s1)
    | (inr ev, s1) =>
        try_except (cb_deliver callback aggregate ev)
          (fun e => bind (print_exc e) (fun _ => ret true)) s1
    end.
Proof.
  intros Hk Hign. unfold cb.
  destruct (Z.eqb_spec (chunk_fd chunk) 0) as [|_]; [contradiction|].
  rewrite Hign. unfold try_except at 1. unfold bind at 1.
  destruct (RequestLog_new chunk s) as [[e|ev] s1]; [reflexivity|].
  unfold try_except.
  now destruct (cb_deliver callback aggregate ev s1) as [[e|v] s2].
Qed.

Lemma cb_deliver_not_complete callback aggregate a s o :
  heap s !! a = Some o ->
  complete (base o) = false ->
  cb_deliver callback aggregate (Some a) s = (inr true, s).
Proof.
  intros Ho Hc. unfold cb_deliver, bind.
  rewrite (getattr_Some _ _ _ _ Ho), Hc. reflexivity.
Qed.

Lemma cb_deliver_incomplete callback aggregate a s o :
  heap s !! a = Some o ->
  complete (base o) = false ->
  try_except (cb_deliver callback aggregate (Some a))
    (fun e => bind (print_exc e) (fun _ => ret true)) s
  = (inr true, s).
Proof.
  intros Ho Hc. unfold try_except, cb_deliver, bind.
  rewrite (getattr_Some _ _ _ _ Ho), Hc. reflexivity.
Qed.

Lemma cb_deliver_complete callback aggregate a s o bf cf :
  heap s !! a = Some o ->
  complete (base o) = true ->
  backend (base o) = Some bf ->
  bf && is_nil (chunks (base o)) = false ->
  client (base o) = Some cf ->
  try_except (cb_deliver callback aggregate (Some a))
    (fun e => bind (print_exc e) (fun _ => ret true)) s
  = if aggregate && negb cf then (inr true, s) else deliver callback a o s.
Proof.
  intros Ho Hc Hb Hnil Hcl.
  unfold try_except, cb_deliver, call_consumer, getattr_opt, bind, unpack.
  rewrite (getattr_Some _ _ _ _ Ho), Hc. cbn [negb].
  rewrite (getattr_Some _ _ _ _ Ho), Hb. cbn [ret].
  rewrite (getattr_Some _ _ _ _ Ho), Hnil.
  destruct aggregate; cbn [andb ret].
  - rewrite (getattr_Some _ _ _ _ Ho), Hcl. cbn [ret].
    destruct cf; cbn [negb]; [|reflexivity].
    rewrite (getattr_Some _ _ _ _ Ho). unfold record_call, deliver.
    now destruct (callback a _).
  - rewrite (getattr_Some _ _ _ _ Ho). unfold record_call, deliver.
    now destruct (callback a _).
Qed.

Lemma deliver_state callback a o s :
  heap (snd (deliver callback a o s)) = heap s
  /\ _lines (snd (deliver callback a o s)) = _lines s
  /\ calls (snd (deliver callback a o s)) = calls s ++ [Delivered a o]
  /\ exists v, fst (deliver callback a o s) = inr v.
Proof.
  unfold deliver. destruct (callback a _) as [e|v]; cbn; eauto 10.
Qed.

(** ** A client transaction, chunk by chunk *)

Lemma cb_client_start callback aggregate nrc k sd ip port xid s :
  _lines s !! k = None -> k <> 0 ->
  PyStr.split " " sd = [ip; port; xid] ->
  exists r c,
    cb callback aggregate nrc (mk k RClient "reqstart" sd) s
    = (inr true,
       Build_State (heap s ++ [ClientRequestLog r c])
         (<[k := List.length (heap s)]> (_lines s)) (calls s) (stderr s))
    /\ fd r = k /\ active r = true /\ complete r = false
    /\ chunks r = [mk k RClient "reqstart" sd]
    /\ client_ip c = Some ip /\ client_port c = Some port /\ id c = Some xid
    /\ backend_request c = None.
Proof.
  intros Hl Hk Hsp. destruct s as [h l cs e]. cbn [heap _lines calls stderr] in *.
  rewrite cb_request by (try reflexivity; exact Hk).
  destruct (client_start_run k sd h l cs e Hl Hk)
    as (res & o' & Hrun & Hc & Hfd & Ha & Hco & Hch & Hres).
  rewrite Hsp in Hres. destruct Hres as (-> & c & Hattrs & Hip & Hport & Hid & Hbr).
  rewrite Hrun, insert_snoc.
  destruct o' as [r c'|]; [|discriminate]. cbn in Hattrs. injection Hattrs as ->.
  cbn [base] in *.
  rewrite (cb_deliver_incomplete _ _ _ _ (ClientRequestLog r c)).
  - exists r, c. auto 10.
  - cbn [heap]. rewrite lookup_app_r by lia. now rewrite Nat.sub_diag.
  - exact Hco.
Qed.

Lemma client_end_ok_run k ed x t1 t2 d1 d2 d3 f1 f2 ts1 ts2 g1 g2 g3 h l cs e a r c :
  (a < List.length h)%nat ->
  l !! k = Some a ->
  fd r = k -> k <> 0 ->
  active r = true ->
  PyStr.split " " ed = [x; t1; t2; d1; d2; d3] ->
  float t1 = Some f1 -> fromtimestamp f1 = Some ts1 ->
  float t2 = Some f2 -> fromtimestamp f2 = Some ts2 ->
  float d1 = Some g1 -> float d2 = Some g2 -> float d3 = Some g3 ->
  exists r' c',
    RequestLog_new (mk k RClient "reqend" ed)
      (Build_State (<[a := ClientRequestLog r c]> h) l cs e)
    = (inr (Some a),
       Build_State (<[a := ClientRequestLog r' c']> h) (delete k l) cs e)
    /\ complete r' = true /\ active r' = false /\ fd r' = k
    /\ chunks r' = chunks r ++ [mk k RClient "reqend" ed]
    /\ client r' = Some true /\ backend r' = Some false
    /\ backend_request c' = backend_request c
    /\ id c' = id c /\ client_ip c' = client_ip c /\ client_port c' = client_port c.
Proof.
  intros Ha Hl Hfd Hk Hact Hsp H1 H2 H3 H4 H5 H6 H7.
  unfold_methods. unfold client_reqend, mk. run_prims.
  rewrite Hl; run_prims. rewrite Hfd.
  destruct (Z.eqb_spec k 0) as [|_]; [contradiction|].
  run_prims. rewrite Hact. run_prims. attrs. rewrite Hfd. run_prims.
  rewrite Hsp. run_prims.
  rewrite H1; run_prims. rewrite H2; run_prims. rewrite H3; run_prims.
  rewrite H4; run_prims. rewrite H5; run_prims. rewrite H6; run_prims.
  rewrite H7; run_prims. attrs.
  eexists _, _; split; [reflexivity|]; cbn; auto 20.
Qed.

Lemma cb_client_end callback aggregate nrc k ed x t1 t2 d1 d2 d3 f1 f2 ts1 ts2 g1 g2 g3
    s a r c :
  _lines s !! k = Some a ->
  heap s !! a = Some (ClientRequestLog r c) ->
  fd r = k -> k <> 0 ->
  active r = true ->
  PyStr.split " " ed = [x; t1; t2; d1; d2; d3] ->
  float t1 = Some f1 -> fromtimestamp f1 = Some ts1 ->
  float t2 = Some f2 -> fromtimestamp f2 = Some ts2 ->
  float d1 = Some g1 -> float d2 = Some g2 -> float d3 = Some g3 ->
  exists r' c',
    cb callback aggregate nrc (mk k RClient "reqend" ed) s
    = deliver callback a (ClientRequestLog r' c')
        (Build_State (<[a := ClientRequestLog r' c']> (heap s))
           (delete k (_lines s)) (calls s) (stderr s))
    /\ complete r' = true /\ active r' = false /\ fd r' = k
    /\ chunks r' = chunks r ++ [mk k RClient "reqend" ed]
    /\ backend_request c' = backend_request c
    /\ id c' = id c /\ client_ip c' = client_ip c /\ client_port c' = client_port c.
Proof.
  intros Hl Ho Hfd Hk Hact Hsp H1 H2 H3 H4 H5 H6 H7.
  destruct (state_at _ _ _ Ho) as [Hs Hlt].
  destruct (client_end_ok_run k ed x t1 t2 d1 d2 d3 f1 f2 ts1 ts2 g1 g2 g3
              (heap s) (_lines s) (calls s) (stderr s) a r c
              Hlt Hl Hfd Hk Hact Hsp H1 H2 H3 H4 H5 H6 H7)
    as (r' & c' & Hrun & Hco & Ha & Hfd' & Hch & Hcl & Hbk & Hrest).
  exists r', c'. split; [|auto 10].
  rewrite cb_request by (try reflexivity; exact Hk).
  rewrite Hs at 1. rewrite Hrun.
  rewrite (cb_deliver_complete _ _ _ _ (ClientRequestLog r' c') false true).
  - now rewrite andb_false_r.
  - cbn [heap]. now apply list_lookup_insert_eq.
  - exact Hco.
  - exact Hbk.
  - reflexivity.
  - exact Hcl.
Qed.

(** ** No exception leaves [cb] *)

Lemma cb_never_raises callback aggregate nrc chunk s :
  exists v, fst (cb callback aggregate nrc chunk s) = inr v.
Proof.
  unfold cb. unfold try_except at 1.
  match goal with |- context [match ?m s with _ => _ end] => destruct (m s) as [[e|v] s1] end;
    cbn; eauto.
Qed.

Lemma dispatch_requests_total callback aggregate nrc stream :
  forall s, fst (dispatch_requests callback aggregate nrc stream s) = inr tt.
Proof.
  induction stream as [|chunk rest IH]; intros s; [reflexivity|].
  rewrite dispatch_requests_cons.
  destruct (cb_never_raises callback aggregate nrc chunk s) as [v Hv].
  destruct (cb callback aggregate nrc chunk s) as [[e|v'] s1]; cbn in Hv; [discriminate|].
  apply IH.
Qed.

Lemma dispatch_requests_app callback aggregate nrc pre post :
  forall s,
    dispatch_requests callback aggregate nrc (pre ++ post) s
    = dispatch_requests callback aggregate nrc post
        (snd (dispatch_requests callback aggregate nrc pre s)).
Proof.
  induction pre as [|chunk pre IH]; intros s; [reflexivity|].
  cbn [app]. rewrite !dispatch_requests_cons.
  destruct (cb_never_raises callback aggregate nrc chunk s) as [v Hv].
  destruct (cb callback aggregate nrc chunk s) as [[e|v'] s1]; cbn in Hv; [discriminate|].
  apply IH.
Qed.

Lemma cb_build_fault callback aggregate nrc chunk s e s1 :
  chunk_fd chunk <> 0 ->
  existsb (String.eqb (chunk_tag chunk)) _ignored_tags = false ->
  RequestLog_new chunk s = (inl e, s1) ->
  cb callback aggregate nrc chunk s = (inr false, set_stderr (stderr s1 ++ [e]) s1).
Proof. intros Hk Hign Hnew. rewrite cb_request by assumption. now rewrite Hnew. Qed.

Lemma cb_deliver_fault callback aggregate nrc chunk s ev s0 e s1 :
  chunk_fd chunk <> 0 ->
  existsb (String.eqb (chunk_tag chunk)) _ignored_tags = false ->
  RequestLog_new chunk s = (inr ev, s0) ->
  cb_deliver callback aggregate ev s0 = (inl e, s1) ->
  cb callback aggregate nrc chunk s = (inr true, set_stderr (stderr s1 ++ [e]) s1).
Proof.
  intros Hk Hign Hnew Hd. rewrite cb_request by assumption. rewrite Hnew.
  unfold try_except. now rewrite Hd.
Qed.

(** C5.  When the work on a chunk raises, be it while the record is built
    or while it is handed to the consumer, [cb] prints the exception and
    returns, and the loop goes on with the chunks that follow, from the
    state the failed chunk has left: a client transaction that then comes
    on a descriptor that is free is built and handed to the consumer,
    whatever the consumer itself does, and the stream is read to its
    end. *)
Theorem C5_fault_is_printed_and_the_stream_goes_on
    callback aggregate nrc bad s e s1 k sd ip port xid
    ed x t1 t2 d1 d2 d3 f1 f2 ts1 ts2 g1 g2 g3 rest :
  chunk_fd bad <> 0 ->
  existsb (String.eqb (chunk_tag bad)) _ignored_tags = false ->
  RequestLog_new bad s = (inl e, s1)
  \/ (exists ev s0, RequestLog_new bad s = (inr ev, s0)
                    /\ cb_deliver callback aggregate ev s0 = (inl e, s1)) ->
  _lines s1 !! k = None -> k <> 0 ->
  PyStr.split " " sd = [ip; port; xid] ->
  PyStr.split " " ed = [x; t1; t2; d1; d2; d3] ->
  float t1 = Some f1 -> fromtimestamp f1 = Some ts1 ->
  float t2 = Some f2 -> fromtimestamp f2 = Some ts2 ->
  float d1 = Some g1 -> float d2 = Some g2 -> float d3 = Some g3 ->
  let stream := bad :: mk k RClient "reqstart" sd :: mk k RClient "reqend" ed :: rest in
  exists r c s3 es,
    dispatch_requests callback aggregate nrc stream s
    = dispatch_requests callback aggregate nrc rest s3
    /\ fst (dispatch_requests callback aggregate nrc stream s) = inr tt
    /\ stderr s3 = stderr s1 ++ e :: es
    /\ calls s3 = calls s1 ++ [Delivered (List.length (heap s1)) (ClientRequestLog r c)]
    /\ heap s3 !! List.length (heap s1) = Some (ClientRequestLog r c)
    /\ _lines s3 !! k = None
    /\ complete r = true /\ fd r = k
    /\ chunks r = [mk k RClient "reqstart" sd; mk k RClient "reqend" ed]
    /\ id c = Some xid /\ client_ip c = Some ip /\ client_port c = Some port.
Proof.
  intros Hk0 Hign Hnew Hl Hk Hsd Hed H1 H2 H3 H4 H5 H6 H7 stream.
  subst stream. rewrite dispatch_requests_cons.
  assert (Hcb : exists v, cb callback aggregate nrc bad s
                          = (inr v, set_stderr (stderr s1 ++ [e]) s1)).
  { destruct Hnew as [Hnew|(ev & s0 & Hnew & Hd)].
    - exists false. now apply cb_build_fault.
    - exists true. now apply (cb_deliver_fault _ _ _ _ _ ev s0). }
  destruct Hcb as [v0 Hcb]. rewrite Hcb. cbv beta iota.
  rewrite dispatch_requests_cons.
  set (s1' := set_stderr (stderr s1 ++ [e]) s1).
  destruct (cb_client_start callback aggregate nrc k sd ip port xid s1' Hl Hk Hsd)
    as (r0 & c0 & Hstart & Hfd0 & Hact0 & Hco0 & Hch0 & Hip & Hport & Hid & _).
  rewrite Hstart. cbv beta iota. cbn [heap _lines calls stderr s1' set_stderr].
  rewrite dispatch_requests_cons.
  set (s2 := Build_State (heap s1 ++ [ClientRequestLog r0 c0])
               (<[k:=List.length (heap s1)]> (_lines s1)) (calls s1) (stderr s1 ++ [e])).
  assert (Hl2 : _lines s2 !! k = Some (List.length (heap s1))) by apply lookup_insert_eq.
  assert (Ho2 : heap s2 !! List.length (heap s1) = Some (ClientRequestLog r0 c0)).
  { cbn [s2 heap]. rewrite lookup_app_r by lia. now rewrite Nat.sub_diag. }
  destruct (cb_client_end callback aggregate nrc k ed x t1 t2 d1 d2 d3
              f1 f2 ts1 ts2 g1 g2 g3 s2 _ r0 c0 Hl2 Ho2 Hfd0 Hk Hact0 Hed
              H1 H2 H3 H4 H5 H6 H7)
    as (r & c & Hend & Hco & Hact & Hfd & Hch & _ & Hid' & Hip' & Hport').
  rewrite Hend.
  set (s2' := Build_State (<[List.length (heap s1) := ClientRequestLog r c]> (heap s2))
                (delete k (_lines s2)) (calls s2) (stderr s2)).
  destruct (deliver_state callback (List.length (heap s1)) (ClientRequestLog r c) s2')
    as (Hh3 & Hl3 & Hc3 & v & Hv).
  assert (Hst3 : exists es, stderr (snd (deliver callback (List.length (heap s1))
                                            (ClientRequestLog r c) s2'))
                            = stderr s1 ++ e :: es).
  { unfold deliver. destruct (callback _ _) as [e'|v']; cbn.
    - exists [e']. now rewrite <- app_assoc.
    - exists []. reflexivity. }
  destruct Hst3 as [es Hes].
  destruct (deliver callback (List.length (heap s1)) (ClientRequestLog r c) s2')
    as [[e3|v3] s3] eqn:Hd; cbn [fst snd] in *; [discriminate|].
  exists r, c, s3, es. split; [reflexivity|].
  split; [apply dispatch_requests_total|]. split; [exact Hes|].
  split; [exact Hc3|]. split.
  { rewrite Hh3. cbn [s2' heap]. apply list_lookup_insert_eq.
    now apply lookup_lt_Some in Ho2. }
  split; [rewrite Hl3; apply lookup_delete_eq|].
  rewrite Hch, Hch0, Hid', Hip', Hport'. auto 10.
Qed.

(** ** A backend transaction, chunk by chunk *)

Lemma cb_backend_open callback aggregate nrc k data s :
  _lines s !! k = None -> k <> 0 ->
  exists r b,
    cb callback aggregate nrc (mk k RBackend "backendopen" data) s
    = (inr true,
       Build_State (heap s ++ [BackendRequestLog r b])
         (<[k := List.length (heap s)]> (_lines s)) (calls s) (stderr s))
    /\ fd r = k /\ active r = true /\ complete r = false
    /\ chunks r = [mk k RBackend "backendopen" data]
    /\ director_name b = None
    /\ backend_name b = head (PyStr.split " " data).
Proof.
  intros Hl Hk. destruct s as [h l cs e]. cbn [heap _lines calls stderr] in *.
  rewrite cb_request by (try reflexivity; exact Hk).
  destruct (backend_start_run k data h l cs e Hl Hk)
    as (o' & Hrun & Hc & Hfd & Ha & Hco & Hch & b & Hattrs & Hdir & Hname).
  rewrite Hrun, insert_snoc.
  destruct o' as [|r b']; [discriminate|]. cbn in Hattrs. injection Hattrs as ->.
  cbn [base] in *.
  rewrite (cb_deliver_incomplete _ _ _ _ (BackendRequestLog r b)).
  - exists r, b. auto 10.
  - cbn [heap]. rewrite lookup_app_r by lia. now rewrite Nat.sub_diag.
  - exact Hco.
Qed.

Lemma cb_backend_end callback aggregate nrc k tag data s a r b :
  _lines s !! k = Some a ->
  heap s !! a = Some (BackendRequestLog r b) ->
  fd r = k -> k <> 0 -> active r = true ->
  tag = "backendclose" \/ tag = "backendreuse" ->
  exists r' b',
    cb callback aggregate nrc (mk k RBackend tag data) s
    = (let s1 := Build_State (<[a := BackendRequestLog r' b']> (heap s))
                   (_lines s) (calls s) (stderr s) in
       if aggregate then (inr true, s1)
       else deliver callback a (BackendRequestLog r' b') s1)
    /\ complete r' = true /\ active r' = false /\ fd r' = k
    /\ chunks r' = chunks r ++ [mk k RBackend tag data]
    /\ director_name b' = director_name b.
Proof.
  intros Hl Ho Hfd Hk Hact Htag.
  destruct (state_at _ _ _ Ho) as [Hs Hlt].
  destruct (backend_end_run k tag data (heap s) (_lines s) (calls s) (stderr s)
              a r b Hlt Hl Hfd Hk Hact Htag)
    as (r' & b' & Hrun & Hco & Ha & Hfd' & Hch & Hcl & Hbk & Hdir).
  exists r', b'. split; [|auto 10].
  rewrite cb_request; [|exact Hk|destruct Htag; subst tag; reflexivity].
  rewrite Hs at 1. rewrite Hrun.
  rewrite (cb_deliver_complete _ _ _ _ (BackendRequestLog r' b') true false).
  - cbn [negb]. rewrite andb_true_r. reflexivity.
  - cbn [heap]. now apply list_lookup_insert_eq.
  - exact Hco.
  - exact Hbk.
  - cbn [base]. rewrite Hch. now destruct (chunks r).
  - exact Hcl.
Qed.

(** ** The [backend] chunk of a client, on a backend record that exists *)

Lemma cb_client_backend_ref callback aggregate nrc k data tok director bname kb
    s a r c ab rb bb :
  _lines s !! k = Some a ->
  heap s !! a = Some (ClientRequestLog r c) ->
  fd r = k -> k <> 0 -> active r = true -> complete r = false ->
  PyStr.split " " data = [tok; director; bname] ->
  PyStr.int tok = Some kb ->
  _lines s !! kb = Some ab ->
  heap s !! ab = Some (BackendRequestLog rb bb) ->
  cb callback aggregate nrc (mk k RClient "backend" data) s
  = (inr true,
     Build_State
       (<[ab := BackendRequestLog rb
                  (if PyStr.truthy (director_name bb) then bb
                   else set_director_name (Some director) bb)]>
          (<[a := ClientRequestLog (with_chunk (mk k RClient "backend" data) r)
                    (set_backend_request (Some ab) c)]> (heap s)))
       (_lines s) (calls s) (stderr s)).
Proof.
  intros Hl Ho Hfd Hk Hact Hco Hsp Hint Hlb Hob.
  assert (Hne : a <> ab) by (intros ->; congruence).
  destruct (state_at _ _ _ Ho) as [Hs Hlt].
  rewrite cb_request by (try reflexivity; exact Hk).
  rewrite Hs at 1.
  unfold_methods. unfold client_backend_ref, propagate_director, mk. run_prims.
  rewrite Hl. run_prims. rewrite Hfd.
  destruct (Z.eqb_spec k 0) as [|_]; [contradiction|].
  run_prims. rewrite Hact. run_prims. rewrite Hsp. run_prims.
  rewrite Hint. run_prims. rewrite Hlb. run_prims.
  match goal with
  | |- context [Build_State (<[a := ?x]> (heap s)) _ _ _] =>
      set (oa := x);
      assert (Hb1 : heap (Build_State (<[a := oa]> (heap s)) (_lines s) (calls s) (stderr s))
                    !! ab = Some (BackendRequestLog rb bb))
        by (cbn [heap]; rewrite list_lookup_insert_ne by exact Hne; exact Hob)
  end.
  rewrite !(getattr_Some _ _ _ _ Hb1). cbn [is_backend backend_attrs]. run_prims.
  rewrite !(getattr_Some _ _ _ _ Hb1). cbn [backend_attrs fmap option_fmap option_map].
  run_prims.
  destruct (PyStr.truthy (director_name bb)) eqn:Ht.
  - run_prims. subst oa. cbn [base]. attrs.
    rewrite (cb_deliver_not_complete _ _ _ _
               (ClientRequestLog (with_chunk (Build_LogChunk k RClient "backend" data) r)
                  (set_backend_request (Some ab) c)));
      [| cbn [heap]; now apply list_lookup_insert_eq | cbn [base]; attrs; exact Hco ].
    f_equal. f_equal. symmetry. apply list_insert_id.
    rewrite list_lookup_insert_ne by exact Hne. exact Hob.
  - rewrite (setattr_Some _ _ _ _ Hb1). unfold set_heap. cbn [heap _lines calls stderr].
    cbn [on_backend].
    assert (Ha2 : heap (Build_State
                          (<[ab := BackendRequestLog rb (set_director_name (Some director) bb)]>
                             (<[a := oa]> (heap s)))
                          (_lines s) (calls s) (stderr s)) !! a = Some oa).
    { cbn [heap]. rewrite list_lookup_insert_ne by (intros E; now apply Hne).
      now apply list_lookup_insert_eq. }
    run_prims.
    rewrite (getattr_Some _ _ _ _ Ha2). run_prims.
    rewrite (cb_deliver_not_complete _ _ _ _ _ Ha2);
      [|subst oa; cbn [base]; attrs; exact Hco].
    reflexivity.
Qed.

(** ** A stream, chunk by chunk *)

Lemma dispatch_requests_step callback aggregate nrc chunk rest s :
  dispatch_requests callback aggregate nrc (chunk :: rest) s
  = dispatch_requests callback aggregate nrc rest
      (snd (cb callback aggregate nrc chunk s)).
Proof.
  rewrite dispatch_requests_cons.
  destruct (cb_never_raises callback aggregate nrc chunk s) as [v Hv].
  destruct (cb callback aggregate nrc chunk s) as [[e|v'] s1]; cbn in Hv; [discriminate|].
  reflexivity.
Qed.

(** ** A record that is not active *)

(** C6.  A chunk handed to a record that is not active, and that is not
    the start chunk of its role, is dropped: [add_chunk] answers [False]
    and the state is the same, so the chunk is not among the record's
    [chunks] and no attribute has moved; this is also what
    [RequestLog.__new__] leaves when the descriptor is bound to such a
    record. *)
Theorem C6_inactive_record_drops_chunk chunk s a o :
  _lines s !! chunk_fd chunk = Some a ->
  heap s !! a = Some o ->
  active (base o) = false ->
  is_start chunk = false ->
  add_chunk a chunk s = (inr false, s)
  /\ snd (RequestLog_new chunk s) = s
  /\ heap (snd (RequestLog_new chunk s)) !! a = Some o.
Proof.
  intros Hl Ho Hact Hst.
  pose proof (RequestLog_new_inactive _ _ _ _ Hl Ho Hact Hst) as Hnew.
  split; [exact (add_chunk_inactive _ _ _ _ Ho Hact Hst)|].
  split; [exact Hnew|]. now rewrite Hnew.
Qed.

(** * Further properties *)

(** ** Chunks inside a transaction *)

Lemma backend_body_run k tag data h l cs e a r b :
  (a < List.length h)%nat ->
  l !! k = Some a ->
  fd r = k -> k <> 0 ->
  active r = true -> complete r = false ->
  is_end (mk k RBackend tag data) = false ->
  exists res r' b',
    RequestLog_new (mk k RBackend tag data)
      (Build_State (<[a := BackendRequestLog r b]> h) l cs e)
    = (res, Build_State (<[a := BackendRequestLog r' b']> h) l cs e)
    /\ (res = inr (Some a) \/ exists x, res = inl x)
    /\ fd r' = k /\ active r' = true /\ complete r' = false
    /\ chunks r' = chunks r ++ [mk k RBackend tag data]
    /\ director_name b' = director_name b.
Proof.
  intros Ha Hl Hfd Hk Hact Hco Hend.
  unfold is_end, mk, chunk_client, chunk_backend in Hend. cbn in Hend.
  apply orb_false_elim in Hend as [Hclose Hreuse].
  unfold_methods. unfold mk. run_prims.
  rewrite Hl. run_prims. rewrite Hfd.
  destruct (Z.eqb_spec k 0) as [|_]; [contradiction|].
  run_prims. rewrite Hact. run_prims. rewrite Hclose, Hreuse. run_prims.
  repeat (match goal with
          | |- context [if String.eqb tag ?x then _ else _] =>
              destruct (String.eqb tag x)
          | |- context [if String.eqb tag ?x || _ then _ else _] =>
              destruct (String.eqb tag x)
          | |- context [match header_item ?x with _ => _ end] => destruct (header_item x)
          | |- context [match PyStr.int ?x with _ => _ end] => destruct (PyStr.int x)
          end; run_prims).
  all: attrs; eexists _, _, _; (split; [reflexivity|]); attrs; rewrite ?Hco; eauto 10.
Qed.

Lemma client_body_run k tag data h l cs e a r c :
  (a < List.length h)%nat ->
  l !! k = Some a ->
  fd r = k -> k <> 0 ->
  active r = true -> complete r = false ->
  is_end (mk k RClient tag data) = false ->
  tag <> "backend" ->
  exists res r' c',
    RequestLog_new (mk k RClient tag data)
      (Build_State (<[a := ClientRequestLog r c]> h) l cs e)
    = (res, Build_State (<[a := ClientRequestLog r' c']> h) l cs e)
    /\ (res = inr (Some a) \/ exists x, res = inl x)
    /\ fd r' = k /\ active r' = true /\ complete r' = false
    /\ chunks r' = chunks r ++ [mk k RClient tag data]
    /\ backend_request c' = backend_request c.
Proof.
  intros Ha Hl Hfd Hk Hact Hco Hend Hbk.
  unfold is_end, mk, chunk_client, chunk_backend in Hend. cbn in Hend.
  rewrite orb_false_r in Hend. apply String.eqb_neq in Hbk.
  unfold_methods. unfold mk. run_prims.
  rewrite Hl. run_prims. rewrite Hfd.
  destruct (Z.eqb_spec k 0) as [|_]; [contradiction|].
  run_prims. rewrite Hact. run_prims. rewrite Hend, Hbk. run_prims.
  repeat (match goal with
          | |- context [if String.eqb tag ?x then _ else _] =>
              destruct (String.eqb tag x)
          | |- context [match header_item ?x with _ => _ end] => destruct (header_item x)
          | |- context [match PyStr.int ?x with _ => _ end] => destruct (PyStr.int x)
          | |- context [match _last_vcl ?x with _ => _ end] => destruct (_last_vcl x)
          | |- context [match PyStr.split " " data with _ => _ end] =>
              destruct (PyStr.split " " data) as [|? [|? [|? [|? ?]]]]
          end; run_prims; attrs).
  all: attrs; eexists _, _, _; (split; [reflexivity|]); attrs; rewrite ?Hco; eauto 10.
Qed.

(** What [cb] makes of a chunk that [RequestLog.__new__] took to a record
    which stays incomplete: nothing is handed over, and an exception is
    printed. *)
Lemma cb_body_step callback aggregate nrc chunk s res a o' h l cs e :
  chunk_fd chunk <> 0 ->
  existsb (String.eqb (chunk_tag chunk)) _ignored_tags = false ->
  RequestLog_new chunk s = (res, Build_State (<[a := o']> h) l cs e) ->
  (a < List.length h)%nat ->
  res = inr (Some a) \/ (exists x, res = inl x) ->
  complete (base o') = false ->
  exists e',
    snd (cb callback aggregate nrc chunk s) = Build_State (<[a := o']> h) l cs e'.
Proof.
  intros Hk Hign Hnew Ha Hres Hco. rewrite cb_request by assumption. rewrite Hnew.
  destruct Hres as [->|[x ->]].
  - rewrite (cb_deliver_incomplete _ _ _ _ o'); [now exists e| |exact Hco].
    cbn [heap]. now apply list_lookup_insert_eq.
  - eexists. reflexivity.
Qed.

Lemma backend_body_dispatch callback aggregate nrc k a h l cs :
  (a < List.length h)%nat ->
  l !! k = Some a -> k <> 0 ->
  forall body r b e,
    fd r = k -> active r = true -> complete r = false ->
    Forall (backend_body k) body ->
    exists r' b' e',
      snd (dispatch_requests callback aggregate nrc body
             (Build_State (<[a := BackendRequestLog r b]> h) l cs e))
      = Build_State (<[a := BackendRequestLog r' b']> h) l cs e'
      /\ fd r' = k /\ active r' = true /\ complete r' = false
      /\ chunks r' = chunks r ++ body
      /\ director_name b' = director_name b.
Proof.
  intros Ha Hl Hk. induction body as [|chunk body IH]; intros r b e Hfd Hact Hco Hall.
  - exists r, b, e. rewrite app_nil_r. auto 10.
  - apply Forall_cons in Hall as [(Hck & Hrole & Hend & Hign) Hall].
    destruct chunk as [k' role tag data]. cbn [chunk_fd chunk_role] in Hck, Hrole.
    subst k' role.
    destruct (backend_body_run k tag data h l cs e a r b Ha Hl Hfd Hk Hact Hco Hend)
      as (res & r1 & b1 & Hrun & Hres & Hfd1 & Hact1 & Hco1 & Hch1 & Hdir1).
    destruct (cb_body_step callback aggregate nrc (mk k RBackend tag data) _ res a _
                h l cs e Hk Hign Hrun Ha Hres Hco1) as [e1 Hcb].
    unfold mk in Hcb, Hch1. rewrite dispatch_requests_step, Hcb.
    destruct (IH r1 b1 e1 Hfd1 Hact1 Hco1 Hall)
      as (r' & b' & e' & Hd & Hfd' & Hact' & Hco' & Hch' & Hdir').
    exists r', b', e'. rewrite Hd, Hch', Hch1, Hdir', Hdir1, <- app_assoc. auto 10.
Qed.

Lemma client_body_dispatch callback aggregate nrc k a h l cs :
  (a < List.length h)%nat ->
  l !! k = Some a -> k <> 0 ->
  forall body r c e,
    fd r = k -> active r = true -> complete r = false ->
    Forall (client_body k) body ->
    exists r' c' e',
      snd (dispatch_requests callback aggregate nrc body
             (Build_State (<[a := ClientRequestLog r c]> h) l cs e))
      = Build_State (<[a := ClientRequestLog r' c']> h) l cs e'
      /\ fd r' = k /\ active r' = true /\ complete r' = false
      /\ chunks r' = chunks r ++ body
      /\ backend_request c' = backend_request c.
Proof.
  intros Ha Hl Hk. induction body as [|chunk body IH]; intros r c e Hfd Hact Hco Hall.
  - exists r, c, e. rewrite app_nil_r. auto 10.
  - apply Forall_cons in Hall as [(Hck & Hrole & Hend & Hign & Hbk) Hall].
    destruct chunk as [k' role tag data]. cbn [chunk_fd chunk_role] in Hck, Hrole.
    subst k' role.
    destruct (client_body_run k tag data h l cs e a r c Ha Hl Hfd Hk Hact Hco Hend Hbk)
      as (res & r1 & c1 & Hrun & Hres & Hfd1 & Hact1 & Hco1 & Hch1 & Hbr1).
    destruct (cb_body_step callback aggregate nrc (mk k RClient tag data) _ res a _
                h l cs e Hk Hign Hrun Ha Hres Hco1) as [e1 Hcb].
    unfold mk in Hcb, Hch1. rewrite dispatch_requests_step, Hcb.
    destruct (IH r1 c1 e1 Hfd1 Hact1 Hco1 Hall)
      as (r' & c' & e' & Hd & Hfd' & Hact' & Hco' & Hch' & Hbr').
    exists r', c', e'. rewrite Hd, Hch', Hch1, Hbr', Hbr1, <- app_assoc. auto 10.
Qed.


(** X16.  Chunks inside the transactions change nothing of the
    aggregation policy.  On a stream made of one backend transaction
    (opened, any backend chunks of its descriptor that are neither end
    chunks nor ignored tags, then closed or put back for reuse) followed
    by the client transaction that names it (started, any such client
    chunks before and after the [backend] chunk, ended), on two free
    descriptors: the consumer is called with the client record when it
    ends, its [backend_request] being the backend record, and before
    that, without aggregation only, with the backend record when that
    one ends; each record holds all the chunks of its transaction in
    arrival order, also those whose payload raised a fault. *)
Theorem transactions_with_inner_chunks callback aggregate nrc s kb kc bod bbody tag bed
    sd ip port xid cbody1 rd tok director bname cbody2
    ed x t1 t2 d1 d2 d3 f1 f2 ts1 ts2 g1 g2 g3 :
  _lines s !! kb = None -> _lines s !! kc = None ->
  kb <> 0 -> kc <> 0 -> kb <> kc ->
  Forall (backend_body kb) bbody ->
  tag = "backendclose" \/ tag = "backendreuse" ->
  PyStr.split " " sd = [ip; port; xid] ->
  Forall (client_body kc) cbody1 ->
  PyStr.split " " rd = [tok; director; bname] ->
  PyStr.int tok = Some kb ->
  Forall (client_body kc) cbody2 ->
  PyStr.split " " ed = [x; t1; t2; d1; d2; d3] ->
  float t1 = Some f1 -> fromtimestamp f1 = Some ts1 ->
  float t2 = Some f2 -> fromtimestamp f2 = Some ts2 ->
  float d1 = Some g1 -> float d2 = Some g2 -> float d3 = Some g3 ->
  let bchunks := mk kb RBackend "backendopen" bod :: bbody ++ [mk kb RBackend tag bed] in
  let cchunks := mk kc RClient "reqstart" sd :: cbody1
                 ++ mk kc RClient "backend" rd :: cbody2
                 ++ [mk kc RClient "reqend" ed] in
  let n := List.length (heap s) in
  let s' := snd (dispatch_requests callback aggregate nrc (bchunks ++ cchunks) s) in
  exists rb bb bb' rc cc,
    calls s' = calls s
               ++ (if aggregate then [] else [Delivered n (BackendRequestLog rb bb)])
               ++ [Delivered (S n) (ClientRequestLog rc cc)]
    /\ complete rb = true /\ chunks rb = bchunks
    /\ complete rc = true /\ chunks rc = cchunks
    /\ backend_request cc = Some n
    /\ heap s' !! n = Some (BackendRequestLog rb bb').
Proof.
  intros Hlb Hlc Hkb Hkc Hne Hbb Htag Hsd Hcb1 Hrd Hint Hcb2 Hed
    H1 H2 H3 H4 H5 H6 H7 bchunks cchunks n s'.
  subst s' bchunks cchunks. cbn [app].
  rewrite dispatch_requests_step.
  rewrite <- app_assoc, dispatch_requests_app. cbn [app].
  rewrite 2!dispatch_requests_step.
  rewrite dispatch_requests_app, dispatch_requests_step.
  rewrite dispatch_requests_app, dispatch_requests_step.
  cbn [dispatch_requests dispatch_chunks logs_dispatch ret snd].
  (* backendopen *)
  destruct (cb_backend_open callback aggregate nrc kb bod s Hlb Hkb)
    as (r0 & b0 & Ho & Hfd0 & Hact0 & Hco0 & Hch0 & _).
  rewrite Ho. cbn [snd]. fold n.
  destruct (heap_snoc_at (heap s) (BackendRequestLog r0 b0)) as [Hsn Hltn]. fold n in Hsn, Hltn.
  set (h1 := heap s ++ [BackendRequestLog r0 b0]) in *.
  set (l1 := <[kb:=n]> (_lines s)).
  assert (Hl1 : l1 !! kb = Some n) by apply lookup_insert_eq.
  rewrite Hsn.
  (* the chunks of the backend transaction *)
  destruct (backend_body_dispatch callback aggregate nrc kb n h1 l1 (calls s)
              Hltn Hl1 Hkb bbody r0 b0 (stderr s) Hfd0 Hact0 Hco0 Hbb)
    as (r1 & b1 & e1 & Hd1 & Hfd1 & Hact1 & Hco1 & Hch1 & _).
  rewrite Hd1.
  (* backendclose or backendreuse *)
  set (s2 := Build_State (<[n:=BackendRequestLog r1 b1]> h1) l1 (calls s) e1).
  assert (Hh2 : heap s2 !! n = Some (BackendRequestLog r1 b1))
    by (cbn [s2 heap]; now apply list_lookup_insert_eq).
  destruct (cb_backend_end callback aggregate nrc kb tag bed s2 n r1 b1
              Hl1 Hh2 Hfd1 Hkb Hact1 Htag)
    as (rb & bb & He & Hcob & _ & _ & Hchb & _).
  rewrite He. cbv zeta.
  set (s2' := Build_State (<[n:=BackendRequestLog rb bb]> (heap s2)) (_lines s2)
                (calls s2) (stderr s2)).
  set (s3 := snd (if aggregate then (inr true, s2')
                  else deliver callback n (BackendRequestLog rb bb) s2')).
  assert (Hs3 : heap s3 = heap s ++ [BackendRequestLog rb bb]
                /\ _lines s3 = l1
                /\ calls s3 = calls s ++ (if aggregate then []
                                          else [Delivered n (BackendRequestLog rb bb)])).
  { assert (Hh : heap s2' = heap s ++ [BackendRequestLog rb bb]).
    { cbn [s2' s2 heap]. rewrite list_insert_insert_eq. apply insert_snoc. }
    subst s3. destruct aggregate; cbn [snd].
    - rewrite Hh, app_nil_r. auto.
    - destruct (deliver_state callback n (BackendRequestLog rb bb) s2') as (E1 & E2 & E3 & _).
      rewrite E1, E2, E3, Hh. auto. }
  destruct Hs3 as (Hh3 & Hl3 & Hc3).
  replace (snd (if aggregate then (inr true, s2')
                else deliver callback n (BackendRequestLog rb bb) s2')) with s3
    by reflexivity.
  clearbody s3. clear He s2' Hh2 s2 Hd1 Hsn Ho. clearbody h1.
  assert (Hlen3 : List.length (heap s3) = S n).
  { rewrite Hh3, length_app. cbn. unfold n. lia. }
  (* reqstart *)
  assert (Hlc3 : _lines s3 !! kc = None).
  { rewrite Hl3. unfold l1. rewrite lookup_insert_ne; auto. }
  destruct (cb_client_start callback aggregate nrc kc sd ip port xid s3 Hlc3 Hkc Hsd)
    as (r2 & c2 & Hst & Hfd2 & Hact2 & Hco2 & Hch2 & _ & _ & _ & Hbr2).
  rewrite Hst. cbn [snd]. rewrite Hlen3.
  destruct (heap_snoc_at (heap s3) (ClientRequestLog r2 c2)) as [Hsn4 Hlt4].
  rewrite Hlen3 in Hsn4, Hlt4.
  set (h4 := heap s3 ++ [ClientRequestLog r2 c2]) in *.
  set (l4 := <[kc:=S n]> (_lines s3)).
  assert (Hl4c : l4 !! kc = Some (S n)) by apply lookup_insert_eq.
  assert (Hl4b : l4 !! kb = Some n).
  { unfold l4. rewrite lookup_insert_ne by auto. now rewrite Hl3. }
  assert (Hh4b : h4 !! n = Some (BackendRequestLog rb bb)).
  { unfold h4. rewrite lookup_app_l by lia. rewrite Hh3.
    rewrite lookup_app_r by (unfold n; lia). unfold n. now rewrite Nat.sub_diag. }
  rewrite Hsn4.
  (* the chunks of the client before its reference to the backend *)
  destruct (client_body_dispatch callback aggregate nrc kc (S n) h4 l4 (calls s3)
              Hlt4 Hl4c Hkc cbody1 r2 c2 (stderr s3) Hfd2 Hact2 Hco2 Hcb1)
    as (r3 & c3 & e3 & Hd3 & Hfd3 & Hact3 & Hco3 & Hch3 & Hbr3).
  rewrite Hd3.
  (* backend *)
  set (s5 := Build_State (<[S n:=ClientRequestLog r3 c3]> h4) l4 (calls s3) e3).
  assert (Hh5c : heap s5 !! S n = Some (ClientRequestLog r3 c3))
    by (cbn [s5 heap]; now apply list_lookup_insert_eq).
  assert (Hh5b : heap s5 !! n = Some (BackendRequestLog rb bb)).
  { cbn [s5 heap]. rewrite list_lookup_insert_ne by lia. exact Hh4b. }
  rewrite (cb_client_backend_ref callback aggregate nrc kc rd tok director bname kb
             s5 (S n) r3 c3 n rb bb Hl4c Hh5c Hfd3 Hkc Hact3 Hco3 Hrd Hint Hl4b Hh5b).
  cbn [snd s5 heap _lines calls stderr].
  set (bb' := if PyStr.truthy (director_name bb) then bb
              else set_director_name (Some director) bb).
  set (r4 := with_chunk (mk kc RClient "backend" rd) r3).
  set (c4 := set_backend_request (Some n) c3).
  rewrite list_insert_insert_eq.
  rewrite (list_insert_insert_ne _ n (S n)) by lia.
  set (h6 := <[n:=BackendRequestLog rb bb']> h4).
  assert (Hlt6 : (S n < List.length h6)%nat) by (unfold h6; now rewrite length_insert).
  assert (Hh6b : h6 !! n = Some (BackendRequestLog rb bb')).
  { unfold h6. apply list_lookup_insert_eq. lia. }
  (* the chunks of the client after it *)
  assert (Hfd4 : fd r4 = kc) by (subst r4; unfold with_chunk; now attrs).
  assert (Hact4 : active r4 = true) by (subst r4; unfold with_chunk; now attrs).
  assert (Hco4 : complete r4 = false) by (subst r4; unfold with_chunk; now attrs).
  destruct (client_body_dispatch callback aggregate nrc kc (S n) h6 l4 (calls s3)
              Hlt6 Hl4c Hkc cbody2 r4 c4 e3 Hfd4 Hact4 Hco4 Hcb2)
    as (r5 & c5 & e5 & Hd5 & Hfd5 & Hact5 & Hco5 & Hch5 & Hbr5).
  rewrite Hd5.
  (* reqend *)
  set (s7 := Build_State (<[S n:=ClientRequestLog r5 c5]> h6) l4 (calls s3) e5).
  assert (Hh7c : heap s7 !! S n = Some (ClientRequestLog r5 c5))
    by (cbn [s7 heap]; now apply list_lookup_insert_eq).
  destruct (cb_client_end callback aggregate nrc kc ed x t1 t2 d1 d2 d3
              f1 f2 ts1 ts2 g1 g2 g3 s7 (S n) r5 c5 Hl4c Hh7c Hfd5 Hkc Hact5 Hed
              H1 H2 H3 H4 H5 H6 H7)
    as (rc & cc & Hend & Hcoc & _ & _ & Hchc & Hbrc & _).
  rewrite Hend.
  match goal with
  | |- context [deliver callback (S n) ?o ?st] =>
      destruct (deliver_state callback (S n) o st) as (E1 & E2 & E3 & _)
  end.
  exists rb, bb, bb', rc, cc.
  rewrite E3, E1. cbn [calls s7 heap]. rewrite Hc3, <- app_assoc.
  split; [reflexivity|]. split; [exact Hcob|].
  split; [rewrite Hchb, Hch1, Hch0; reflexivity|]. split; [exact Hcoc|].
  split.
  { rewrite Hchc, Hch5. subst r4. unfold with_chunk. attrs. rewrite Hch3, Hch2.
    cbn [app]. rewrite <- !app_assoc. reflexivity. }
  split; [rewrite Hbrc, Hbr5; subst c4; now attrs|].
  rewrite !list_lookup_insert_ne by lia. exact Hh6b.
Qed.



(** ** Chunks that belong to no request *)

Lemma cb_outside_requests callback aggregate nrc chunk s :
  outside_requests chunk = true ->
  let s' := snd (cb callback aggregate nrc chunk s) in
  heap s' = heap s /\ _lines s' = _lines s
  /\ calls s' = calls s ++ (if Z.eqb (chunk_fd chunk) 0
                            then match nrc with Some _ => [NonRequest chunk] | None => [] end
                            else []).
Proof.
  unfold outside_requests, cb, try_except, call_nonrequest, bind, record_call, print_exc, ret.
  destruct (Z.eqb (chunk_fd chunk) 0).
  - intros _. destruct nrc as [f|]; cbn.
    + destruct (f chunk); cbn; auto.
    + rewrite app_nil_r; auto.
  - cbn [orb]. intros ->. cbn. rewrite app_nil_r. auto.
Qed.

(** X1.  Chunks on descriptor 0 and chunks with one of the ignored tags
    never reach the record factory: a stream made of them leaves the heap
    and [_lines] as they were, and the non-request consumer, when there
    is one, is called once for each chunk on descriptor 0, in arrival
    order and whatever it answers or raises; the ignored tags on other
    descriptors are handed to nobody. *)
Theorem chunks_outside_requests_make_no_record callback aggregate nrc stream s :
  forallb outside_requests stream = true ->
  let s' := snd (dispatch_requests callback aggregate nrc stream s) in
  heap s' = heap s /\ _lines s' = _lines s
  /\ calls s' = calls s
                ++ match nrc with
                   | Some _ => map NonRequest
                                 (List.filter (fun c => Z.eqb (chunk_fd c) 0) stream)
                   | None => []
                   end.
Proof.
  revert s. induction stream as [|chunk rest IH]; intros s Hall.
  - cbn. destruct nrc; rewrite app_nil_r; auto.
  - cbn [forallb] in Hall. apply andb_prop in Hall as [Hc Hrest].
    cbv zeta. rewrite dispatch_requests_step.
    destruct (cb_outside_requests callback aggregate nrc chunk s Hc) as (Hh & Hl & Hcs).
    destruct (IH (snd (cb callback aggregate nrc chunk s)) Hrest) as (Hh' & Hl' & Hcs').
    rewrite Hh', Hl', Hcs', Hh, Hl, Hcs. split; [reflexivity|]. split; [reflexivity|].
    rewrite <- app_assoc. f_equal. cbn [List.filter].
    destruct (Z.eqb (chunk_fd chunk) 0); destruct nrc; reflexivity.
Qed.

(** ** A [reqend] chunk whose payload does not parse *)

Lemma client_end_bad_run k ed h l cs e a r c :
  (a < List.length h)%nat ->
  l !! k = Some a ->
  fd r = k -> k <> 0 ->
  active r = true ->
  List.length (PyStr.split " " ed) <> 6%nat ->
  RequestLog_new (mk k RClient "reqend" ed)
    (Build_State (<[a := ClientRequestLog r c]> h) l cs e)
  = (inl ValueError,
     Build_State
       (<[a := ClientRequestLog
                 (with_chunk (mk k RClient "reqend" ed)
                    (set_active false (set_complete true r))) c]> h)
       (delete k l) cs e).
Proof.
  intros Ha Hl Hfd Hk Hact Hsp.
  unfold_methods. unfold client_reqend, mk, with_chunk. run_prims.
  rewrite Hl; run_prims. rewrite Hfd.
  destruct (Z.eqb_spec k 0) as [|_]; [contradiction|].
  run_prims. rewrite Hact. run_prims. attrs. rewrite Hfd. run_prims.
  destruct (PyStr.split " " ed) as [|? [|? [|? [|? [|? [|? [|? ?]]]]]]];
    try (exfalso; apply Hsp; reflexivity); run_prims; reflexivity.
Qed.

(** X2.  The end of a client transaction is recorded before its payload
    is read: when the payload of [reqend] has not six fields, the record
    is already complete, not active and unbound from its descriptor, and
    the chunk is in its list; the [ValueError] is printed, the consumer
    is not called, and nothing refers to the record any more. *)
Theorem unparsable_reqend_loses_the_transaction callback aggregate nrc k ed s a r c :
  _lines s !! k = Some a ->
  heap s !! a = Some (ClientRequestLog r c) ->
  fd r = k -> k <> 0 -> active r = true ->
  List.length (PyStr.split " " ed) <> 6%nat ->
  let chunk := mk k RClient "reqend" ed in
  exists r',
    cb callback aggregate nrc chunk s
    = (inr false,
       Build_State (<[a := ClientRequestLog r' c]> (heap s)) (delete k (_lines s))
         (calls s) (stderr s ++ [ValueError]))
    /\ complete r' = true /\ active r' = false
    /\ chunks r' = chunks r ++ [chunk].
Proof.
  intros Hl Ho Hfd Hk Hact Hsp chunk. subst chunk.
  destruct (state_at _ _ _ Ho) as [Hs Hlt].
  eexists. split.
  - rewrite cb_request by (try reflexivity; exact Hk).
    rewrite Hs at 1.
    rewrite (client_end_bad_run k ed _ _ _ _ a r c Hlt Hl Hfd Hk Hact Hsp).
    reflexivity.
  - unfold with_chunk. attrs. auto.
Qed.


(** ** Header chunks *)

Ltac not_complete Hco :=
  match goal with
  | |- context [cb_deliver _ _ (Some ?a) (Build_State (<[?a := ?x]> ?h) ?l ?c ?e)] =>
      rewrite (cb_deliver_not_complete _ _ a (Build_State (<[a := x]> h) l c e) x);
        [ | cbn [heap]; now apply list_lookup_insert_eq | cbn [base]; attrs; exact Hco ]
  end.

Lemma split1_first sep key value :
  ~ In sep (list_ascii_of_string key) ->
  PyStr.split1 sep (key ++ String sep value) = Some (key, value).
Proof.
  induction key as [|c key IH]; simpl; intros Hno.
  - now rewrite Ascii.eqb_refl.
  - destruct (Ascii.eqb_spec c sep) as [->|Hne].
    + exfalso. apply Hno. now left.
    + rewrite IH; [reflexivity|]. intros Hin. apply Hno. now right.
Qed.

Lemma split1_none sep data :
  ~ In sep (list_ascii_of_string data) -> PyStr.split1 sep data = None.
Proof.
  induction data as [|c data IH]; simpl; intros Hno.
  - reflexivity.
  - destruct (Ascii.eqb_spec c sep) as [->|Hne].
    + exfalso. apply Hno. now left.
    + rewrite IH; [reflexivity|]. intros Hin. apply Hno. now right.
Qed.

(** X3.  A header chunk is cut at its first colon, so the value keeps
    the colons that follow: on an active record of either class, an
    [rxheader] or [txheader] chunk [key:value] adds the entry
    (lower-cased stripped key, stripped value) at the end of the headers
    of its direction, leaves the headers of the other direction alone and
    is added to the chunks; nothing is printed. *)
Theorem header_is_cut_at_the_first_colon callback aggregate nrc k tag key value s a o :
  _lines s !! k = Some a ->
  heap s !! a = Some o ->
  fd (base o) = k -> k <> 0 ->
  active (base o) = true -> complete (base o) = false ->
  tag = "rxheader" \/ tag = "txheader" ->
  ~ In ":"%char (list_ascii_of_string key) ->
  let chunk := mk k (if is_client o then RClient else RBackend) tag
                 (key ++ String ":" value) in
  let item := (PyStr.lower (PyStr.strip key), PyStr.strip value) in
  exists o',
    cb callback aggregate nrc chunk s
    = (inr true, Build_State (<[a := o']> (heap s)) (_lines s) (calls s) (stderr s))
    /\ is_client o' = is_client o
    /\ chunks (base o') = chunks (base o) ++ [chunk]
    /\ rxheaders (base o')
       = rxheaders (base o) ++ (if tag =? "rxheader" then [item] else [])
    /\ txheaders (base o')
       = txheaders (base o) ++ (if tag =? "txheader" then [item] else []).
Proof.
  intros Hl Ho Hfd Hk Hact Hco Htag Hkey chunk item. subst chunk item.
  destruct (state_at _ _ _ Ho) as [Hs Hlt].
  destruct o as [r c|r b]; cbn [base is_client] in *;
  destruct Htag; subst tag;
  (eexists; split;
    [ rewrite cb_request by (try reflexivity; exact Hk);
      rewrite Hs at 1;
      unfold_methods; unfold mk, header_item; run_prims;
      rewrite Hl; run_prims; rewrite Hfd;
      destruct (Z.eqb_spec k 0) as [|_]; [contradiction|];
      run_prims; rewrite Hact; run_prims;
      rewrite (split1_first _ _ _ Hkey); run_prims; attrs;
      not_complete Hco;
      reflexivity
    | cbn [base is_client]; attrs; unfold md_setitem;
      cbn [fst snd String.eqb Ascii.eqb Bool.eqb]; rewrite ?app_nil_r; auto ]).
Qed.

(** X4.  A header chunk without a colon is a fault that leaves its mark:
    the unpacking raises [ValueError] after the chunk has been added to
    the chunks of the record, so the chunk is kept, no header is added,
    the traceback is printed and the consumer is not called. *)
Theorem header_without_colon_is_kept_as_chunk callback aggregate nrc k tag data s a o :
  _lines s !! k = Some a ->
  heap s !! a = Some o ->
  fd (base o) = k -> k <> 0 ->
  active (base o) = true ->
  tag = "rxheader" \/ tag = "txheader" ->
  ~ In ":"%char (list_ascii_of_string data) ->
  let chunk := mk k (if is_client o then RClient else RBackend) tag data in
  cb callback aggregate nrc chunk s
  = (inr false,
     Build_State (<[a := on_base (with_chunk chunk) o]> (heap s)) (_lines s)
       (calls s) (stderr s ++ [ValueError])).
Proof.
  intros Hl Ho Hfd Hk Hact Htag Hdata chunk. subst chunk.
  destruct (state_at _ _ _ Ho) as [Hs Hlt].
  assert (Hign : existsb (String.eqb tag) _ignored_tags = false)
    by (destruct Htag; subst tag; reflexivity).
  rewrite cb_request by (try exact Hign; exact Hk).
  rewrite Hs at 1.
  destruct o as [r c|r b]; cbn [base is_client] in *.
  all: unfold_methods; unfold mk, header_item, with_chunk; run_prims.
  all: rewrite Hl; run_prims; rewrite Hfd.
  all: destruct (Z.eqb_spec k 0) as [|_]; [contradiction|].
  all: run_prims; rewrite Hact; run_prims.
  all: destruct Htag; subst tag; run_prims.
  all: rewrite (split1_none _ _ Hdata); run_prims; attrs; reflexivity.
Qed.

(** ** Routine calls *)

Lemma client_chunk_run callback aggregate nrc k tag data s a r c :
  _lines s !! k = Some a ->
  heap s !! a = Some (ClientRequestLog r c) ->
  fd r = k -> k <> 0 -> active r = true -> complete r = false ->
  tag = "vcl_call" \/ tag = "vcl_return" ->
  cb callback aggregate nrc (mk k RClient tag data) s
  = if tag =? "vcl_call" then
      (inr true,
       Build_State (<[a := ClientRequestLog (with_chunk (mk k RClient tag data) r)
                             (set_last_vcl (Some data) c)]> (heap s))
         (_lines s) (calls s) (stderr s))
    else
      match _last_vcl c with
      | Some routine =>
          (inr true,
           Build_State
             (<[a := ClientRequestLog (with_chunk (mk k RClient tag data) r)
                       (set_last_vcl None
                          (set_vcl_calls (vcl_calls c ++ [(routine, data)]) c))]> (heap s))
             (_lines s) (calls s) (stderr s))
      | None =>
          (inr false,
           Build_State (<[a := ClientRequestLog (with_chunk (mk k RClient tag data) r) c]> (heap s))
             (_lines s) (calls s) (stderr s ++ [AttributeError]))
      end.
Proof.
  intros Hl Ho Hfd Hk Hact Hco Htag.
  destruct (state_at _ _ _ Ho) as [Hs Hlt].
  assert (Hign : existsb (String.eqb tag) _ignored_tags = false)
    by (destruct Htag; subst tag; reflexivity).
  rewrite cb_request by (try exact Hign; exact Hk).
  rewrite Hs at 1.
  unfold_methods; unfold mk, with_chunk; run_prims.
  rewrite Hl; run_prims; rewrite Hfd.
  destruct (Z.eqb_spec k 0) as [|_]; [contradiction|].
  run_prims; rewrite Hact; run_prims.
  destruct Htag; subst tag; run_prims.
  - not_complete Hco.
    reflexivity.
  - destruct (_last_vcl c) as [routine|]; run_prims; attrs; [|reflexivity].
    not_complete Hco.
    reflexivity.
Qed.

(** A [vcl_call] chunk, then a [vcl_return] chunk, on an active client
    record. *)
Lemma vcl_pair_run callback aggregate nrc k routine outcome s a r c :
  _lines s !! k = Some a ->
  heap s !! a = Some (ClientRequestLog r c) ->
  fd r = k -> k <> 0 -> active r = true -> complete r = false ->
  let call := mk k RClient "vcl_call" routine in
  let retn := mk k RClient "vcl_return" outcome in
  let s' := snd (dispatch_requests callback aggregate nrc [call; retn] s) in
  exists r' c',
    s' = Build_State (<[a := ClientRequestLog r' c']> (heap s)) (_lines s)
           (calls s) (stderr s)
    /\ vcl_calls c' = vcl_calls c ++ [(routine, outcome)]
    /\ _last_vcl c' = None
    /\ chunks r' = chunks r ++ [call; retn].
Proof.
  intros Hl Ho Hfd Hk Hact Hco call retn s'. subst s' call retn.
  rewrite 2!dispatch_requests_step.
  cbn [dispatch_requests dispatch_chunks logs_dispatch ret snd].
  rewrite (client_chunk_run _ _ _ k "vcl_call" routine s a r c Hl Ho Hfd Hk Hact Hco)
    by now left.
  cbn [String.eqb Ascii.eqb Bool.eqb snd].
  apply lookup_lt_Some in Ho as Hlt.
  match goal with
  | |- context [cb _ _ _ _ (Build_State (<[a := ClientRequestLog ?r1 ?c1]> _) _ _ _)] =>
      rewrite (client_chunk_run _ _ _ k "vcl_return" outcome _ a r1 c1)
  end.
  - cbn [String.eqb Ascii.eqb Bool.eqb]. attrs. cbn [snd heap _lines calls stderr].
    rewrite list_insert_insert_eq.
    eexists _, _. split; [reflexivity|].
    unfold with_chunk. attrs.
    rewrite <- app_assoc. cbn [app]. auto 10.
  - exact Hl.
  - cbn [heap]. now apply list_lookup_insert_eq.
  - unfold with_chunk. now attrs.
  - exact Hk.
  - unfold with_chunk. now attrs.
  - unfold with_chunk. now attrs.
  - now right.
Qed.

(** X5.  A [vcl_call] chunk followed by a [vcl_return] chunk on an active
    client record adds one entry to [vcl_calls], from the routine named
    by the first to the outcome given by the second, after the entries
    that were there, and leaves no pending routine; the two chunks are
    kept, and nothing else of the state moves. *)
Theorem vcl_call_then_vcl_return callback aggregate nrc k routine outcome s a r c :
  _lines s !! k = Some a ->
  heap s !! a = Some (ClientRequestLog r c) ->
  fd r = k -> k <> 0 -> active r = true -> complete r = false ->
  let call := mk k RClient "vcl_call" routine in
  let retn := mk k RClient "vcl_return" outcome in
  let s' := snd (dispatch_requests callback aggregate nrc [call; retn] s) in
  exists r' c',
    s' = Build_State (<[a := ClientRequestLog r' c']> (heap s)) (_lines s)
           (calls s) (stderr s)
    /\ vcl_calls c' = vcl_calls c ++ [(routine, outcome)]
    /\ _last_vcl c' = None
    /\ chunks r' = chunks r ++ [call; retn].
Proof. apply vcl_pair_run. Qed.

(** ** [hit] and [miss] *)

Lemma md_contains_values v (m : list (string * string)) :
  md_contains v m = true <-> In v (map snd m).
Proof.
  unfold md_contains. rewrite existsb_exists. split.
  - intros (x & Hin & Heq). apply String.eqb_eq in Heq. now subst.
  - intros Hin. exists v. split; [exact Hin|apply String.eqb_refl].
Qed.

(** C9.  [hit] holds exactly when ["hit"] is among the values of
    [vcl_calls], the outcomes recorded with the routines, and [miss]
    exactly when ["miss"] is.  These values are what the [vcl_return]
    chunks gave: once a [vcl_call] chunk and a [vcl_return] chunk have
    gone to an active client record, [hit] holds exactly when it held
    before or the outcome returned is ["hit"], whatever the routine is
    called, and [miss] likewise with ["miss"]. *)
Theorem C9_hit_miss_test_the_outcomes :
  (forall c : ClientAttrs,
     (hit c = true <-> In "hit" (map snd (vcl_calls c)))
     /\ (miss c = true <-> In "miss" (map snd (vcl_calls c))))
  /\ (forall callback aggregate nrc k routine outcome s a r c,
        _lines s !! k = Some a ->
        heap s !! a = Some (ClientRequestLog r c) ->
        fd r = k -> k <> 0 -> active r = true -> complete r = false ->
        let s' := snd (dispatch_requests callback aggregate nrc
                         [mk k RClient "vcl_call" routine;
                          mk k RClient "vcl_return" outcome] s) in
        exists r' c',
          heap s' !! a = Some (ClientRequestLog r' c')
          /\ vcl_calls c' = vcl_calls c ++ [(routine, outcome)]
          /\ (hit c' = true <-> hit c = true \/ outcome = "hit")
          /\ (miss c' = true <-> miss c = true \/ outcome = "miss")).
Proof.
  split.
  - intros c. split; apply md_contains_values.
  - intros callback aggregate nrc k routine outcome s a r c Hl Ho Hfd Hk Hact Hco s'.
    destruct (vcl_pair_run callback aggregate nrc k routine outcome s a r c
                Hl Ho Hfd Hk Hact Hco) as (r' & c' & Hs & Hv & _).
    exists r', c'. subst s'. rewrite Hs. cbn [heap].
    split; [apply list_lookup_insert_eq; now apply lookup_lt_Some in Ho|].
    split; [exact Hv|].
    unfold hit, miss. rewrite !md_contains_values, Hv, map_app, !in_app_iff.
    cbn [map snd In]. split.
    + split; (intros [H|H]; [now left|right]); [now destruct H|now left].
    + split; (intros [H|H]; [now left|right]); [now destruct H|now left].
Qed.

(** X6.  A [vcl_return] chunk with no routine pending, be it the first
    such chunk or one that follows another [vcl_return], reads an
    attribute that does not exist: the chunk is kept, no entry is added,
    [AttributeError] is printed and the consumer is not called. *)
Theorem vcl_return_without_vcl_call callback aggregate nrc k outcome s a r c :
  _lines s !! k = Some a ->
  heap s !! a = Some (ClientRequestLog r c) ->
  fd r = k -> k <> 0 -> active r = true -> complete r = false ->
  _last_vcl c = None ->
  let chunk := mk k RClient "vcl_return" outcome in
  cb callback aggregate nrc chunk s
  = (inr false,
     Build_State (<[a := ClientRequestLog (with_chunk chunk r) c]> (heap s)) (_lines s)
       (calls s) (stderr s ++ [AttributeError])).
Proof.
  intros Hl Ho Hfd Hk Hact Hco Hlast chunk. subst chunk.
  rewrite (client_chunk_run _ _ _ k "vcl_return" outcome s a r c Hl Ho Hfd Hk Hact Hco)
    by now right.
  cbn [String.eqb Ascii.eqb Bool.eqb]. now rewrite Hlast.
Qed.


(** ** A client that names a backend the table does not know *)

Lemma cb_client_backend_new callback aggregate nrc k data tok director bname kb
    s a r c :
  _lines s !! k = Some a ->
  heap s !! a = Some (ClientRequestLog r c) ->
  fd r = k -> k <> 0 -> active r = true -> complete r = false ->
  PyStr.split " " data = [tok; director; bname] ->
  PyStr.int tok = Some kb ->
  _lines s !! kb = None ->
  let n := List.length (heap s) in
  cb callback aggregate nrc (mk k RClient "backend" data) s
  = (inr true,
     Build_State
       (<[a := ClientRequestLog (with_chunk (mk k RClient "backend" data) r)
                 (set_backend_request (Some n) c)]> (heap s)
        ++ [BackendRequestLog (RequestLog_init kb false)
              {| backend_name := Some bname; director_name := Some director |}])
       (<[kb := n]> (_lines s)) (calls s) (stderr s)).
Proof.
  intros Hl Ho Hfd Hk Hact Hco Hsp Hint Hlb n.
  destruct (state_at _ _ _ Ho) as [Hs Hlt].
  rewrite cb_request by (try reflexivity; exact Hk).
  rewrite Hs at 1.
  unfold_methods. unfold client_backend_ref, new_backend_request, propagate_director, mk.
  run_prims.
  rewrite Hl. run_prims. rewrite Hfd.
  destruct (Z.eqb_spec k 0) as [|_]; [contradiction|].
  run_prims. rewrite Hact. run_prims. rewrite Hsp. run_prims.
  rewrite Hint. run_prims. rewrite Hlb. run_prims.
  rewrite length_insert. fold n.
  set (B0 := BackendRequestLog_init kb false).
  assert (Hlt' : (a < List.length (heap s ++ [B0]))%nat) by (rewrite length_app; cbn; lia).
  assert (Han : (a < n)%nat) by exact Hlt.
  rewrite <- insert_app_l by exact Hlt.
  run_prims.
  match goal with
  | |- context [setattr n _ ?st] =>
      assert (Hn : heap st !! n = Some B0)
        by (cbn [heap]; rewrite list_lookup_insert_ne by lia;
            rewrite lookup_app_r by (unfold n; lia); unfold n; now rewrite Nat.sub_diag)
  end.
  rewrite (setattr_Some _ _ _ _ Hn). run_prims.
  match goal with
  | |- context [<[n := _]> ?H] =>
      assert (HnH : (n < List.length H)%nat)
        by (rewrite length_insert, length_app; cbn; unfold n; lia)
  end.
  subst B0. unfold BackendRequestLog_init. run_prims. cbn [fmap option_fmap option_map].
  run_prims. attrs. cbn [PyStr.truthy]. run_prims. attrs.
  rewrite (list_insert_insert_ne _ n a) by lia.
  match goal with
  | |- context [<[a := _]> ?H] =>
      assert (HaH : (a < List.length H)%nat)
        by (rewrite length_insert, length_app; cbn; unfold n; lia)
  end.
  run_prims. attrs.
  not_complete Hco.
  f_equal. f_equal. unfold with_chunk. attrs. subst n.
  rewrite insert_snoc. rewrite insert_app_l by exact Hlt. reflexivity.
Qed.

Lemma backend_open_bound_run k data h l cs e a r b :
  (a < List.length h)%nat ->
  l !! k = Some a ->
  fd r = k -> k <> 0 ->
  active r = false ->
  RequestLog_new (mk k RBackend "backendopen" data)
    (Build_State (<[a := BackendRequestLog r b]> h) l cs e)
  = (inr (Some a),
     Build_State
       (<[a := BackendRequestLog
                 (with_chunk (mk k RBackend "backendopen" data) (set_active true r))
                 (set_backend_name (head (PyStr.split " " data)) b)]> h)
       l cs e).
Proof.
  intros Ha Hl Hfd Hk Hact.
  unfold_methods. unfold mk, with_chunk. run_prims.
  rewrite Hl. run_prims. rewrite Hfd.
  destruct (Z.eqb_spec k 0) as [|_]; [contradiction|].
  run_prims. rewrite Hact. run_prims. attrs. reflexivity.
Qed.

(** X7.  A client may name a backend descriptor before any chunk of that
    backend has come: the [backend] chunk then creates the backend
    record itself, not active and without chunks, binds it to the
    descriptor and gives it the two names of its payload.  The
    [backendopen] chunk that follows on that descriptor creates no second
    record: it activates the one the client refers to, becomes its first
    chunk and replaces the backend name by the first word of its own
    payload, while the director's name stays. *)
Theorem backend_named_before_it_opens callback aggregate nrc kc kb rd tok director bname
    bod s a r c :
  _lines s !! kc = Some a ->
  heap s !! a = Some (ClientRequestLog r c) ->
  fd r = kc -> kc <> 0 -> active r = true -> complete r = false ->
  PyStr.split " " rd = [tok; director; bname] ->
  PyStr.int tok = Some kb ->
  _lines s !! kb = None -> kb <> 0 ->
  let ref := mk kc RClient "backend" rd in
  let open := mk kb RBackend "backendopen" bod in
  let n := List.length (heap s) in
  exists r' rb,
    snd (dispatch_requests callback aggregate nrc [ref; open] s)
    = Build_State
        (<[a := ClientRequestLog r' (set_backend_request (Some n) c)]> (heap s)
         ++ [BackendRequestLog rb
               {| backend_name := head (PyStr.split " " bod);
                  director_name := Some director |}])
        (<[kb := n]> (_lines s)) (calls s) (stderr s)
    /\ chunks r' = chunks r ++ [ref]
    /\ fd rb = kb /\ active rb = true /\ complete rb = false
    /\ chunks rb = [open].
Proof.
  intros Hl Ho Hfd Hk Hact Hco Hsp Hint Hlb Hkb ref open n.
  exists (with_chunk ref r), (with_chunk open (set_active true (RequestLog_init kb false))).
  split; [|unfold with_chunk; attrs; cbn [RequestLog_init chunks fd complete]; auto 10].
  subst ref open.
  rewrite 2!dispatch_requests_step.
  cbn [dispatch_requests dispatch_chunks logs_dispatch ret snd].
  rewrite (cb_client_backend_new _ _ _ kc rd tok director bname kb s a r c
             Hl Ho Hfd Hk Hact Hco Hsp Hint Hlb).
  cbn [snd]. fold n.
  set (oa := ClientRequestLog _ _).
  set (B1 := BackendRequestLog _ _).
  assert (Hlen : List.length (<[a := oa]> (heap s)) = n) by apply length_insert.
  destruct (heap_snoc_at (<[a := oa]> (heap s)) B1) as [Hsn Hltn].
  rewrite Hlen in Hsn, Hltn.
  rewrite cb_request by (try reflexivity; exact Hkb).
  rewrite Hsn. subst B1.
  rewrite (backend_open_bound_run kb bod _ _ _ _ n _ _ Hltn);
    [ | apply lookup_insert_eq | reflexivity | exact Hkb | reflexivity ].
  match goal with
  | |- context [Build_State (<[n := ?x]> ?h) ?l ?cs ?e] =>
      rewrite (cb_deliver_incomplete _ _ n (Build_State (<[n := x]> h) l cs e) x);
        [ | cbn [heap]; now apply list_lookup_insert_eq | reflexivity ]
  end.
  cbn [snd]. rewrite <- Hlen at 1. rewrite insert_snoc.
  reflexivity.
Qed.

(** X8.  The reference of a client to a backend is stored before it is
    checked: when the descriptor named by a [backend] chunk is bound to
    another client record, the assertion fails, but [backend_request]
    already refers to that client record and stays so; the chunk is kept,
    the fault is printed and the consumer is not called.  (The other
    record's own reference, if it has one, is to a backend record, so
    that the message of the assertion can be built.) *)
Theorem backend_reference_to_a_client_record callback aggregate nrc k k2 data tok
    director bname s a r c a2 r2 c2 :
  _lines s !! k = Some a ->
  heap s !! a = Some (ClientRequestLog r c) ->
  fd r = k -> k <> 0 -> active r = true ->
  PyStr.split " " data = [tok; director; bname] ->
  PyStr.int tok = Some k2 ->
  _lines s !! k2 = Some a2 ->
  a2 <> a ->
  heap s !! a2 = Some (ClientRequestLog r2 c2) ->
  (forall b, backend_request c2 = Some b ->
             exists rb bb, heap s !! b = Some (BackendRequestLog rb bb)) ->
  let chunk := mk k RClient "backend" data in
  cb callback aggregate nrc chunk s
  = (inr false,
     Build_State
       (<[a := ClientRequestLog (with_chunk chunk r) (set_backend_request (Some a2) c)]>
          (heap s))
       (_lines s) (calls s) (stderr s ++ [AssertionError])).
Proof.
  intros Hl Ho Hfd Hk Hact Hsp Hint Hl2 Hne Ho2 _ chunk. subst chunk.
  destruct (state_at _ _ _ Ho) as [Hs Hlt].
  rewrite cb_request by (try reflexivity; exact Hk).
  rewrite Hs at 1.
  unfold_methods. unfold client_backend_ref, mk, with_chunk. run_prims.
  rewrite Hl. run_prims. rewrite Hfd.
  destruct (Z.eqb_spec k 0) as [|_]; [contradiction|].
  run_prims. rewrite Hact. run_prims. rewrite Hsp. run_prims.
  rewrite Hint. run_prims. rewrite Hl2. run_prims.
  match goal with
  | |- context [getattr a2 is_backend ?st] =>
      assert (H2 : heap st !! a2 = Some (ClientRequestLog r2 c2))
        by (cbn [heap]; rewrite list_lookup_insert_ne by (intros E; now apply Hne);
            exact Ho2)
  end.
  rewrite (getattr_Some _ _ _ _ H2). run_prims. reflexivity.
Qed.

(** X9.  The class check of the factory works in both directions: a
    backend chunk on a descriptor that is bound to a client record fails
    the assertion before anything is changed, so [cb] prints the fault,
    answers [False], and the client record, the table and the calls are
    as before.  (The client's own reference, if it has one, is to a
    backend record, so that the message of the assertion can be
    built.) *)
Theorem backend_chunk_on_client_descriptor callback aggregate nrc chunk s a r c :
  chunk_fd chunk <> 0 ->
  existsb (String.eqb (chunk_tag chunk)) _ignored_tags = false ->
  chunk_role chunk = RBackend ->
  _lines s !! chunk_fd chunk = Some a ->
  heap s !! a = Some (ClientRequestLog r c) ->
  (forall b, backend_request c = Some b ->
             exists rb bb, heap s !! b = Some (BackendRequestLog rb bb)) ->
  cb callback aggregate nrc chunk s
  = (inr false, set_stderr (stderr s ++ [AssertionError]) s).
Proof.
  intros Hk Hign Hrole Hl Ho _.
  rewrite cb_request by assumption.
  unfold RequestLog_new, bind, lines_get, chunk_client, chunk_backend.
  rewrite Hl, Hrole. now rewrite (getattr_Some _ _ _ _ Ho).
Qed.

(** ** A backend record that has been complete once *)

Lemma backend_chunk_added_run k tag data h l cs e a r b :
  (a < List.length h)%nat ->
  l !! k = Some a ->
  fd r = k -> k <> 0 ->
  complete r = true ->
  active r = true \/ tag = "backendopen" ->
  exists res r' b',
    RequestLog_new (mk k RBackend tag data)
      (Build_State (<[a := BackendRequestLog r b]> h) l cs e)
    = (res, Build_State (<[a := BackendRequestLog r' b']> h) l cs e)
    /\ complete r' = true
    /\ chunks r' = chunks r ++ [mk k RBackend tag data]
    /\ client r' = Some false /\ backend r' = Some true
    /\ (res = inr (Some a)
        \/ res = inl ValueError
           /\ In tag ["rxheader"; "txheader"; "length"; "rxstatus"]).
Proof.
  intros Ha Hl Hfd Hk Hco Hact.
  unfold_methods. unfold mk. run_prims.
  rewrite Hl. run_prims. rewrite Hfd.
  destruct (Z.eqb_spec k 0) as [|_]; [contradiction|].
  run_prims.
  assert (Hgo : forall (X : Type) (x y z : X),
             (if negb (active r) && (tag =? "backendopen") then x
              else if negb (active r) then y else z)
             = if active r then z else x).
  { intros X x y z. destruct Hact as [->| ->]; [reflexivity|].
    now destruct (active r). }
  rewrite Hgo. clear Hgo.
  clear Hact.
  destruct (active r) eqn:Hact'; run_prims;
  repeat (match goal with
          | |- context [if String.eqb tag ?x then _ else _] =>
              destruct (String.eqb_spec tag x) as [->|?]
          | |- context [if String.eqb tag ?x || _ then _ else _] =>
              destruct (String.eqb_spec tag x) as [->|?]
          | |- context [match header_item ?x with _ => _ end] => destruct (header_item x)
          | |- context [match PyStr.int ?x with _ => _ end] => destruct (PyStr.int x)
          end; run_prims);
  attrs; eexists _, _, _; (split; [reflexivity|]); attrs;
  (split; [exact Hco || reflexivity|]);
  (split; [reflexivity|]); (split; [reflexivity|]); (split; [reflexivity|]);
  first [ left; reflexivity
        | right; split; [reflexivity|]; cbn [In]; tauto ].
Qed.

(** X10.  The [complete] flag of a record is never taken back.  Once a
    backend record has been complete, every backend chunk that is added
    to it, the [backendopen] that makes it active again or any chunk
    while it is active, has [cb] without aggregation call the consumer
    with the record, which holds the chunks of its earlier transactions
    and the new one; the only chunks that are added and not handed over
    are those whose payload fails to convert, whose fault is printed. *)
Theorem completed_backend_is_delivered_at_every_chunk callback nrc k tag data s a r b :
  _lines s !! k = Some a ->
  heap s !! a = Some (BackendRequestLog r b) ->
  fd r = k -> k <> 0 ->
  existsb (String.eqb tag) _ignored_tags = false ->
  complete r = true ->
  active r = true \/ tag = "backendopen" ->
  let chunk := mk k RBackend tag data in
  let s' := snd (cb callback false nrc chunk s) in
  exists r' b',
    heap s' = <[a := BackendRequestLog r' b']> (heap s)
    /\ _lines s' = _lines s
    /\ complete r' = true
    /\ chunks r' = chunks r ++ [chunk]
    /\ (calls s' = calls s ++ [Delivered a (BackendRequestLog r' b')]
        \/ calls s' = calls s /\ stderr s' = stderr s ++ [ValueError]
           /\ In tag ["rxheader"; "txheader"; "length"; "rxstatus"]).
Proof.
  intros Hl Ho Hfd Hk Hign Hco Hact chunk s'. subst chunk s'.
  destruct (state_at _ _ _ Ho) as [Hs Hlt].
  destruct (backend_chunk_added_run k tag data (heap s) (_lines s) (calls s) (stderr s)
              a r b Hlt Hl Hfd Hk Hco Hact)
    as (res & r' & b' & Hrun & Hco' & Hch & Hcl & Hbk & Hres).
  exists r', b'.
  remember (cb callback false nrc (mk k RBackend tag data) s) as out eqn:Hout.
  rewrite cb_request in Hout by (try exact Hign; exact Hk).
  rewrite Hs in Hout at 1. rewrite Hrun in Hout.
  destruct Hres as [->|[-> Hin]].
  - rewrite (cb_deliver_complete _ _ _ _ (BackendRequestLog r' b') true false) in Hout;
      [ | cbn [heap]; now apply list_lookup_insert_eq | exact Hco' | exact Hbk
        | cbn [base]; rewrite Hch; now destruct (chunks r) | exact Hcl ].
    cbn [andb] in Hout. subst out.
    match goal with
    | |- context [deliver callback a ?o ?st] =>
        destruct (deliver_state callback a o st) as (E1 & E2 & E3 & _)
    end.
    rewrite E1, E2, E3. cbn [heap _lines calls]. auto 10.
  - subst out. cbn [snd heap _lines calls stderr set_stderr]. auto 10.
Qed.

(** ** The effect of one chunk on the record it is added to *)

Ltac grows_leaf :=
  unfold grows, flags_ok, class_ok, chunk_client, chunk_backend;
  cbn [base is_client is_backend chunk_role]; attrs;
  repeat match goal with
         | |- _ /\ _ => split
         | |- _ = _ => reflexivity
         | |- exists more, ?x = ?x ++ more => exists []; symmetry; apply app_nil_r
         | |- exists more, _ = _ ++ more => eexists; reflexivity
         | |- _ -> _ => intro
         | |- _ => assumption
         | |- _ \/ _ => first [left; repeat split; reflexivity
                              | right; repeat split; first [reflexivity|assumption|intro; assumption|intro; discriminate]]
         end.

Ltac branch_step :=
  match goal with
  | |- context [if String.eqb ?tag ?x then _ else _] =>
      destruct (String.eqb_spec tag x) as [->|?]
  | |- context [if String.eqb ?tag ?x || _ then _ else _] =>
      destruct (String.eqb_spec tag x) as [->|?]
  | |- context [match header_item ?x with _ => _ end] => destruct (header_item x)
  | |- context [match PyStr.int ?x with _ => _ end] => destruct (PyStr.int x)
  | |- context [match _last_vcl ?x with _ => _ end] => destruct (_last_vcl x)
  | |- context [match float ?x with _ => _ end] => destruct (float x)
  | |- context [match fromtimestamp ?x with _ => _ end] => destruct (fromtimestamp x)
  | |- context [match PyStr.split " " ?d with _ => _ end] =>
      destruct (PyStr.split " " d) as [|? [|? [|? [|? [|? [|? [|? ?]]]]]]]
  end.

Lemma add_chunk_plain_run a chunk h l cs e o x :
  (a < List.length h)%nat ->
  l !! fd (base o) = Some x ->
  class_ok chunk o ->
  (is_client o = true -> chunk_tag chunk <> "backend") ->
  exists res o' l',
    add_chunk a chunk (Build_State (<[a := o]> h) l cs e)
    = (res, Build_State (<[a := o']> h) l' cs e)
    /\ grows o o' /\ flags_ok chunk o o'
    /\ (l' = l \/ l' = delete (fd (base o)) l /\ is_client o = true
                                                 /\ active (base o) = true).
Proof.
  intros Ha Hl Hclass Hnoref.
  destruct chunk as [k role tag data].
  cbn [chunk_role chunk_tag] in *.
  destruct o as [r c|r b]; destruct role;
    try (exfalso; destruct Hclass as [H1 H2]; first [now specialize (H1 eq_refl)|now specialize (H2 eq_refl)]);
    cbn [base is_client] in *;
    unfold add_chunk, add_chunk_active, on_append_chunk,
      ClientRequestLog_on_append_chunk, BackendRequestLog_on_append_chunk,
      RequestLog_on_append_chunk, client_reqend, is_start, is_end,
      chunk_client, chunk_backend;
    run_prims;
    (destruct (Z.eqb (fd r) 0); run_prims;
     [|destruct (active r) eqn:Hact; run_prims;
       repeat (branch_step; try (exfalso; apply Hnoref; reflexivity); run_prims; attrs; run_prims)]);
    (eexists _, _, _; split; [reflexivity|]; grows_leaf).
Qed.


(** ** The effect of a [backend] chunk of a client record *)

Lemma client_backend_ref_run a chunk h l cs e r c :
  (a < List.length h)%nat ->
  (forall kb b, l !! kb = Some b -> (b < List.length h)%nat) ->
  exists res st c',
    client_backend_ref a chunk (Build_State (<[a := ClientRequestLog r c]> h) l cs e)
    = (res, st)
    /\ heap st !! a = Some (ClientRequestLog r c')
    /\ (st = Build_State (<[a := ClientRequestLog r c']> h) l cs e
        \/ (exists kb b ob ob',
               l !! kb = Some b /\ b <> a /\ h !! b = Some ob
               /\ is_backend ob = true /\ grows ob ob'
               /\ client (base ob') = client (base ob)
               /\ backend (base ob') = backend (base ob)
               /\ st = Build_State (<[b := ob']> (<[a := ClientRequestLog r c']> h)) l cs e)
        \/ (exists kb ob',
               l !! kb = None /\ is_backend ob' = true /\ fd (base ob') = kb
               /\ client (base ob') = None /\ backend (base ob') = None
               /\ st = Build_State (<[a := ClientRequestLog r c']> h ++ [ob'])
                         (<[kb := List.length h]> l) cs e)).
Proof.
  intros Ha Hvalid.
  assert (Hat : forall c' l' cs' e',
             heap (Build_State (<[a := ClientRequestLog r c']> h) l' cs' e') !! a
             = Some (ClientRequestLog r c'))
    by (intros; cbn [heap]; now apply list_lookup_insert_eq).
  unfold client_backend_ref. run_prims.
  destruct (PyStr.split " " (chunk_data chunk)) as [|tok [|director [|bname [|? ?]]]];
    run_prims; try (eexists _, _, c; split; [reflexivity|split; [apply Hat|left; reflexivity]]).
  destruct (PyStr.int tok) as [kb|]; run_prims;
    try (eexists _, _, c; split; [reflexivity|split; [apply Hat|left; reflexivity]]).
  destruct (l !! kb) as [b|] eqn:Hlb; run_prims.
  - (* the descriptor is bound *)
    set (c1 := set_backend_request (Some b) c).
    destruct (decide (b = a)) as [->|Hne].
    + run_prims. eexists _, _, c1; split; [reflexivity|split; [apply Hat|left; reflexivity]].
    + pose proof (Hvalid _ _ Hlb) as Hb.
      destruct (lookup_lt_is_Some_2 h b Hb) as [ob Hob].
      assert (Hb1 : heap (Build_State (<[a := ClientRequestLog r c1]> h) l cs e) !! b
                    = Some ob)
        by (cbn [heap]; rewrite list_lookup_insert_ne by (intros E; now apply Hne); exact Hob).
      rewrite !(getattr_Some _ _ _ _ Hb1).
      destruct ob as [rb cb0|rb bb]; cbn [is_backend backend_attrs]; run_prims.
      { eexists _, _, c1; split; [reflexivity|split; [apply Hat|left; reflexivity]]. }
      unfold propagate_director. run_prims.
      rewrite !(getattr_Some _ _ _ _ Hb1). cbn [backend_attrs fmap option_fmap option_map].
      run_prims.
      destruct (PyStr.truthy (director_name bb)) eqn:Ht; run_prims.
      * eexists _, _, c1; split; [reflexivity|split; [apply Hat|left; reflexivity]].
      * rewrite (setattr_Some _ _ _ _ Hb1). unfold set_heap. cbn [heap _lines calls stderr].
        cbn [on_backend].
        eexists _, _, c1; split; [reflexivity|split; [|right; left]].
        { cbn [heap]. rewrite list_lookup_insert_ne by exact Hne.
          now apply list_lookup_insert_eq. }
        exists kb, b, (BackendRequestLog rb bb),
          (BackendRequestLog rb (set_director_name (Some director) bb)).
        repeat split; auto. exists []. now rewrite app_nil_r.
  - (* the descriptor is free: a new backend record *)
    unfold new_backend_request. run_prims. rewrite length_insert.
    set (n := List.length h).
    set (B0 := BackendRequestLog_init kb false).
    assert (Hlt' : (a < List.length (h ++ [B0]))%nat) by (rewrite length_app; cbn; lia).
    assert (Han : (a < n)%nat) by exact Ha.
    rewrite <- insert_app_l by exact Ha.
    run_prims.
    match goal with
    | |- context [setattr n _ ?st] =>
        assert (Hn : heap st !! n = Some B0)
          by (cbn [heap]; rewrite list_lookup_insert_ne by lia;
              rewrite lookup_app_r by (unfold n; lia); unfold n; now rewrite Nat.sub_diag)
    end.
    rewrite (setattr_Some _ _ _ _ Hn). run_prims.
    match goal with
    | |- context [<[n := _]> ?H] =>
        assert (HnH : (n < List.length H)%nat)
          by (rewrite length_insert, length_app; cbn; unfold n; lia)
    end.
    subst B0. unfold BackendRequestLog_init, propagate_director. run_prims.
    cbn [fmap option_fmap option_map].
    run_prims. attrs. cbn [PyStr.truthy]. run_prims. attrs.
    rewrite (list_insert_insert_ne _ n a) by lia.
    subst n. rewrite insert_snoc.
    rewrite insert_app_l by exact Ha.
    eexists _, _, (set_backend_request (Some (List.length h)) c).
    split; [reflexivity|split; [|right; right]].
    { cbn [heap]. rewrite lookup_app_l by now rewrite length_insert.
      now apply list_lookup_insert_eq. }
    eexists kb, _. split; [exact Hlb|].
    split; [|split; [|split; [|split; [|reflexivity]]]]; reflexivity.
Qed.


(** What the state may look like after a chunk has been handed to the
    record [o] at [a]: the record alone has changed, maybe unbound; or
    also the backend record it names; or a backend record has been
    created for the descriptor it names. *)
Lemma add_chunk_effect a chunk h l cs e o x :
  (a < List.length h)%nat ->
  l !! fd (base o) = Some x ->
  class_ok chunk o ->
  (forall kb b, l !! kb = Some b -> (b < List.length h)%nat) ->
  let st := snd (add_chunk a chunk (Build_State (<[a := o]> h) l cs e)) in
  exists o',
    grows o o' /\ flags_ok chunk o o'
    /\ ((exists l', st = Build_State (<[a := o']> h) l' cs e
                    /\ (l' = l \/ l' = delete (fd (base o)) l /\ is_client o = true
                                                              /\ active (base o) = true))
        \/ active (base o) = true
           /\ ((exists kb b ob ob',
                   l !! kb = Some b /\ b <> a /\ h !! b = Some ob
                   /\ is_backend ob = true /\ grows ob ob'
                   /\ client (base ob') = client (base ob)
                   /\ backend (base ob') = backend (base ob)
                   /\ st = Build_State (<[b := ob']> (<[a := o']> h)) l cs e)
               \/ (exists kb ob',
                      l !! kb = None /\ is_backend ob' = true /\ fd (base ob') = kb
                      /\ client (base ob') = None /\ backend (base ob') = None
                      /\ st = Build_State (<[a := o']> h ++ [ob'])
                                (<[kb := List.length h]> l) cs e))).
Proof.
  intros Ha Hl Hclass Hvalid st. subst st.
  assert (Hplain : (is_client o = true -> chunk_tag chunk <> "backend") ->
            exists o',
              grows o o' /\ flags_ok chunk o o'
              /\ ((exists l',
                      snd (add_chunk a chunk (Build_State (<[a := o]> h) l cs e))
                      = Build_State (<[a := o']> h) l' cs e
                      /\ (l' = l \/ l' = delete (fd (base o)) l /\ is_client o = true
                                                                /\ active (base o) = true))
                  \/ False)).
  { intros Hno.
    destruct (add_chunk_plain_run a chunk h l cs e o x Ha Hl Hclass Hno)
      as (res & o' & l' & Hrun & Hg & Hf & Hl').
    exists o'. split; [exact Hg|]. split; [exact Hf|]. left. exists l'.
    rewrite Hrun. auto. }
  destruct o as [r c|r b].
  2:{ destruct Hplain as (o' & Hg & Hf & [H|[]]); [intros; discriminate|].
      exists o'. auto. }
  destruct (String.eqb_spec (chunk_tag chunk) "backend") as [Htag|Htag].
  2:{ destruct Hplain as (o' & Hg & Hf & [H|[]]); [intros; exact Htag|].
      exists o'. auto. }
  clear Hplain.
  destruct chunk as [k role tag data]. cbn [chunk_tag] in Htag. subst tag.
  cbn [base] in Hl.
  assert (Hsame : exists o' : PyObj,
      grows (ClientRequestLog r c) o'
      /\ flags_ok (Build_LogChunk k role "backend" data) (ClientRequestLog r c) o'
      /\ ((exists l',
              Build_State (<[a := ClientRequestLog r c]> h) l cs e
              = Build_State (<[a := o']> h) l' cs e
              /\ (l' = l \/ l' = delete (fd r) l /\ true = true /\ active r = true))
          \/ False)).
  { eexists. split; [|split; [|left; eexists; split; [reflexivity|left; reflexivity]]];
      grows_leaf. }
  destruct role;
    [ | exfalso; destruct Hclass as [_ H2]; now specialize (H2 eq_refl) | ];
    (unfold add_chunk, add_chunk_active, on_append_chunk,
       ClientRequestLog_on_append_chunk, RequestLog_on_append_chunk, is_start, is_end,
       chunk_client, chunk_backend;
     run_prims;
     destruct (Z.eqb (fd r) 0); run_prims;
     [ destruct Hsame as (o' & H1 & H2 & [H3|[]]); exists o'; cbn [snd base is_client]; auto
     | destruct (active r) eqn:Hact; run_prims;
       [ | destruct Hsame as (o' & H1 & H2 & [H3|[]]); exists o'; cbn [snd base is_client];
           auto ] ];
     attrs;
     match goal with
     | |- context [client_backend_ref a ?ch
                     (Build_State (<[a := ClientRequestLog ?r1 ?c1]> h) l cs e)] =>
         destruct (client_backend_ref_run a ch h l cs e r1 c1 Ha Hvalid)
           as (res & st & c' & Hrun & Hat & Hshape);
         rewrite Hrun;
         exists (ClientRequestLog r1 c');
         split; [grows_leaf|]; split; [unfold flags_ok; right; cbn [base]; attrs; auto|]
     end;
     assert (Hsnd : snd (match res with
                         | inl e0 => (inl e0, st)
                         | inr _ => getattr a (fun o => complete (base o)) st
                         end : (exn + bool) * State) = st)
       by (destruct res; [reflexivity|now rewrite (getattr_Some _ _ _ _ Hat)]);
     rewrite Hsnd;
     destruct Hshape as [->|[Hs|Hs]];
     [ left; eexists; split; [reflexivity|left; reflexivity]
     | right; split; [reflexivity|left; exact Hs]
     | right; split; [reflexivity|right; exact Hs] ]).
Qed.


(** ** The effect of one chunk on the state *)

Lemma snd_bind_ret {A B} (m : Py A) (y : B) s :
  snd (bind m (fun _ => ret y) s) = snd (m s).
Proof. unfold bind, ret. now destruct (m s) as [[?|?] ?]. Qed.

Lemma lines_wf_valid s :
  lines_wf s -> forall kb b, _lines s !! kb = Some b -> (b < List.length (heap s))%nat.
Proof.
  intros Hwf kb b Hb. destruct (Hwf _ _ Hb) as (o & Ho & _).
  now apply lookup_lt_Some in Ho.
Qed.

Lemma bound_chunk_effect chunk s a o :
  lines_wf s ->
  _lines s !! chunk_fd chunk = Some a ->
  heap s !! a = Some o ->
  class_ok chunk o ->
  chunk_effect chunk s (snd (add_chunk a chunk s)).
Proof.
  intros Hwf Hl Ho Hclass.
  destruct (Hwf _ _ Hl) as (o0 & Ho0 & Hfd). rewrite Ho in Ho0. injection Ho0 as <-.
  destruct (state_at _ _ _ Ho) as [Hs Hlt].
  assert (Hx : _lines s !! fd (base o) = Some a) by now rewrite Hfd.
  destruct (add_chunk_effect a chunk (heap s) (_lines s) (calls s) (stderr s) o a
              Hlt Hx Hclass (lines_wf_valid s Hwf))
    as (o' & Hg & Hf & Hshape).
  rewrite <- Hs in Hshape.
  destruct Hshape as [(l' & -> & Hl')|[Hact [(kb & b & ob & ob' & H1 & H2 & H3 & H4 & H5 & H6 & H7 & ->)|(kb & ob' & H1 & H2 & H3 & H4 & H5 & ->)]]];
    (split; [reflexivity|]; split; [reflexivity|]); right; right;
    exists a, o, o'; (split; [exact Hl|]); (split; [exact Ho|]);
    (split; [exact Hg|]); (split; [exact Hf|]); cbn [heap _lines].
  - left. split; [reflexivity|]. rewrite Hfd in Hl'.
    destruct Hl' as [->|(-> & Hc & _)]; auto.
  - right; left. exists kb, b, ob, ob'. auto 10.
  - right; right. exists kb, ob'. auto 10.
Qed.

Lemma new_record_effect chunk s init :
  lines_wf s ->
  _lines s !! chunk_fd chunk = None ->
  fd (base init) = chunk_fd chunk ->
  active (base init) = false ->
  client (base init) = None -> backend (base init) = None ->
  class_ok chunk init ->
  let n := List.length (heap s) in
  chunk_effect chunk s
    (snd (add_chunk n chunk (set_lines (<[chunk_fd chunk := n]> (_lines s))
                               (set_heap (heap s ++ [init]) s)))).
Proof.
  intros Hwf Hl Hfd Hact Hcl Hbk Hclass n.
  destruct s as [h l cs e]. unfold set_lines, set_heap. cbn [heap _lines calls stderr] in *.
  destruct (heap_snoc_at h init) as [Hsn Hltn]. fold n in Hsn, Hltn.
  rewrite Hsn.
  assert (Hx : <[chunk_fd chunk := n]> l !! fd (base init) = Some n)
    by (rewrite Hfd; apply lookup_insert_eq).
  assert (Hvalid : forall kb b, <[chunk_fd chunk := n]> l !! kb = Some b ->
                                (b < List.length (h ++ [init]))%nat).
  { intros kb b Hb. destruct (decide (kb = chunk_fd chunk)) as [->|Hne].
    - rewrite lookup_insert_eq in Hb. injection Hb as <-. exact Hltn.
    - rewrite lookup_insert_ne in Hb by (intros E; now apply Hne).
      pose proof (lines_wf_valid _ Hwf kb b Hb) as Hlt. cbn [heap] in Hlt.
      rewrite length_app. lia. }
  destruct (add_chunk_effect n chunk (h ++ [init]) (<[chunk_fd chunk := n]> l) cs e init n
              Hltn Hx Hclass Hvalid)
    as (o' & Hg & Hf & Hshape).
  destruct Hshape as [(l' & -> & Hl')|[Habs _]]; [|congruence].
  destruct Hl' as [->|(_ & _ & Habs)]; [|congruence].
  split; [reflexivity|]. split; [reflexivity|]. right; left.
  exists o'. cbn [heap _lines]. subst n. rewrite insert_snoc.
  destruct Hg as (Hc & Hfd' & _ & _).
  assert (Hb : is_backend o' = is_backend init) by (destruct o', init; now cbn in *).
  split; [exact Hl|]. split; [reflexivity|]. split; [reflexivity|].
  split; [congruence|]. split.
  - unfold role_ok. rewrite Hc, Hb.
    destruct Hf as [[-> ->]|(-> & -> & [H1 H2])].
    + rewrite Hcl, Hbk. split; discriminate.
    + split; intros E; injection E as E; auto.
  - unfold class_ok. rewrite Hc, Hb. exact Hclass.
Qed.

(** Whatever the chunk, what [RequestLog.__new__] does to a state whose
    table is well formed is one of the effects above. *)
Lemma RequestLog_new_effect chunk s :
  lines_wf s -> chunk_effect chunk s (snd (RequestLog_new chunk s)).
Proof.
  intros Hwf.
  assert (Hnone : chunk_effect chunk s s) by (split; [|split]; auto).
  unfold RequestLog_new. unfold bind at 1. unfold lines_get at 1.
  destruct (_lines s !! chunk_fd chunk) as [a|] eqn:Hl.
  - destruct (Hwf _ _ Hl) as (o & Ho & Hfd).
    assert (Hgo : class_ok chunk o ->
              chunk_effect chunk s
                (snd (bind (add_chunk a chunk) (fun _ => ret (Some a)) s))).
    { intros Hc. rewrite snd_bind_ret. now apply (bound_chunk_effect chunk s a o). }
    unfold class_ok in Hgo.
    unfold bind at 1.
    destruct (chunk_client chunk) eqn:Hcc.
    + unfold bind at 1. rewrite (getattr_Some _ _ _ _ Ho).
      destruct (is_client o) eqn:Hio; cbn [ret raise snd]; [|exact Hnone].
      apply Hgo. split; auto. intros Hb.
      unfold chunk_client, chunk_backend in *. destruct (chunk_role chunk); discriminate.
    + destruct (chunk_backend chunk) eqn:Hcb.
      * unfold bind at 1. rewrite (getattr_Some _ _ _ _ Ho).
        destruct (is_backend o) eqn:Hio; cbn [ret raise snd]; [|exact Hnone].
        apply Hgo. split; auto. intros; discriminate.
      * cbn [ret]. apply Hgo. split; intros; discriminate.
  - destruct (chunk_client chunk) eqn:Hcc; [|destruct (chunk_backend chunk) eqn:Hcb].
    + unfold bind at 1, alloc at 1. unfold bind at 1, lines_set at 1.
      cbn [heap set_heap]. rewrite snd_bind_ret.
      apply (new_record_effect chunk s (ClientRequestLog_init (chunk_fd chunk) false));
        try reflexivity; auto.
      unfold class_ok. rewrite Hcc. split; [reflexivity|].
      unfold chunk_client, chunk_backend in *. destruct (chunk_role chunk); discriminate.
    + unfold bind at 1, alloc at 1. unfold bind at 1, lines_set at 1.
      cbn [heap set_heap]. rewrite snd_bind_ret.
      apply (new_record_effect chunk s (BackendRequestLog_init (chunk_fd chunk) false));
        try reflexivity; auto.
      unfold class_ok. rewrite Hcc, Hcb. split; [discriminate|reflexivity].
    + exact Hnone.
Qed.


(** ** The effect of one chunk on the calls *)

Lemma cb_deliver_effect callback aggregate ev s :
  let out := cb_deliver callback aggregate ev s in
  heap (snd out) = heap s /\ _lines (snd out) = _lines s
  /\ stderr (snd out) = stderr s
  /\ (calls (snd out) = calls s
      \/ exists c, calls (snd out) = calls s ++ [c] /\ call_ok aggregate s c).
Proof.
  destruct ev as [a|]; [|cbn; auto].
  unfold cb_deliver, call_consumer, getattr_opt, bind, getattr, unpack, record_call,
    ret, raise.
  destruct (heap s !! a) as [o|] eqn:Ho; [|cbn; auto].
  destruct (complete (base o)) eqn:Hco; cbn [negb]; [|cbn; auto].
  rewrite Ho.
  destruct (backend (base o)) as [bf|] eqn:Hbk; [|cbn; auto].
  rewrite Ho.
  destruct (bf && is_nil (chunks (base o))); [cbn; auto|].
  assert (Hcall : forall P : Prop, (aggregate = true -> client (base o) = Some true) ->
            let out := (let (r, s') := (inr tt : exn + unit,
                                        set_calls (calls s ++ [Delivered a o]) s) in
                        match r with
                        | inl e => (inl e, s')
                        | inr _ => (callback a s', s')
                        end) in
            heap (snd out) = heap s /\ _lines (snd out) = _lines s
            /\ stderr (snd out) = stderr s
            /\ (calls (snd out) = calls s
                \/ exists c, calls (snd out) = calls s ++ [c] /\ call_ok aggregate s c)).
  { intros _ Hag. cbn. repeat split; auto. right. eexists. split; [reflexivity|].
    cbn. auto. }
  destruct aggregate.
  - rewrite Ho. destruct (client (base o)) as [[|]|] eqn:Hcl; try (cbn; auto; fail).
    rewrite Ho. apply (Hcall True). auto.
  - rewrite Ho. apply (Hcall True). intros; discriminate.
Qed.

Lemma cb_effect callback aggregate nrc chunk s :
  lines_wf s ->
  let s' := snd (cb callback aggregate nrc chunk s) in
  exists s1 new errs,
    chunk_effect chunk s s1
    /\ heap s' = heap s1 /\ _lines s' = _lines s1
    /\ calls s' = calls s ++ new /\ stderr s' = stderr s ++ errs
    /\ (new = [] \/ exists c, new = [c] /\ call_ok aggregate s1 c).
Proof.
  intros Hwf s'. subst s'.
  assert (Hnone : chunk_effect chunk s s) by (split; [|split]; auto).
  destruct (Z.eqb_spec (chunk_fd chunk) 0) as [Hz|Hz].
  - unfold cb, try_except. rewrite (proj2 (Z.eqb_eq _ _) Hz).
    destruct nrc as [f|].
    + unfold call_nonrequest, bind, record_call, print_exc, ret.
      destruct (f chunk) as [e|v]; cbn [snd].
      * exists s, [NonRequest chunk], [e]. cbn. split; [exact Hnone|].
        repeat split; auto. right. eexists. split; [reflexivity|exact Hz].
      * exists s, [NonRequest chunk], []. cbn. rewrite app_nil_r. split; [exact Hnone|].
        repeat split; auto. right. eexists. split; [reflexivity|exact Hz].
    + exists s, [], []. cbn. rewrite !app_nil_r. auto 10.
  - destruct (existsb (String.eqb (chunk_tag chunk)) _ignored_tags) eqn:Hign.
    { unfold cb, try_except. rewrite (proj2 (Z.eqb_neq _ _) Hz), Hign.
      exists s, [], []. cbn. rewrite !app_nil_r. auto 10. }
    pose proof (RequestLog_new_effect chunk s Hwf) as Heff.
    rewrite cb_request by assumption. unfold try_except.
    destruct (RequestLog_new chunk s) as [[e|ev] s1]; cbn [snd] in Heff.
    + exists s1, [], [e]. split; [exact Heff|].
      destruct Heff as (Hc & He & _). unfold print_exc, bind, ret. cbn.
      rewrite app_nil_r. repeat split; auto; congruence.
    + pose proof (cb_deliver_effect callback aggregate ev s1) as Hd. cbv zeta in Hd.
      pose proof Heff as (Hc & He & _).
      destruct (cb_deliver callback aggregate ev s1) as [[e|v] s2]; cbn [snd] in Hd;
        destruct Hd as (Hh & Hl & Hse & Hcalls); unfold print_exc, bind, ret; cbn [snd].
      * destruct Hcalls as [Hcs|(c & Hcs & Hok)].
        -- exists s1, [], [e]. split; [exact Heff|]. cbn.
           rewrite app_nil_r. repeat split; auto; congruence.
        -- exists s1, [c], [e]. split; [exact Heff|]. cbn.
           repeat split; auto; try congruence. right. eauto.
      * destruct Hcalls as [Hcs|(c & Hcs & Hok)].
        -- exists s1, [], []. split; [exact Heff|].
           rewrite !app_nil_r. repeat split; auto; congruence.
        -- exists s1, [c], []. split; [exact Heff|].
           rewrite app_nil_r. repeat split; auto; try congruence. right. eauto.
Qed.


(** ** What every effect preserves *)

Lemma grows_refl o : grows o o.
Proof. unfold grows. repeat split; auto. exists []. now rewrite app_nil_r. Qed.

Lemma grows_trans o1 o2 o3 : grows o1 o2 -> grows o2 o3 -> grows o1 o3.
Proof.
  intros (H1 & H2 & (m1 & H3) & H4) (K1 & K2 & (m2 & K3) & K4).
  unfold grows. repeat split; try congruence; auto.
  exists (m1 ++ m2). now rewrite K3, H3, app_assoc.
Qed.

Lemma is_backend_negb o : is_backend o = negb (is_client o).
Proof. now destruct o. Qed.

Lemma role_ok_kept o o' :
  grows o o' ->
  client (base o') = client (base o) -> backend (base o') = backend (base o) ->
  role_ok o -> role_ok o'.
Proof.
  intros (Hc & _) H1 H2 [R1 R2]. unfold role_ok.
  rewrite H1, H2, is_backend_negb, Hc, <- is_backend_negb. auto.
Qed.

Lemma role_ok_flags chunk o o' :
  grows o o' -> flags_ok chunk o o' -> role_ok o -> role_ok o'.
Proof.
  intros Hg [[H1 H2]|(H1 & H2 & [C1 C2])] Hr.
  - now apply (role_ok_kept o).
  - destruct Hg as (Hc & _). unfold role_ok.
    rewrite H1, H2, is_backend_negb, Hc, <- is_backend_negb.
    split; intros E; injection E as E; auto.
Qed.

(** The objects of the heap stay where they are and grow. *)
Lemma chunk_effect_grows chunk s s' :
  chunk_effect chunk s s' ->
  forall a o, heap s !! a = Some o ->
    exists o', heap s' !! a = Some o' /\ grows o o'
               /\ (role_ok o -> role_ok o').
Proof.
  intros (_ & _ & Heff) a0 o0 H0.
  pose proof (lookup_lt_Some _ _ _ H0) as Hlt0.
  destruct Heff as [->|[(o' & _ & -> & _)|(a & o & o' & _ & Ho & Hg & Hf & Hshape)]].
  - exists o0. split; [exact H0|]. split; [apply grows_refl|auto].
  - exists o0. rewrite lookup_app_l by exact Hlt0.
    split; [exact H0|]. split; [apply grows_refl|auto].
  - assert (Ha : forall h, h = <[a := o']> (heap s) ->
                 exists o1, h !! a0 = Some o1 /\ grows o0 o1 /\ (role_ok o0 -> role_ok o1)).
    { intros h ->. destruct (decide (a0 = a)) as [->|Hne].
      - exists o'. rewrite list_lookup_insert_eq by exact Hlt0.
        assert (o0 = o) by congruence. subst o0.
        split; [reflexivity|]. split; [exact Hg|]. now apply (role_ok_flags chunk o).
      - exists o0. rewrite list_lookup_insert_ne by (intros E; now apply Hne).
        split; [exact H0|]. split; [apply grows_refl|auto]. }
    destruct Hshape as [[-> _]|[(kb & b & ob & ob' & _ & Hba & Hob & _ & Hgb & Hc1 & Hc2 & -> & _)
                               |(kb & ob' & _ & _ & _ & _ & _ & -> & _)]].
    + now apply Ha.
    + destruct (decide (a0 = b)) as [->|Hne].
      * exists ob'. rewrite list_lookup_insert_eq by (now rewrite length_insert).
        assert (o0 = ob) by congruence. subst o0.
        split; [reflexivity|]. split; [exact Hgb|]. now apply role_ok_kept.
      * rewrite list_lookup_insert_ne by (intros E; now apply Hne). now apply Ha.
    + rewrite lookup_app_l by (now rewrite length_insert). now apply Ha.
Qed.

Lemma chunk_effect_lines_wf chunk s s' :
  chunk_effect chunk s s' -> lines_wf s -> lines_wf s'.
Proof.
  intros Heff Hwf k a0 Hk.
  assert (Hold : _lines s !! k = Some a0 ->
                 exists o0, heap s' !! a0 = Some o0 /\ fd (base o0) = k).
  { intros Hs. destruct (Hwf _ _ Hs) as (o0 & H0 & Hfd).
    destruct (chunk_effect_grows _ _ _ Heff _ _ H0) as (o1 & H1 & (_ & Hfd1 & _) & _).
    exists o1. split; [exact H1|congruence]. }
  destruct Heff as (_ & _ & Heff).
  assert (Hnew : forall kn pre on,
             heap s' = pre ++ [on] -> List.length pre = List.length (heap s) ->
             fd (base on) = kn ->
             _lines s' = <[kn := List.length (heap s)]> (_lines s) ->
             exists o0, heap s' !! a0 = Some o0 /\ fd (base o0) = k).
  { intros kn pre on Hh Hlen Hfd Hl. rewrite Hl in Hk.
    destruct (decide (k = kn)) as [->|Hne].
    - rewrite lookup_insert_eq in Hk. injection Hk as <-.
      exists on. rewrite Hh, <- Hlen, lookup_app_r by lia.
      now rewrite Nat.sub_diag.
    - rewrite lookup_insert_ne in Hk by (intros E; now apply Hne). now apply Hold. }
  destruct Heff as [->|[(o' & _ & Hh & Hl & Hfd & _)|(a & o & o' & _ & Ho & Hg & Hf & Hshape)]].
  - now apply Hwf.
  - now apply (Hnew (chunk_fd chunk) (heap s) o').
  - destruct Hshape as [[_ [Hl|[Hl _]]]|[(kb & b & ob & ob' & _ & _ & _ & _ & _ & _ & _ & _ & Hl)
                               |(kb & ob' & _ & _ & Hfd & _ & _ & Hh & Hl)]].
    + rewrite Hl in Hk. now apply Hold.
    + rewrite Hl in Hk. apply lookup_delete_Some in Hk as [_ Hk]. now apply Hold.
    + rewrite Hl in Hk. now apply Hold.
    + apply (Hnew kb (<[a := o']> (heap s)) ob'); auto. apply length_insert.
Qed.

Lemma chunk_effect_roles_wf chunk s s' :
  chunk_effect chunk s s' -> roles_wf s -> roles_wf s'.
Proof.
  intros Heff Hwf a0 o1 H1.
  destruct (decide (a0 < List.length (heap s))%nat) as [Hlt|Hge].
  - destruct (lookup_lt_is_Some_2 _ _ Hlt) as [o0 H0].
    destruct (chunk_effect_grows _ _ _ Heff _ _ H0) as (o1' & H1' & _ & Hr).
    assert (o1' = o1) by congruence. subst o1'. apply Hr. now apply (Hwf a0).
  - destruct Heff as (_ & _ & Heff).
    assert (Hnew : forall pre on,
               heap s' = pre ++ [on] -> List.length pre = List.length (heap s) ->
               role_ok on -> role_ok o1).
    { intros pre on Hh Hlen Hr. rewrite Hh in H1.
      rewrite lookup_app_r in H1 by lia.
      destruct (a0 - List.length pre)%nat as [|m] eqn:E; cbn in H1; [congruence|].
      destruct m; discriminate H1. }
    destruct Heff as [->|[(o' & _ & Hh & _ & _ & Hr & _)|(a & o & o' & _ & Ho & Hg & Hf & Hshape)]].
    + apply lookup_lt_Some in H1. contradiction.
    + now apply (Hnew (heap s) o').
    + destruct Hshape as [[Hh _]|[(kb & b & ob & ob' & _ & _ & _ & _ & _ & _ & _ & Hh & _)
                                 |(kb & ob' & _ & _ & _ & Hc & Hb & Hh & _)]].
      * rewrite Hh in H1. apply lookup_lt_Some in H1. rewrite length_insert in H1.
        contradiction.
      * rewrite Hh in H1. apply lookup_lt_Some in H1. rewrite !length_insert in H1.
        contradiction.
      * apply (Hnew (<[a := o']> (heap s)) ob'); auto; [apply length_insert|].
        unfold role_ok. rewrite Hc, Hb. split; discriminate.
Qed.

(** A record that no descriptor is bound to is out of reach. *)
Lemma chunk_effect_unbound chunk s s' a0 o0 :
  chunk_effect chunk s s' ->
  heap s !! a0 = Some o0 ->
  (forall k, _lines s !! k <> Some a0) ->
  heap s' !! a0 = Some o0 /\ (forall k, _lines s' !! k <> Some a0).
Proof.
  intros (_ & _ & Heff) H0 Hun.
  pose proof (lookup_lt_Some _ _ _ H0) as Hlt0.
  assert (Hins : forall kn (l : gmap Z nat) k,
             l = <[kn := List.length (heap s)]> (_lines s) -> l !! k <> Some a0).
  { intros kn l k -> Hk. destruct (decide (k = kn)) as [->|Hne].
    - rewrite lookup_insert_eq in Hk. injection Hk as Hk. lia.
    - rewrite lookup_insert_ne in Hk by (intros E; now apply Hne). now apply (Hun k). }
  destruct Heff as [->|[(o' & _ & Hh & Hl & _)|(a & o & o' & Hla & Ho & Hg & Hf & Hshape)]].
  - auto.
  - split; [rewrite Hh, lookup_app_l by exact Hlt0; exact H0|].
    intros k. now apply (Hins (chunk_fd chunk)).
  - assert (Hne : a0 <> a) by (intros ->; now apply (Hun (chunk_fd chunk))).
    destruct Hshape as [[Hh Hl]|[(kb & b & ob & ob' & Hlb & _ & _ & _ & _ & _ & _ & Hh & Hl)
                               |(kb & ob' & _ & _ & _ & _ & _ & Hh & Hl)]].
    + split; [rewrite Hh, list_lookup_insert_ne by (intros E; now apply Hne); exact H0|].
      intros k Hk. destruct Hl as [Hl|[Hl _]]; rewrite Hl in Hk.
      * now apply (Hun k).
      * apply lookup_delete_Some in Hk as [_ Hk]. now apply (Hun k).
    + assert (Hneb : a0 <> b) by (intros ->; now apply (Hun kb)).
      split; [rewrite Hh, !list_lookup_insert_ne by (intros E; auto); exact H0|].
      intros k. rewrite Hl. apply Hun.
    + split.
      * rewrite Hh, lookup_app_l by (now rewrite length_insert).
        rewrite list_lookup_insert_ne by (intros E; now apply Hne). exact H0.
      * intros k. now apply (Hins kb).
Qed.

(** The table never lets go of a backend record. *)
Lemma chunk_effect_backend_bound chunk s s' k a0 o0 :
  chunk_effect chunk s s' ->
  _lines s !! k = Some a0 -> heap s !! a0 = Some o0 -> is_backend o0 = true ->
  _lines s' !! k = Some a0.
Proof.
  intros (_ & _ & Heff) Hk H0 Hb.
  assert (Hins : forall kn (l : gmap Z nat),
             _lines s !! kn = None -> l = <[kn := List.length (heap s)]> (_lines s) ->
             l !! k = Some a0).
  { intros kn l Hn ->. rewrite lookup_insert_ne; [exact Hk|]. intros ->. congruence. }
  destruct Heff as [->|[(o' & Hn & _ & Hl & _)|(a & o & o' & Hla & Ho & Hg & Hf & Hshape)]].
  - exact Hk.
  - now apply (Hins (chunk_fd chunk)).
  - destruct Hshape as [[_ [Hl|[Hl Hc]]]|[(kb & b & ob & ob' & _ & _ & _ & _ & _ & _ & _ & _ & Hl)
                               |(kb & ob' & Hn & _ & _ & _ & _ & _ & Hl)]].
    + now rewrite Hl.
    + rewrite Hl, lookup_delete_ne; [exact Hk|]. intros <-.
      assert (a0 = a) by congruence. subst a0.
      assert (o0 = o) by congruence. subst o0.
      rewrite is_backend_negb, Hc in Hb. discriminate.
    + now rewrite Hl.
    + now apply (Hins kb).
Qed.


(** ** Invariants of a run *)

Lemma cb_state_effect callback aggregate nrc chunk s :
  lines_wf s ->
  let s' := snd (cb callback aggregate nrc chunk s) in
  exists s1,
    chunk_effect chunk s s1 /\ heap s' = heap s1 /\ _lines s' = _lines s1.
Proof.
  intros Hwf. destruct (cb_effect callback aggregate nrc chunk s Hwf)
    as (s1 & new & errs & Heff & Hh & Hl & _).
  exists s1. auto.
Qed.

Lemma lines_wf_ext s1 s2 :
  heap s2 = heap s1 -> _lines s2 = _lines s1 -> lines_wf s1 -> lines_wf s2.
Proof. intros Hh Hl Hwf k a. rewrite Hh, Hl. apply Hwf. Qed.

Lemma roles_wf_ext s1 s2 : heap s2 = heap s1 -> roles_wf s1 -> roles_wf s2.
Proof. intros Hh Hwf a o. rewrite Hh. apply Hwf. Qed.

Lemma cb_keeps_wf callback aggregate nrc chunk s :
  lines_wf s -> roles_wf s ->
  lines_wf (snd (cb callback aggregate nrc chunk s))
  /\ roles_wf (snd (cb callback aggregate nrc chunk s)).
Proof.
  intros Hl Hr.
  destruct (cb_state_effect callback aggregate nrc chunk s Hl) as (s1 & Heff & Hh & Hls).
  split.
  - apply (lines_wf_ext s1); auto. now apply (chunk_effect_lines_wf chunk s).
  - apply (roles_wf_ext s1); auto. now apply (chunk_effect_roles_wf chunk s).
Qed.

Lemma dispatch_requests_keeps_wf callback aggregate nrc stream s :
  lines_wf s -> roles_wf s ->
  lines_wf (snd (dispatch_requests callback aggregate nrc stream s))
  /\ roles_wf (snd (dispatch_requests callback aggregate nrc stream s)).
Proof.
  revert s. induction stream as [|chunk rest IH]; intros s Hl Hr; [cbn; auto|].
  rewrite dispatch_requests_step.
  destruct (cb_keeps_wf callback aggregate nrc chunk s Hl Hr) as [Hl1 Hr1].
  now apply IH.
Qed.

Lemma initial_wf : lines_wf initial /\ roles_wf initial.
Proof.
  split.
  - intros k a H. cbn in H. now rewrite lookup_empty in H.
  - intros a o H. cbn in H. now rewrite lookup_nil in H.
Qed.

(** X11.  The table stays well formed: from a state in which every
    bound descriptor refers to a record whose [fd] is that descriptor and
    in which the role flags of every record agree with its class, as in
    the state before any chunk, every stream leads to such a state,
    whatever the chunks and whatever the consumers do.  In particular no
    descriptor is ever bound to a record of another descriptor, and no
    backend record ever carries the client flag. *)
Theorem table_stays_well_formed callback aggregate nrc stream s :
  lines_wf s -> roles_wf s ->
  let s' := snd (dispatch_requests callback aggregate nrc stream s) in
  lines_wf s' /\ roles_wf s'.
Proof. intros Hl Hr. now apply dispatch_requests_keeps_wf. Qed.

Lemma cb_calls_ok callback aggregate nrc chunk s :
  lines_wf s -> roles_wf s ->
  exists new,
    calls (snd (cb callback aggregate nrc chunk s)) = calls s ++ new
    /\ Forall (delivery_ok aggregate) new.
Proof.
  intros Hl Hr.
  destruct (cb_effect callback aggregate nrc chunk s Hl)
    as (s1 & new & errs & Heff & _ & _ & Hc & _ & Hnew).
  exists new. split; [exact Hc|].
  destruct Hnew as [->|(c & -> & Hok)]; [constructor|].
  constructor; [|constructor].
  destruct c as [ev o|ch]; [|exact Hok].
  destruct Hok as (Ho & Hco & Hag). split; [exact Hco|].
  intros E. pose proof (chunk_effect_roles_wf _ _ _ Heff Hr ev o Ho) as [R _].
  apply R. now apply Hag.
Qed.

(** X12.  The consumer is only ever given complete records, and with
    aggregation only client records: from a well-formed state, every
    call that a stream adds is either the non-request consumer with a
    chunk on descriptor 0, or the consumer with a record that is complete
    and, when [aggregate] is set, of class [ClientRequestLog]; the calls
    made before stay in place. *)
Theorem only_complete_records_are_delivered callback aggregate nrc stream s :
  lines_wf s -> roles_wf s ->
  exists new,
    calls (snd (dispatch_requests callback aggregate nrc stream s)) = calls s ++ new
    /\ Forall (delivery_ok aggregate) new.
Proof.
  revert s. induction stream as [|chunk rest IH]; intros s Hl Hr.
  - exists []. cbn. rewrite app_nil_r. auto.
  - rewrite dispatch_requests_step.
    destruct (cb_keeps_wf callback aggregate nrc chunk s Hl Hr) as [Hl1 Hr1].
    destruct (cb_calls_ok callback aggregate nrc chunk s Hl Hr) as (n1 & Hc1 & Hf1).
    destruct (IH _ Hl1 Hr1) as (n2 & Hc2 & Hf2).
    exists (n1 ++ n2). rewrite Hc2, Hc1, app_assoc. split; [reflexivity|].
    now apply Forall_app.
Qed.

(** X13.  A record that no descriptor is bound to is out of reach: no
    stream changes it or binds a descriptor to it again.  This is the
    state of every client record after its [reqend]: the record handed
    to the consumer is never touched afterwards. *)
Theorem unbound_record_never_changes callback aggregate nrc stream s a o :
  lines_wf s ->
  heap s !! a = Some o ->
  (forall k, _lines s !! k <> Some a) ->
  let s' := snd (dispatch_requests callback aggregate nrc stream s) in
  heap s' !! a = Some o /\ (forall k, _lines s' !! k <> Some a).
Proof.
  revert s. induction stream as [|chunk rest IH]; intros s Hl Ho Hun; [cbn; auto|].
  cbv zeta. rewrite dispatch_requests_step.
  destruct (cb_state_effect callback aggregate nrc chunk s Hl) as (s1 & Heff & Hh & Hls).
  destruct (chunk_effect_unbound _ _ _ _ _ Heff Ho Hun) as [Ho1 Hun1].
  apply IH.
  - apply (lines_wf_ext s1); auto. now apply (chunk_effect_lines_wf chunk s).
  - now rewrite Hh.
  - intros k. rewrite Hls. apply Hun1.
Qed.

(** X14.  The table never lets go of a backend record: only the [reqend]
    of a client record deletes an entry, and that entry is the client's
    own.  A descriptor bound to a backend record stays bound to that very
    record through every stream, and the record stays a backend record. *)
Theorem backend_descriptor_stays_bound callback aggregate nrc stream s k a o :
  lines_wf s ->
  _lines s !! k = Some a -> heap s !! a = Some o -> is_backend o = true ->
  let s' := snd (dispatch_requests callback aggregate nrc stream s) in
  _lines s' !! k = Some a
  /\ exists o', heap s' !! a = Some o' /\ is_backend o' = true.
Proof.
  revert s o. induction stream as [|chunk rest IH]; intros s o Hl Hk Ho Hb.
  - cbn. eauto.
  - cbv zeta. rewrite dispatch_requests_step.
    destruct (cb_state_effect callback aggregate nrc chunk s Hl) as (s1 & Heff & Hh & Hls).
    destruct (chunk_effect_grows _ _ _ Heff _ _ Ho) as (o1 & Ho1 & (Hc & _) & _).
    apply (IH _ o1).
    + apply (lines_wf_ext s1); auto. now apply (chunk_effect_lines_wf chunk s).
    + rewrite Hls. now apply (chunk_effect_backend_bound chunk s s1 k a o).
    + now rewrite Hh.
    + now rewrite is_backend_negb, Hc, <- is_backend_negb.
Qed.

(** X15.  Records only grow: through every stream a record stays at its
    place in the heap, keeps its class and its descriptor, keeps the
    chunks it has, in their order, with any new ones after them, and
    stays complete once it is; and the run itself never raises. *)
Theorem records_only_grow callback aggregate nrc stream s a o :
  lines_wf s ->
  heap s !! a = Some o ->
  let out := dispatch_requests callback aggregate nrc stream s in
  fst out = inr tt
  /\ exists o', heap (snd out) !! a = Some o' /\ grows o o'.
Proof.
  intros Hl Ho out. subst out. split; [apply dispatch_requests_total|].
  revert s o Hl Ho. induction stream as [|chunk rest IH]; intros s o Hl Ho.
  - exists o. split; [exact Ho|apply grows_refl].
  - rewrite dispatch_requests_step.
    destruct (cb_state_effect callback aggregate nrc chunk s Hl) as (s1 & Heff & Hh & Hls).
    destruct (chunk_effect_grows _ _ _ Heff _ _ Ho) as (o1 & Ho1 & Hg1 & _).
    destruct (IH (snd (cb callback aggregate nrc chunk s)) o1) as (o2 & Ho2 & Hg2).
    + apply (lines_wf_ext s1); auto. now apply (chunk_effect_lines_wf chunk s).
    + now rewrite Hh.
    + exists o2. split; [exact Ho2|]. now apply (grows_trans o o1).
Qed.

(** ** Where a chunk stands in its transaction *)

Lemma app_cons_last {A} (last : A) body done x rest :
  done ++ x :: rest = body ++ [last] ->
  (rest = [] /\ x = last /\ done = body)
  \/ (exists r, rest = r ++ [last] /\ body = done ++ x :: r).
Proof.
  destruct rest as [|y rest' _] using rev_ind; intros H.
  - left. apply app_inj_tail in H as [-> ->]. auto.
  - right. exists rest'.
    change (done ++ x :: rest' ++ [y]) with (done ++ (x :: rest') ++ [y]) in H.
    rewrite app_assoc in H. apply app_inj_tail in H as [<- ->]. auto.
Qed.

Lemma app_cons_first_last {A} (first last : A) body done x rest :
  done ++ x :: rest = first :: body ++ [last] ->
  (done = [] /\ x = first /\ rest = body ++ [last])
  \/ (exists d, done = first :: d /\ rest = [] /\ x = last /\ d = body)
  \/ (exists d r, done = first :: d /\ rest = r ++ [last] /\ body = d ++ x :: r).
Proof.
  destruct done as [|a d]; cbn; intros H; injection H as -> H.
  - left. auto.
  - right. apply app_cons_last in H as [(-> & -> & ->)|(r & -> & ->)].
    + left. exists body. auto.
    + right. exists d, r. auto.
Qed.

Lemma app_cons_middle {A} (a : A) l1 l2 d x r :
  d ++ x :: r = l1 ++ a :: l2 ->
  (exists m, l1 = d ++ x :: m /\ r = m ++ a :: l2)
  \/ (d = l1 /\ x = a /\ r = l2)
  \/ (exists m, d = l1 ++ a :: m /\ l2 = m ++ x :: r).
Proof.
  revert l1. induction d as [|z d IH]; intros [|y l1]; cbn; intros H; injection H as -> H.
  - right. left. auto.
  - left. exists l1. auto.
  - right. right. exists d. auto.
  - apply IH in H as [(m & -> & ->)|[(-> & -> & ->)|(m & -> & ->)]].
    + left. exists m. auto.
    + right. left. auto.
    + right. right. exists m. auto.
Qed.

Lemma refers_app l1 l2 : refers (l1 ++ l2) = refers l1 || refers l2.
Proof. apply existsb_app. Qed.

Lemma refers_client_body k body : Forall (client_body k) body -> refers body = false.
Proof.
  induction 1 as [|c body (_ & _ & _ & _ & Hc) _ IH]; [reflexivity|].
  unfold refers in *. cbn [existsb]. rewrite IH, orb_false_r. now apply String.eqb_neq.
Qed.

Lemma bphase_of_open d r refd : d <> [] -> r <> [] -> bphase_of d r refd = BOpen.
Proof. now destruct d, r. Qed.

Lemma bphase_of_done d refd : d <> [] -> bphase_of d [] refd = BDone.
Proof. now destruct d. Qed.

Lemma bphase_of_begun d r refd refd' : d <> [] -> bphase_of d r refd = bphase_of d r refd'.
Proof. now destruct d. Qed.

Lemma cphase_of_open d r : d <> [] -> r <> [] -> cphase_of d r = COpen.
Proof. now destruct d, r. Qed.

Lemma cphase_of_done d : d <> [] -> cphase_of d [] = CDone.
Proof. now destruct d. Qed.

Lemma cphase_of_done_inv d r : cphase_of d r = CDone -> r = [].
Proof. now destruct d, r. Qed.

Lemma snoc_not_nil {A} (l : list A) x : l ++ [x] <> [].
Proof. now destruct l. Qed.

(** ** Two transactions, in any order of arrival *)

Lemma deliveries_app (cs1 cs2 : list Call) :
  deliveries (cs1 ++ cs2) = deliveries cs1 ++ deliveries cs2.
Proof. apply List.filter_app. Qed.

Lemma backend_at_frame kb ab p done st st' :
  _lines st' !! kb = _lines st !! kb ->
  (forall rb bb, heap st !! ab = Some (BackendRequestLog rb bb) ->
                 heap st' !! ab = Some (BackendRequestLog rb bb)) ->
  backend_at kb ab p done st -> backend_at kb ab p done st'.
Proof.
  intros Hl Hh. unfold backend_at.
  destruct p; try (now rewrite Hl);
    intros (rb & bb & H1 & H2 & H3); exists rb, bb; rewrite Hl;
    (split; [exact H1|]); (split; [now apply Hh|exact H3]).
Qed.

Lemma client_at_frame kc ac ab p refd done st st' :
  _lines st' !! kc = _lines st !! kc ->
  (forall rc cc, heap st !! ac = Some (ClientRequestLog rc cc) ->
                 heap st' !! ac = Some (ClientRequestLog rc cc)) ->
  client_at kc ac ab p refd done st -> client_at kc ac ab p refd done st'.
Proof.
  intros Hl Hh. unfold client_at.
  destruct p; try (now rewrite Hl).
  intros (rc & cc & H1 & H2 & H3). exists rc, cc. rewrite Hl.
  split; [exact H1|]. split; [now apply Hh|exact H3].
Qed.

(** Before the client refers to it, the address of the backend record is
    of no account to the client. *)
Lemma client_at_unreferred kc ac ab ab' p done st :
  client_at kc ac ab p false done st -> client_at kc ac ab' p false done st.
Proof. now destruct p. Qed.

Lemma delivered_client_unreferred p ac ab ab' cchunks cd :
  p <> CDone ->
  delivered_client p ac ab cchunks cd -> delivered_client p ac ab' cchunks cd.
Proof. now destruct p. Qed.

Lemma delivered_backend_open aggregate p ab bchunks bd :
  p <> BDone ->
  delivered_backend aggregate p ab bchunks bd -> bd = [].
Proof. now destruct p. Qed.

Lemma delivered_backend_none aggregate p ab bchunks :
  p <> BDone -> delivered_backend aggregate p ab bchunks [].
Proof. now destruct p. Qed.

Lemma insert_other_class (h : list PyObj) a oa o' a2 o2 :
  h !! a = Some oa -> is_client oa <> is_client o2 ->
  h !! a2 = Some o2 -> <[a := o']> h !! a2 = Some o2.
Proof.
  intros Ha Hne H2. rewrite list_lookup_insert_ne; [exact H2|].
  intros ->. rewrite Ha in H2. injection H2 as ->. now apply Hne.
Qed.

Lemma snoc_keeps (h : list PyObj) x a o :
  h !! a = Some o -> (h ++ [x]) !! a = Some o.
Proof. intros H. rewrite lookup_app_l; [exact H|]. now apply lookup_lt_Some in H. Qed.

Lemma snoc_last (h : list PyObj) x : (h ++ [x]) !! List.length h = Some x.
Proof. rewrite lookup_app_r by lia. now rewrite Nat.sub_diag. Qed.

(** [backendopen] on a descriptor bound to a record that waits for it. *)
Lemma cb_backend_open_bound callback aggregate nrc k data s a r b :
  _lines s !! k = Some a ->
  heap s !! a = Some (BackendRequestLog r b) ->
  fd r = k -> k <> 0 -> active r = false -> complete r = false ->
  cb callback aggregate nrc (mk k RBackend "backendopen" data) s
  = (inr true,
     Build_State
       (<[a := BackendRequestLog
                 (with_chunk (mk k RBackend "backendopen" data) (set_active true r))
                 (set_backend_name (head (PyStr.split " " data)) b)]> (heap s))
       (_lines s) (calls s) (stderr s)).
Proof.
  intros Hl Ho Hfd Hk Hact Hco.
  destruct (state_at _ _ _ Ho) as [Hs Hlt].
  rewrite cb_request by (try reflexivity; exact Hk).
  rewrite Hs at 1.
  rewrite (backend_open_bound_run k data _ _ _ _ a r b Hlt Hl Hfd Hk Hact).
  match goal with
  | |- context [Build_State (<[a := ?x]> ?h) ?l ?cs ?e] =>
      rewrite (cb_deliver_incomplete _ _ a (Build_State (<[a := x]> h) l cs e) x);
        [ | cbn [heap]; now apply list_lookup_insert_eq
          | cbn [base]; unfold with_chunk; attrs; exact Hco ]
  end.
  reflexivity.
Qed.

(** A chunk inside a transaction, as [cb] sees it. *)
Lemma cb_backend_body callback aggregate nrc k chunk s a r b :
  _lines s !! k = Some a ->
  heap s !! a = Some (BackendRequestLog r b) ->
  fd r = k -> k <> 0 -> active r = true -> complete r = false ->
  backend_body k chunk ->
  exists r' b' e',
    snd (cb callback aggregate nrc chunk s)
    = Build_State (<[a := BackendRequestLog r' b']> (heap s)) (_lines s) (calls s) e'
    /\ fd r' = k /\ active r' = true /\ complete r' = false
    /\ chunks r' = chunks r ++ [chunk].
Proof.
  intros Hl Ho Hfd Hk Hact Hco Hbody.
  destruct (state_at _ _ _ Ho) as [Hs Hlt].
  destruct (backend_body_dispatch callback aggregate nrc k a (heap s) (_lines s) (calls s)
              Hlt Hl Hk [chunk] r b (stderr s) Hfd Hact Hco)
    as (r' & b' & e' & Hd & Hfd' & Hact' & Hco' & Hch' & _).
  { now constructor. }
  rewrite <- Hs in Hd. rewrite dispatch_requests_step in Hd.
  cbn [dispatch_requests dispatch_chunks logs_dispatch ret snd] in Hd.
  exists r', b', e'. auto 10.
Qed.

Lemma cb_client_body callback aggregate nrc k chunk s a r c :
  _lines s !! k = Some a ->
  heap s !! a = Some (ClientRequestLog r c) ->
  fd r = k -> k <> 0 -> active r = true -> complete r = false ->
  client_body k chunk ->
  exists r' c' e',
    snd (cb callback aggregate nrc chunk s)
    = Build_State (<[a := ClientRequestLog r' c']> (heap s)) (_lines s) (calls s) e'
    /\ fd r' = k /\ active r' = true /\ complete r' = false
    /\ chunks r' = chunks r ++ [chunk]
    /\ backend_request c' = backend_request c.
Proof.
  intros Hl Ho Hfd Hk Hact Hco Hbody.
  destruct (state_at _ _ _ Ho) as [Hs Hlt].
  destruct (client_body_dispatch callback aggregate nrc k a (heap s) (_lines s) (calls s)
              Hlt Hl Hk [chunk] r c (stderr s) Hfd Hact Hco)
    as (r' & c' & e' & Hd & Hfd' & Hact' & Hco' & Hch' & Hbr').
  { now constructor. }
  rewrite <- Hs in Hd. rewrite dispatch_requests_step in Hd.
  cbn [dispatch_requests dispatch_chunks logs_dispatch ret snd] in Hd.
  exists r', c', e'. auto 10.
Qed.

Section TwoTransactions.

Variables (callback : Consumer) (aggregate : bool) (nrc : option NonRequestConsumer).
Variables (kb kc : Z) (bchunks cchunks : list LogChunk) (cs0 : list Call).
Hypotheses (Hkb : kb <> 0) (Hkc : kc <> 0) (Hne : kb <> kc).

Local Abbreviation inv := (two_transactions aggregate kb kc bchunks cchunks cs0).

(** A chunk that belongs to no request moves nothing. *)
Lemma two_outside chunk pb pc refd bdone cdone st :
  outside_requests chunk = true ->
  inv pb pc refd bdone cdone st ->
  inv pb pc refd bdone cdone (snd (cb callback aggregate nrc chunk st)).
Proof.
  intros Hout (ab & ac & bd & cd & Hb & Hc & Hbd & Hcd & Hdl).
  destruct (cb_outside_requests callback aggregate nrc chunk st Hout) as (Hh & Hl & Hcs).
  exists ab, ac, bd, cd.
  split; [apply (backend_at_frame _ _ _ _ st); [now rewrite Hl|now rewrite Hh|exact Hb]|].
  split; [apply (client_at_frame _ _ _ _ _ _ st); [now rewrite Hl|now rewrite Hh|exact Hc]|].
  split; [exact Hbd|]. split; [exact Hcd|].
  rewrite Hcs, deliveries_app.
  replace (deliveries _ ++ deliveries _) with (deliveries (calls st)); [exact Hdl|].
  destruct (Z.eqb (chunk_fd chunk) 0); [destruct nrc|]; cbn; now rewrite app_nil_r.
Qed.

(** The first chunk of the backend transaction, when no client has named
    its descriptor yet. *)
Lemma two_backend_open bod pc cdone st :
  pc <> CDone ->
  inv BNone pc false [] cdone st ->
  inv BOpen pc false [mk kb RBackend "backendopen" bod] cdone
    (snd (cb callback aggregate nrc (mk kb RBackend "backendopen" bod) st)).
Proof.
  intros Hpc (ab & ac & bd & cd & Hb & Hc & Hbd & Hcd & Hdl). cbn in Hb.
  destruct (cb_backend_open callback aggregate nrc kb bod st Hb Hkb)
    as (r & b & Hcb & Hfd & Hact & Hco & Hch & _).
  rewrite Hcb. cbn [snd].
  exists (List.length (heap st)), ac, bd, cd.
  split.
  { exists r, b. cbn [_lines heap]. rewrite lookup_insert_eq, snoc_last. auto 10. }
  split.
  { apply (client_at_frame _ _ _ _ _ _ st).
    - cbn [_lines]. now rewrite lookup_insert_ne.
    - cbn [heap]. intros rc cc. apply snoc_keeps.
    - now apply (client_at_unreferred _ _ ab). }
  split; [exact Hbd|].
  split; [now apply (delivered_client_unreferred _ _ ab)|].
  exact Hdl.
Qed.

(** The first chunk of the backend transaction, when the client has
    named its descriptor before. *)
Lemma two_backend_open_held bod pc cdone st :
  inv BHeld pc true [] cdone st ->
  inv BOpen pc true [mk kb RBackend "backendopen" bod] cdone
    (snd (cb callback aggregate nrc (mk kb RBackend "backendopen" bod) st)).
Proof.
  intros (ab & ac & bd & cd & Hb & Hc & Hbd & Hcd & Hdl).
  destruct Hb as (rb & bb & Hl & Ho & Hfd & Hch & Hact & Hco).
  rewrite (cb_backend_open_bound callback aggregate nrc kb bod st ab rb bb
             Hl Ho Hfd Hkb Hact Hco).
  cbn [snd].
  exists ab, ac, bd, cd.
  split.
  { eexists _, _. cbn [_lines heap].
    split; [exact Hl|].
    split; [apply list_lookup_insert_eq; now apply lookup_lt_Some in Ho|].
    unfold with_chunk. attrs. rewrite Hch. auto 10. }
  split.
  { apply (client_at_frame _ _ _ _ _ _ st); [reflexivity| |exact Hc].
    cbn [heap]. intros rc cc Hrc. eapply insert_other_class; [exact Ho| |exact Hrc].
    discriminate. }
  split; [exact Hbd|]. split; [exact Hcd|]. exact Hdl.
Qed.

(** A chunk inside the backend transaction. *)
Lemma two_backend_body chunk pc refd bdone cdone st :
  backend_body kb chunk ->
  inv BOpen pc refd bdone cdone st ->
  inv BOpen pc refd (bdone ++ [chunk]) cdone (snd (cb callback aggregate nrc chunk st)).
Proof.
  intros Hbody (ab & ac & bd & cd & Hb & Hc & Hbd & Hcd & Hdl).
  destruct Hb as (rb & bb & Hl & Ho & Hfd & Hch & Hact & Hco).
  destruct (cb_backend_body callback aggregate nrc kb chunk st ab rb bb
              Hl Ho Hfd Hkb Hact Hco Hbody)
    as (r' & b' & e' & Hcb & Hfd' & Hact' & Hco' & Hch').
  rewrite Hcb.
  exists ab, ac, bd, cd.
  split.
  { exists r', b'. cbn [_lines heap].
    split; [exact Hl|].
    split; [apply list_lookup_insert_eq; now apply lookup_lt_Some in Ho|].
    rewrite Hch', Hch. auto 10. }
  split.
  { apply (client_at_frame _ _ _ _ _ _ st); [reflexivity| |exact Hc].
    cbn [heap]. intros rc cc Hrc. eapply insert_other_class; [exact Ho| |exact Hrc].
    discriminate. }
  split; [exact Hbd|]. split; [exact Hcd|]. exact Hdl.
Qed.

(** The last chunk of the backend transaction: without aggregation the
    consumer is called with the backend record. *)
Lemma two_backend_end tag bed pc refd bdone cdone st :
  tag = "backendclose" \/ tag = "backendreuse" ->
  bdone ++ [mk kb RBackend tag bed] = bchunks ->
  inv BOpen pc refd bdone cdone st ->
  inv BDone pc refd bchunks cdone
    (snd (cb callback aggregate nrc (mk kb RBackend tag bed) st)).
Proof.
  intros Htag Hall (ab & ac & bd & cd & Hb & Hc & Hbd & Hcd & Hdl).
  destruct Hb as (rb & bb & Hl & Ho & Hfd & Hch & Hact & Hco).
  destruct (cb_backend_end callback aggregate nrc kb tag bed st ab rb bb
              Hl Ho Hfd Hkb Hact Htag)
    as (r' & b' & Hcb & Hco' & Hact' & Hfd' & Hch' & _).
  rewrite Hcb. cbv zeta.
  set (s1 := Build_State (<[ab := BackendRequestLog r' b']> (heap st)) (_lines st)
               (calls st) (stderr st)).
  set (st' := snd (if aggregate then (inr true, s1)
                   else deliver callback ab (BackendRequestLog r' b') s1)).
  assert (Hst' : heap st' = <[ab := BackendRequestLog r' b']> (heap st)
                 /\ _lines st' = _lines st
                 /\ calls st' = calls st ++ (if aggregate then []
                                             else [Delivered ab (BackendRequestLog r' b')])).
  { subst st'. destruct aggregate; cbn [snd].
    - cbn [s1 heap _lines calls]. now rewrite app_nil_r.
    - destruct (deliver_state callback ab (BackendRequestLog r' b') s1) as (E1 & E2 & E3 & _).
      rewrite E1, E2, E3. auto. }
  clearbody st'. destruct Hst' as (Hh' & Hl' & Hcs').
  cbn in Hbd. subst bd.
  exists ab, ac, (if aggregate then [] else [Delivered ab (BackendRequestLog r' b')]), cd.
  split.
  { exists r', b'. rewrite Hl', Hh'.
    split; [exact Hl|].
    split; [apply list_lookup_insert_eq; now apply lookup_lt_Some in Ho|].
    rewrite Hch', Hch, Hall. auto 10. }
  split.
  { apply (client_at_frame _ _ _ _ _ _ st); [now rewrite Hl'| |exact Hc].
    rewrite Hh'. intros rc cc Hrc. eapply insert_other_class; [exact Ho| |exact Hrc].
    discriminate. }
  split.
  { cbn. destruct aggregate; [reflexivity|].
    exists r', b'. rewrite Hch', Hch, Hall. auto. }
  split; [exact Hcd|].
  right. rewrite Hcs', deliveries_app.
  assert (Hd : deliveries (calls st) = deliveries cs0 ++ cd)
    by (destruct Hdl as [->| ->]; cbn [app]; now rewrite ?app_nil_r).
  rewrite Hd, <- app_assoc. f_equal. f_equal. now destruct aggregate.
Qed.

(** The first chunk of the client transaction. *)
Lemma two_client_start sd ip port xid pb bdone st :
  PyStr.split " " sd = [ip; port; xid] ->
  inv pb CNone false bdone [] st ->
  inv pb COpen false bdone [mk kc RClient "reqstart" sd]
    (snd (cb callback aggregate nrc (mk kc RClient "reqstart" sd) st)).
Proof.
  intros Hsd (ab & ac & bd & cd & Hb & Hc & Hbd & Hcd & Hdl). cbn in Hc.
  destruct (cb_client_start callback aggregate nrc kc sd ip port xid st Hc Hkc Hsd)
    as (r & c & Hcb & Hfd & Hact & Hco & Hch & _ & _ & _ & Hbr).
  rewrite Hcb. cbn [snd].
  exists ab, (List.length (heap st)), bd, cd.
  split.
  { apply (backend_at_frame _ _ _ _ st); [| |exact Hb].
    - cbn [_lines]. rewrite lookup_insert_ne; [reflexivity|]. now apply not_eq_sym.
    - cbn [heap]. intros rb bb. apply snoc_keeps. }
  split.
  { exists r, c. cbn [_lines heap]. rewrite lookup_insert_eq, snoc_last. auto 10. }
  split; [exact Hbd|]. split; [exact Hcd|]. exact Hdl.
Qed.

(** A chunk inside the client transaction. *)
Lemma two_client_body chunk pb refd bdone cdone st :
  client_body kc chunk ->
  inv pb COpen refd bdone cdone st ->
  inv pb COpen refd bdone (cdone ++ [chunk]) (snd (cb callback aggregate nrc chunk st)).
Proof.
  intros Hbody (ab & ac & bd & cd & Hb & Hc & Hbd & Hcd & Hdl).
  destruct Hc as (rc & cc & Hl & Ho & Hfd & Hch & Hact & Hco & Hbr).
  destruct (cb_client_body callback aggregate nrc kc chunk st ac rc cc
              Hl Ho Hfd Hkc Hact Hco Hbody)
    as (r' & c' & e' & Hcb & Hfd' & Hact' & Hco' & Hch' & Hbr').
  rewrite Hcb.
  exists ab, ac, bd, cd.
  split.
  { apply (backend_at_frame _ _ _ _ st); [reflexivity| |exact Hb].
    cbn [heap]. intros rb bb Hrb. eapply insert_other_class; [exact Ho| |exact Hrb].
    discriminate. }
  split.
  { exists r', c'. cbn [_lines heap].
    split; [exact Hl|].
    split; [apply list_lookup_insert_eq; now apply lookup_lt_Some in Ho|].
    rewrite Hch', Hch, Hbr', Hbr. auto 10. }
  split; [exact Hbd|]. split; [exact Hcd|]. exact Hdl.
Qed.

(** The client's reference to the backend, when the backend record is
    there, open or ended. *)
Lemma two_client_refers rd tok director bname pb bdone cdone st :
  PyStr.split " " rd = [tok; director; bname] ->
  PyStr.int tok = Some kb ->
  pb = BOpen \/ pb = BDone ->
  inv pb COpen false bdone cdone st ->
  inv pb COpen true bdone (cdone ++ [mk kc RClient "backend" rd])
    (snd (cb callback aggregate nrc (mk kc RClient "backend" rd) st)).
Proof.
  intros Hrd Hint Hpb (ab & ac & bd & cd & Hb & Hc & Hbd & Hcd & Hdl).
  destruct Hc as (rc & cc & Hl & Ho & Hfd & Hch & Hact & Hco & Hbr).
  assert (Hb' : exists rb bb,
             _lines st !! kb = Some ab
             /\ heap st !! ab = Some (BackendRequestLog rb bb)
             /\ fd rb = kb /\ chunks rb = bdone
             /\ active rb = match pb with BOpen => true | _ => false end
             /\ complete rb = match pb with BDone => true | _ => false end)
    by (destruct Hpb; subst pb; exact Hb).
  destruct Hb' as (rb & bb & Hlb & Hob & Hrest).
  rewrite (cb_client_backend_ref callback aggregate nrc kc rd tok director bname kb
             st ac rc cc ab rb bb Hl Ho Hfd Hkc Hact Hco Hrd Hint Hlb Hob).
  cbn [snd].
  assert (Hac : ab <> ac) by (intros ->; congruence).
  apply lookup_lt_Some in Ho as Hlta. apply lookup_lt_Some in Hob as Hltb.
  exists ab, ac, bd, cd.
  split.
  { assert (Hnew : exists bb',
               heap (Build_State
                       (<[ab := BackendRequestLog rb
                                  (if PyStr.truthy (director_name bb) then bb
                                   else set_director_name (Some director) bb)]>
                          (<[ac := ClientRequestLog
                                     (with_chunk (mk kc RClient "backend" rd) rc)
                                     (set_backend_request (Some ab) cc)]> (heap st)))
                       (_lines st) (calls st) (stderr st)) !! ab
               = Some (BackendRequestLog rb bb')).
    { eexists. cbn [heap]. apply list_lookup_insert_eq. now rewrite length_insert. }
    destruct Hnew as (bb' & Hnew).
    destruct Hpb; subst pb; exists rb, bb'; (split; [exact Hlb|]);
      (split; [exact Hnew|exact Hrest]). }
  split.
  { eexists _, _. cbn [_lines heap].
    split; [exact Hl|].
    split; [rewrite list_lookup_insert_ne by exact Hac;
            now apply list_lookup_insert_eq|].
    unfold with_chunk. attrs. rewrite Hch. auto 10. }
  split; [exact Hbd|]. split; [exact Hcd|]. exact Hdl.
Qed.

(** The client's reference to the backend, when nothing of the backend
    has come yet: the reference makes the record. *)
Lemma two_client_refers_first rd tok director bname cdone st :
  PyStr.split " " rd = [tok; director; bname] ->
  PyStr.int tok = Some kb ->
  inv BNone COpen false [] cdone st ->
  inv BHeld COpen true [] (cdone ++ [mk kc RClient "backend" rd])
    (snd (cb callback aggregate nrc (mk kc RClient "backend" rd) st)).
Proof.
  intros Hrd Hint (ab & ac & bd & cd & Hb & Hc & Hbd & Hcd & Hdl). cbn in Hb.
  destruct Hc as (rc & cc & Hl & Ho & Hfd & Hch & Hact & Hco & Hbr).
  rewrite (cb_client_backend_new callback aggregate nrc kc rd tok director bname kb
             st ac rc cc Hl Ho Hfd Hkc Hact Hco Hrd Hint Hb).
  cbn [snd].
  apply lookup_lt_Some in Ho as Hlta.
  set (n := List.length (heap st)).
  exists n, ac, bd, cd.
  split.
  { eexists _, _. cbn [_lines heap]. rewrite lookup_insert_eq.
    split; [reflexivity|].
    split.
    { rewrite lookup_app_r by (rewrite length_insert; unfold n; lia).
      rewrite length_insert. unfold n. rewrite Nat.sub_diag. reflexivity. }
    cbn. auto 10. }
  split.
  { eexists _, _. cbn [_lines heap].
    split; [rewrite lookup_insert_ne by exact Hne; exact Hl|].
    split.
    { rewrite lookup_app_l by now rewrite length_insert.
      now apply list_lookup_insert_eq. }
    unfold with_chunk. attrs. rewrite Hch. auto 10. }
  split; [exact Hbd|]. split; [exact Hcd|]. exact Hdl.
Qed.

(** The last chunk of the client transaction: the consumer is called
    with the client record. *)
Lemma two_client_end ed x t1 t2 d1 d2 d3 f1 f2 ts1 ts2 g1 g2 g3 pb bdone cdone st :
  PyStr.split " " ed = [x; t1; t2; d1; d2; d3] ->
  float t1 = Some f1 -> fromtimestamp f1 = Some ts1 ->
  float t2 = Some f2 -> fromtimestamp f2 = Some ts2 ->
  float d1 = Some g1 -> float d2 = Some g2 -> float d3 = Some g3 ->
  cdone ++ [mk kc RClient "reqend" ed] = cchunks ->
  inv pb COpen true bdone cdone st ->
  inv pb CDone true bdone cchunks
    (snd (cb callback aggregate nrc (mk kc RClient "reqend" ed) st)).
Proof.
  intros Hed H1 H2 H3 H4 H5 H6 H7 Hall (ab & ac & bd & cd & Hb & Hc & Hbd & Hcd & Hdl).
  destruct Hc as (rc & cc & Hl & Ho & Hfd & Hch & Hact & Hco & Hbr).
  destruct (cb_client_end callback aggregate nrc kc ed x t1 t2 d1 d2 d3
              f1 f2 ts1 ts2 g1 g2 g3 st ac rc cc Hl Ho Hfd Hkc Hact Hed
              H1 H2 H3 H4 H5 H6 H7)
    as (r' & c' & Hcb & Hco' & _ & _ & Hch' & Hbr' & _).
  rewrite Hcb.
  match goal with
  | |- context [deliver callback ac ?o ?s1] =>
      destruct (deliver_state callback ac o s1) as (E1 & E2 & E3 & _);
      set (st' := snd (deliver callback ac o s1)) in *
  end.
  clearbody st'. cbn [heap _lines calls] in E1, E2, E3.
  cbn in Hcd. subst cd.
  exists ab, ac, bd, [Delivered ac (ClientRequestLog r' c')].
  split.
  { apply (backend_at_frame _ _ _ _ st); [| |exact Hb].
    - rewrite E2. rewrite lookup_delete_ne; [reflexivity|]. now apply not_eq_sym.
    - rewrite E1. intros rb bb Hrb. eapply insert_other_class; [exact Ho| |exact Hrb].
      discriminate. }
  split; [cbn; rewrite E2; apply lookup_delete_eq|].
  split; [exact Hbd|].
  split.
  { exists r', c'. rewrite Hch', Hch, Hall, Hbr', Hbr. auto. }
  left. rewrite E3, deliveries_app.
  assert (Hd : deliveries (calls st) = deliveries cs0 ++ bd)
    by (destruct Hdl as [->| ->]; cbn [app]; now rewrite ?app_nil_r).
  rewrite Hd, <- app_assoc. reflexivity.
Qed.

(** *** Every order of arrival *)

Variables (bod : string) (bbody : list LogChunk) (tag bed : string).
Variables (sd ip port xid : string) (cbody1 : list LogChunk).
Variables (rd tok director bname : string) (cbody2 : list LogChunk).
Variables (ed x t1 t2 d1 d2 d3 : string) (f1 f2 : float_t) (ts1 ts2 : datetime_t).
Variables (g1 g2 g3 : float_t).

Hypothesis Hbchunks :
  bchunks = mk kb RBackend "backendopen" bod :: bbody ++ [mk kb RBackend tag bed].
Hypothesis Hcchunks :
  cchunks = mk kc RClient "reqstart" sd :: cbody1
            ++ mk kc RClient "backend" rd :: cbody2 ++ [mk kc RClient "reqend" ed].
Hypothesis Hbbody : Forall (backend_body kb) bbody.
Hypothesis Htag : tag = "backendclose" \/ tag = "backendreuse".
Hypothesis Hsd : PyStr.split " " sd = [ip; port; xid].
Hypothesis Hcbody1 : Forall (client_body kc) cbody1.
Hypothesis Hrd : PyStr.split " " rd = [tok; director; bname].
Hypothesis Hint : PyStr.int tok = Some kb.
Hypothesis Hcbody2 : Forall (client_body kc) cbody2.
Hypothesis Hed : PyStr.split " " ed = [x; t1; t2; d1; d2; d3].
Hypotheses (H1 : float t1 = Some f1) (H2 : fromtimestamp f1 = Some ts1).
Hypotheses (H3 : float t2 = Some f2) (H4 : fromtimestamp f2 = Some ts2).
Hypotheses (H5 : float d1 = Some g1) (H6 : float d2 = Some g2) (H7 : float d3 = Some g3).

Lemma two_refers_all : refers cchunks = true.
Proof.
  rewrite Hcchunks. change (?a :: ?l ++ ?r) with ([a] ++ l ++ r).
  rewrite !refers_app. cbn. now rewrite !orb_true_r.
Qed.

Lemma two_run brem crem nrem stream :
  merge3 brem crem nrem stream ->
  Forall (fun c => outside_requests c = true) nrem ->
  forall bdone cdone st,
    bdone ++ brem = bchunks -> cdone ++ crem = cchunks ->
    inv (bphase_of bdone brem (refers cdone)) (cphase_of cdone crem) (refers cdone)
      bdone cdone st ->
    inv BDone CDone true bchunks cchunks
      (snd (dispatch_requests callback aggregate nrc stream st)).
Proof.
  assert (Hbne : bchunks <> []) by (rewrite Hbchunks; discriminate).
  assert (Hcne : cchunks <> []) by (rewrite Hcchunks; discriminate).
  induction 1 as [|c brem crem nrem stream _ IH|c brem crem nrem stream _ IH
                  |c brem crem nrem stream _ IH];
    intros Hn bdone cdone st Hbd Hcd Hinv.
  - (* the end of the stream *)
    rewrite app_nil_r in Hbd, Hcd. rewrite Hbd, Hcd in Hinv.
    rewrite two_refers_all, bphase_of_done, cphase_of_done in Hinv by assumption.
    exact Hinv.
  - (* a chunk of the backend transaction *)
    rewrite dispatch_requests_step.
    assert (Hnext : (bdone ++ [c]) ++ brem = bchunks) by now rewrite <- app_assoc.
    apply (IH Hn (bdone ++ [c]) cdone _ Hnext Hcd). clear IH.
    pose proof Hbd as Hpos. rewrite Hbchunks in Hpos.
    apply app_cons_first_last in Hpos
      as [(-> & -> & ->)|[(d & -> & -> & -> & ->)|(d & r & -> & -> & Hmid)]].
    + rewrite bphase_of_open by (discriminate || apply snoc_not_nil).
      cbn [bphase_of app] in Hinv |- *.
      destruct (refers cdone) eqn:Href.
      * now apply two_backend_open_held.
      * apply two_backend_open; [|exact Hinv].
        intros Hdone. pose proof Hdone as Hnil. apply cphase_of_done_inv in Hnil.
        subst crem. rewrite app_nil_r in Hcd. subst cdone.
        rewrite two_refers_all in Href. discriminate.
    + rewrite bphase_of_done by apply snoc_not_nil.
      cbn [bphase_of] in Hinv. rewrite Hbd.
      eapply two_backend_end; [exact Htag|exact Hbd|exact Hinv].
    + rewrite bphase_of_open by apply snoc_not_nil.
      cbn [bphase_of] in Hinv.
      apply two_backend_body; [|exact Hinv].
      rewrite Hmid in Hbbody. apply Forall_app in Hbbody as [_ Hb].
      now apply Forall_cons in Hb as [Hb _].
  - (* a chunk of the client transaction *)
    rewrite dispatch_requests_step.
    assert (Hnext : (cdone ++ [c]) ++ crem = cchunks) by now rewrite <- app_assoc.
    apply (IH Hn bdone (cdone ++ [c]) _ Hbd Hnext). clear IH.
    pose proof Hcd as Hpos. rewrite Hcchunks in Hpos.
    change (?a :: cbody1 ++ ?b :: cbody2 ++ ?l) with (a :: cbody1 ++ (b :: cbody2) ++ l)
      in Hpos.
    rewrite app_assoc in Hpos.
    apply app_cons_first_last in Hpos
      as [(-> & -> & ->)|[(d & -> & -> & -> & ->)|(d & r & -> & -> & Hmid)]].
    + rewrite cphase_of_open by (discriminate || apply snoc_not_nil).
      cbn [cphase_of refers existsb app] in Hinv |- *.
      now apply (two_client_start sd ip port xid).
    + assert (Href : refers (mk kc RClient "reqstart" sd
                             :: cbody1 ++ mk kc RClient "backend" rd :: cbody2) = true).
      { change (?a :: ?l ++ ?r) with ([a] ++ l ++ r).
        rewrite !refers_app. cbn. now rewrite orb_true_r. }
      rewrite Hcd, two_refers_all, cphase_of_done by assumption.
      rewrite Href in Hinv. cbn [cphase_of] in Hinv.
      eapply (two_client_end ed x t1 t2 d1 d2 d3 f1 f2 ts1 ts2 g1 g2 g3);
        [assumption..|exact Hcd|exact Hinv].
    + rewrite cphase_of_open by apply snoc_not_nil.
      cbn [cphase_of] in Hinv.
      symmetry in Hmid.
      apply app_cons_middle in Hmid as [(m & E1 & E2)|[(E1 & E2 & E3)|(m & E1 & E2)]].
      * (* before the reference *)
        assert (Hc : client_body kc c).
        { rewrite E1 in Hcbody1. apply Forall_app in Hcbody1 as [_ Hc].
          now apply Forall_cons in Hc as [Hc _]. }
        assert (Href : refers ((mk kc RClient "reqstart" sd :: d) ++ [c])
                       = refers (mk kc RClient "reqstart" sd :: d)).
        { rewrite refers_app. cbn [refers existsb]. rewrite !orb_false_r.
          destruct Hc as (_ & _ & _ & _ & Hc). apply String.eqb_neq in Hc. rewrite Hc.
          now rewrite orb_false_r. }
        rewrite Href. now apply two_client_body.
      * (* the reference *)
        subst d c r.
        assert (Href : refers (mk kc RClient "reqstart" sd :: cbody1) = false).
        { cbn [refers existsb]. apply (refers_client_body kc) in Hcbody1.
          unfold refers in Hcbody1. now rewrite Hcbody1. }
        assert (Href' : refers ((mk kc RClient "reqstart" sd :: cbody1)
                                ++ [mk kc RClient "backend" rd]) = true).
        { rewrite refers_app. cbn. now rewrite orb_true_r. }
        rewrite Href'. rewrite Href in Hinv.
        destruct bdone as [|b0 bdone'].
        -- cbn [bphase_of] in Hinv |- *.
           now apply (two_client_refers_first rd tok director bname).
        -- rewrite (bphase_of_begun _ _ true false) by discriminate.
           apply (two_client_refers rd tok director bname); [assumption..| |exact Hinv].
           destruct brem; cbn; auto.
      * (* after the reference *)
        assert (Hc : client_body kc c).
        { rewrite E2 in Hcbody2. apply Forall_app in Hcbody2 as [_ Hc].
          now apply Forall_cons in Hc as [Hc _]. }
        assert (Href : refers ((mk kc RClient "reqstart" sd :: d) ++ [c])
                       = refers (mk kc RClient "reqstart" sd :: d)).
        { rewrite refers_app. cbn [refers existsb]. rewrite !orb_false_r.
          destruct Hc as (_ & _ & _ & _ & Hc). apply String.eqb_neq in Hc. rewrite Hc.
          now rewrite orb_false_r. }
        rewrite Href. now apply two_client_body.
  - (* a chunk that belongs to no request *)
    rewrite dispatch_requests_step.
    apply Forall_cons in Hn as [Hc Hn].
    apply (IH Hn bdone cdone _ Hbd Hcd).
    now apply two_outside.
Qed.

End TwoTransactions.

(** C4.  Take one backend transaction (opened, any backend chunks of its
    descriptor that are neither end chunks nor ignored tags, then closed
    or put back for reuse) and one client transaction that names it
    (started, any such client chunks, its [backend] chunk naming the
    backend's descriptor, any such client chunks, ended), on two
    descriptors that are free beforehand, and any chunks that belong to
    no request.  On every stream made of them, each transaction in its
    own order and the three mixed in any way (the backend wholly before
    the client, the client's reference before the backend opens, the
    client ending before the backend does, chunk by chunk in turn):
    with [aggregate] the consumer is called once, with the complete
    client record, whose [backend_request] is the record bound to the
    backend's descriptor, which ends up complete with all the chunks of
    the backend transaction, and it is never called with the backend
    record; without [aggregate] it is called twice, once with the
    complete backend record and once with the complete client record, in
    the order in which the two transactions end. *)
Theorem C4_aggregation_policy callback nrc s kb kc bod bbody tag bed
    sd ip port xid cbody1 rd tok director bname cbody2
    ed x t1 t2 d1 d2 d3 f1 f2 ts1 ts2 g1 g2 g3 noise stream :
  _lines s !! kb = None -> _lines s !! kc = None ->
  kb <> 0 -> kc <> 0 -> kb <> kc ->
  Forall (backend_body kb) bbody ->
  tag = "backendclose" \/ tag = "backendreuse" ->
  PyStr.split " " sd = [ip; port; xid] ->
  Forall (client_body kc) cbody1 ->
  PyStr.split " " rd = [tok; director; bname] ->
  PyStr.int tok = Some kb ->
  Forall (client_body kc) cbody2 ->
  PyStr.split " " ed = [x; t1; t2; d1; d2; d3] ->
  float t1 = Some f1 -> fromtimestamp f1 = Some ts1 ->
  float t2 = Some f2 -> fromtimestamp f2 = Some ts2 ->
  float d1 = Some g1 -> float d2 = Some g2 -> float d3 = Some g3 ->
  Forall (fun c => outside_requests c = true) noise ->
  let bchunks := mk kb RBackend "backendopen" bod :: bbody ++ [mk kb RBackend tag bed] in
  let cchunks := mk kc RClient "reqstart" sd :: cbody1
                 ++ mk kc RClient "backend" rd :: cbody2
                 ++ [mk kc RClient "reqend" ed] in
  merge3 bchunks cchunks noise stream ->
  (exists ab ac rc cc rb bb,
      let s' := snd (dispatch_requests callback true nrc stream s) in
      deliveries (calls s')
      = deliveries (calls s) ++ [Delivered ac (ClientRequestLog rc cc)]
      /\ complete rc = true /\ chunks rc = cchunks
      /\ backend_request cc = Some ab
      /\ _lines s' !! kb = Some ab
      /\ heap s' !! ab = Some (BackendRequestLog rb bb)
      /\ complete rb = true /\ chunks rb = bchunks)
  /\ (exists ab ac rc cc rb bb,
        let s' := snd (dispatch_requests callback false nrc stream s) in
        (deliveries (calls s')
         = deliveries (calls s) ++ [Delivered ab (BackendRequestLog rb bb);
                                    Delivered ac (ClientRequestLog rc cc)]
         \/ deliveries (calls s')
            = deliveries (calls s) ++ [Delivered ac (ClientRequestLog rc cc);
                                       Delivered ab (BackendRequestLog rb bb)])
        /\ complete rb = true /\ chunks rb = bchunks
        /\ complete rc = true /\ chunks rc = cchunks
        /\ backend_request cc = Some ab
        /\ _lines s' !! kb = Some ab).
Proof.
  intros Hlb Hlc Hkb Hkc Hne Hbb Htag Hsd Hcb1 Hrd Hint Hcb2 Hed
    H1 H2 H3 H4 H5 H6 H7 Hnoise bchunks cchunks Hmerge.
  assert (Hrun : forall aggregate,
             two_transactions aggregate kb kc bchunks cchunks (calls s)
               BDone CDone true bchunks cchunks
               (snd (dispatch_requests callback aggregate nrc stream s))).
  { intros aggregate.
    apply (two_run callback aggregate nrc kb kc bchunks cchunks (calls s) Hkb Hkc Hne
             bod bbody tag bed sd ip port xid cbody1 rd tok director bname cbody2
             ed x t1 t2 d1 d2 d3 f1 f2 ts1 ts2 g1 g2 g3
             eq_refl eq_refl Hbb Htag Hsd Hcb1 Hrd Hint Hcb2 Hed H1 H2 H3 H4 H5 H6 H7
             bchunks cchunks noise stream Hmerge Hnoise [] [] s eq_refl eq_refl).
    exists 0%nat, 0%nat, [], []. cbn. rewrite app_nil_r. auto 10. }
  split.
  - destruct (Hrun true) as (ab & ac & bd & cd & Hb & _ & Hbd & Hcd & Hdl).
    destruct Hb as (rb & bb & Hl & Ho & _ & Hch & _ & Hco).
    destruct Hcd as (rc & cc & -> & Hcoc & Hchc & Hbr).
    cbn in Hbd. subst bd. cbn [app] in Hdl.
    exists ab, ac, rc, cc, rb, bb. cbv zeta.
    split; [destruct Hdl as [Hdl|Hdl]; rewrite Hdl, ?app_nil_r; reflexivity|].
    auto 10.
  - destruct (Hrun false) as (ab & ac & bd & cd & Hb & _ & Hbd & Hcd & Hdl).
    destruct Hb as (_ & _ & Hl & _).
    destruct Hbd as (rb & bb & -> & Hco & Hch).
    destruct Hcd as (rc & cc & -> & Hcoc & Hchc & Hbr).
    exists ab, ac, rc, cc, rb, bb. cbv zeta. cbn [app] in Hdl. auto 10.
Qed.

End Properties.

(** * The settings *)

Section SettingsProperties.

Import Settings.

Lemma getkey_In key d v : getkey key d = Some v -> In (key, v) d.
Proof.
  induction d as [|[k w] d IH]; cbn; [discriminate|].
  destruct (String.eqb_spec key k) as [->|_].
  - intros [= ->]. now left.
  - intros H. right. now apply IH.
Qed.

Lemma default_is_falsy k v : getkey k default_settings = Some v -> truthy v = false.
Proof.
  intros H. apply getkey_In in H. cbn in H.
  repeat (destruct H as [[= <- <-]|H]; [reflexivity|]). contradiction.
Qed.

Lemma apply_settings_falsy api items t :
  Forall (fun kv => truthy (snd kv) = false) items ->
  apply_settings api items t = (None, t).
Proof.
  induction 1 as [|[k v] rest Hv _ IH]; [reflexivity|].
  cbn in Hv. cbn [apply_settings apply_setting]. rewrite Hv. exact IH.
Qed.

(** X17.  A setting that is not set costs nothing: when every keyword
    argument has a false truth value ([None], [False], 0, an empty
    string or tuple), a known name or not, the constructor makes the one
    call [logs.init(vd, True)] and no other, in whatever order the dict
    yields its items; an unknown name that is given such a value is not
    noticed. *)
Theorem unset_settings_make_no_call api kwargs items :
  items_of kwargs items ->
  (forall k v, In (k, v) kwargs -> truthy v = false) ->
  VarnishLogs_init api items = (api init_call, [init_call]).
Proof.
  intros [_ Hitems] Hfalse. unfold VarnishLogs_init, invoke. cbn [app].
  destruct (api init_call); [reflexivity|].
  apply apply_settings_falsy. apply Forall_forall. intros [k v] Hin. cbn.
  apply list_elem_of_In in Hin.
  apply Hitems in Hin. unfold settings_of in Hin.
  destruct (getkey k kwargs) as [w|] eqn:Hk.
  - injection Hin as ->. apply getkey_In in Hk. now apply (Hfalse k).
  - now apply (default_is_falsy k).
Qed.

Lemma apply_settings_unknown api items k v t :
  In (k, v) items -> truthy v = true -> getkey k default_settings = None ->
  exists e, fst (apply_settings api items t) = Some e
            /\ ((forall c, api c = None) ->
                (forall v', In ("filter_transactions_by_tag_regex", v') items ->
                            truthy v' = false) ->
                e = KeyError).
Proof.
  revert t. induction items as [|[k' v'] rest IH]; intros t Hin Hv Hk; [contradiction|].
  cbn [apply_settings].
  destruct (apply_setting api (k', v') t) as [[e|] t1] eqn:Hstep.
  - exists e. split; [reflexivity|]. intros Hapi Hnf.
    unfold apply_setting in Hstep.
    destruct (truthy v') eqn:Hv'; cbn [negb] in Hstep; [|discriminate].
    destruct (getkey k' default_settings) as [d|]; [|now injection Hstep as <- _].
    destruct (String.eqb_spec k' "filter_transactions_by_tag_regex") as [->|_].
    { rewrite (Hnf v') in Hv' by now left. discriminate. }
    unfold invoke in Hstep. rewrite !Hapi in Hstep.
    destruct d as [|[|]| | |]; discriminate.
  - destruct Hin as [[= -> ->]|Hin].
    + unfold apply_setting in Hstep. rewrite Hv, Hk in Hstep. discriminate.
    + destruct (IH t1 Hin Hv Hk) as (e & He & Hke). exists e. split; [exact He|].
      intros Hapi Hnf. apply Hke; [exact Hapi|]. intros v2 H2. apply (Hnf v2). now right.
Qed.

Lemma apply_setting_grows api item t0 :
  exists t, snd (apply_setting api item t0) = t0 ++ t.
Proof.
  destruct item as [k1 v1]. unfold apply_setting, invoke.
  destruct (truthy v1); cbn [negb]; [|exists []; cbn; now rewrite app_nil_r].
  destruct (getkey k1 default_settings) as [d|];
    [|exists []; cbn; now rewrite app_nil_r].
  destruct d as [|[|]| | |];
    repeat match goal with
           | |- context [match api ?c with _ => _ end] => destruct (api c)
           | |- context [if String.eqb ?a ?b then _ else _] => destruct (String.eqb a b)
           | |- context [match getitem ?a ?b with _ => _ end] => destruct (getitem a b)
           end; cbn [snd]; rewrite <- ?app_assoc; eexists; try reflexivity;
    try (symmetry; apply app_nil_r).
Qed.

Lemma apply_settings_grows api items :
  forall t0, exists t, snd (apply_settings api items t0) = t0 ++ t.
Proof.
  induction items as [|item items IH]; intros t0.
  - exists []. cbn. now rewrite app_nil_r.
  - cbn [apply_settings].
    destruct (apply_setting_grows api item t0) as (t1 & Ht1).
    destruct (apply_setting api item t0) as [[e1|] t'] eqn:E; cbn [snd] in *.
    + exists t1. exact Ht1.
    + subst t'. destruct (IH (t0 ++ t1)) as (t2 & Ht2). exists (t1 ++ t2).
      now rewrite Ht2, app_assoc.
Qed.

(** X18.  A keyword argument whose name is not a setting and whose value
    is set never goes unnoticed: the constructor does not return
    normally, whatever the order of the items.  When the API itself
    raises nothing and the transaction filter is not given, the exception
    is the [KeyError] of the look-up in [default_settings]; it comes after
    [logs.init] and after the calls for the items the dict yielded before
    it. *)
Theorem unknown_setting_raises api kwargs items k v :
  items_of kwargs items ->
  getkey k kwargs = Some v -> truthy v = true ->
  getkey k default_settings = None ->
  exists e,
    fst (VarnishLogs_init api items) = Some e
    /\ ((forall c, api c = None) ->
        getkey "filter_transactions_by_tag_regex" kwargs = None ->
        e = KeyError
        /\ exists t, snd (VarnishLogs_init api items) = init_call :: t).
Proof.
  intros [_ Hitems] Hk Hv Hd.
  assert (Hin : In (k, v) items).
  { apply Hitems. unfold settings_of. now rewrite Hk. }
  unfold VarnishLogs_init, invoke. cbn [app].
  destruct (api init_call) as [e0|] eqn:Hinit.
  - exists e0. split; [reflexivity|]. intros Hapi. now rewrite Hapi in Hinit.
  - destruct (apply_settings_unknown api items k v [init_call] Hin Hv Hd) as (e & He & Hke).
    exists e. split; [exact He|]. intros Hapi Hnf. split.
    + apply Hke; [exact Hapi|]. intros v' Hin'. apply Hitems in Hin'.
      unfold settings_of in Hin'. rewrite Hnf in Hin'. cbn in Hin'. now injection Hin' as <-.
    + destruct (apply_settings_grows api items [init_call]) as (t & Ht). exists t. exact Ht.
Qed.

Lemma apply_setting_quiet api k v t :
  (forall c, api c = None) ->
  truthy v = false \/ getkey k default_settings <> None ->
  k <> "filter_transactions_by_tag_regex" \/ truthy v = false ->
  exists t', apply_setting api (k, v) t = (None, t ++ t').
Proof.
  intros Hapi Hknown Hnf. unfold apply_setting, invoke.
  destruct (truthy v) eqn:Hv; cbn [negb]; [|exists []; now rewrite app_nil_r].
  destruct Hknown as [|Hknown]; [discriminate|].
  destruct Hnf as [Hnf|]; [|discriminate].
  apply String.eqb_neq in Hnf. rewrite Hnf.
  destruct (getkey k default_settings) as [d|]; [|contradiction].
  destruct d as [|[|]| | |]; rewrite ?Hapi; eexists; try reflexivity;
    now rewrite app_nil_r.
Qed.

Lemma apply_setting_filter api v a b t :
  (forall c, api c = None) ->
  truthy v = true ->
  getitem v 0 = inr a -> getitem v 1 = inr b ->
  apply_setting api ("filter_transactions_by_tag_regex", v) t
  = (None,
     t ++ [ {| fn := "filter_transactions_by_tag_regex"; args := [v] |};
            {| fn := "filter_transactions_by_tag_regex"; args := [a; b] |} ]).
Proof.
  intros Hapi Hv Ha Hb. unfold apply_setting, invoke. rewrite Hv.
  cbn [negb getkey String.eqb Ascii.eqb Bool.eqb default_settings].
  rewrite Hapi, Ha, Hb, Hapi, <- app_assoc. reflexivity.
Qed.

Lemma apply_settings_filter api items v a b :
  (forall c, api c = None) ->
  (forall k' v', In (k', v') items ->
                 truthy v' = false \/ getkey k' default_settings <> None) ->
  (forall v', In ("filter_transactions_by_tag_regex", v') items -> v' = v) ->
  In ("filter_transactions_by_tag_regex", v) items ->
  truthy v = true ->
  getitem v 0 = inr a -> getitem v 1 = inr b ->
  forall t, exists t1 t2,
    apply_settings api items t
    = (None,
       t ++ t1
       ++ [ {| fn := "filter_transactions_by_tag_regex"; args := [v] |};
            {| fn := "filter_transactions_by_tag_regex"; args := [a; b] |} ]
       ++ t2).
Proof.
  intros Hapi. induction items as [|[k' v'] rest IH];
    intros Hknown Hsame Hin Hv Ha Hb t; [contradiction|].
  cbn [apply_settings].
  assert (Hrest : forall t0, exists t2, apply_settings api rest t0 = (None, t0 ++ t2)).
  { clear - Hapi Hknown Hsame Hv Ha Hb.
    assert (Hk : forall k1 v1, In (k1, v1) rest ->
                 truthy v1 = false \/ getkey k1 default_settings <> None)
      by (intros; apply (Hknown k1 v1); now right).
    assert (Hs : forall v1, In ("filter_transactions_by_tag_regex", v1) rest -> v1 = v)
      by (intros; apply Hsame; now right).
    clear Hknown Hsame. induction rest as [|[k1 v1] rest IH]; intros t0.
    - exists []. cbn. now rewrite app_nil_r.
    - cbn [apply_settings].
      assert (Hstep : exists t', apply_setting api (k1, v1) t0 = (None, t0 ++ t')).
      { destruct (String.eqb_spec k1 "filter_transactions_by_tag_regex") as [->|Hne].
        - assert (v1 = v) by (apply Hs; now left). subst v1.
          rewrite (apply_setting_filter api v a b t0 Hapi Hv Ha Hb).
          eexists. reflexivity.
        - apply apply_setting_quiet; auto. apply (Hk k1 v1). now left. }
      destruct Hstep as (t' & ->).
      destruct (IH (fun k2 v2 H => Hk k2 v2 (or_intror H))
                  (fun v2 H => Hs v2 (or_intror H)) (t0 ++ t')) as (t2 & ->).
      exists (t' ++ t2). now rewrite app_assoc. }
  destruct (String.eqb_spec k' "filter_transactions_by_tag_regex") as [->|Hne].
  - assert (v' = v) by (apply Hsame; now left). subst v'.
    rewrite (apply_setting_filter api v a b t Hapi Hv Ha Hb).
    destruct (Hrest (t ++ [ {| fn := "filter_transactions_by_tag_regex"; args := [v] |};
                            {| fn := "filter_transactions_by_tag_regex"; args := [a; b] |} ]))
      as (t2 & ->).
    exists [], t2. rewrite <- app_assoc. reflexivity.
  - destruct Hin as [[= E _]|Hin]; [congruence|].
    destruct (apply_setting_quiet api k' v' t Hapi) as (t' & ->).
    + apply (Hknown k' v'). now left.
    + now left.
    + destruct (IH (fun k1 v1 H => Hknown k1 v1 (or_intror H))
                  (fun v1 H => Hsame v1 (or_intror H)) Hin Hv Ha Hb (t ++ t'))
        as (t1 & t2 & ->).
      exists (t' ++ t1), t2. now rewrite <- !app_assoc.
Qed.

(** X19.  The transaction filter is applied twice.  Its default is
    [None], so the first branch of the loop calls
    [filter_transactions_by_tag_regex] with the whole value as its one
    argument, and the test on the name that follows calls it again with
    the two items of the value.  When every name given is a setting and
    the API raises nothing, the constructor returns normally and these
    two calls stand next to each other, in this order, among the calls
    it has made. *)
Theorem transaction_filter_is_applied_twice api kwargs items v a b :
  items_of kwargs items ->
  (forall c, api c = None) ->
  (forall k' v', In (k', v') kwargs -> getkey k' default_settings <> None) ->
  getkey "filter_transactions_by_tag_regex" kwargs = Some v ->
  truthy v = true ->
  getitem v 0 = inr a -> getitem v 1 = inr b ->
  exists t1 t2,
    VarnishLogs_init api items
    = (None,
       init_call :: t1
       ++ [ {| fn := "filter_transactions_by_tag_regex"; args := [v] |};
            {| fn := "filter_transactions_by_tag_regex"; args := [a; b] |} ]
       ++ t2).
Proof.
  intros [_ Hitems] Hapi Hknown Hk Hv Ha Hb.
  unfold VarnishLogs_init, invoke. rewrite Hapi. cbn [app].
  apply (apply_settings_filter api items v a b Hapi); auto.
  - intros k' v' Hin. apply Hitems in Hin. unfold settings_of in Hin.
    destruct (getkey k' kwargs) as [w|] eqn:E.
    + injection Hin as ->. right. apply (Hknown k' v'). now apply getkey_In.
    + right. congruence.
  - intros v' Hin. apply Hitems in Hin. unfold settings_of in Hin. rewrite Hk in Hin.
    now injection Hin.
  - apply Hitems. unfold settings_of. now rewrite Hk.
Qed.

(** A list is the items of the settings when it has each key once, only
    pairs of the settings, and every key of the settings. *)
Lemma items_of_intro kwargs items :
  NoDup (map fst items) ->
  (forall k v, In (k, v) items -> settings_of kwargs k = Some v) ->
  (forall k, settings_of kwargs k <> None -> In k (map fst items)) ->
  items_of kwargs items.
Proof.
  intros Hnd Hsound Hall. split; [exact Hnd|]. intros k v. split; [apply Hsound|].
  intros Hk. assert (Hin : In k (map fst items)) by (apply Hall; congruence).
  apply in_map_iff in Hin as ([k' v'] & Hfst & Hin). cbn in Hfst. subst k'.
  rewrite (Hsound _ _ Hin) in Hk. now injection Hk as <-.
Qed.

End SettingsProperties.

(** * Runs on concrete streams

    The statements above at particular chunks, and the runs that show
    where the module departs from what one might expect of it.  Floating
    point is read with [decimal_float]. *)

(** [know t]: the value of the closed term [t], by computation. *)
Ltac know t :=
  let v := eval vm_compute in t in
  let K := fresh "K" in
  assert (K : t = v) by (vm_compute; reflexivity).

(** The record at [a] in the state [s] of a run, with what [summary]
    says of it. *)
Ltac record_at s a :=
  let K := fresh "K" in
  let E := fresh "E" in
  let v := eval vm_compute in (@look decimal_float s a) in
  assert (K : @look decimal_float s a = v) by (vm_compute; reflexivity);
  unfold look in K;
  destruct (@heap decimal_float s !! (a : nat)) as [[? ?|? ?]|] eqn:E;
  cbn in K; try discriminate K;
  injection K; intros.

(** C1, at descriptor 7: an open backend record is closed, after which any
    client chunk on 7 fails the assertion. *)
Lemma C1_witness :
  let s := after [mk 7 RBackend "backendopen" "b1 10.0.0.9 80"] in
  let s1 := snd (RequestLog_new (mk 7 RBackend "backendclose" "b1") s) in
  (exists r' b', heap s1 !! 0%nat = Some (BackendRequestLog r' b')
                 /\ complete r' = true /\ active r' = false)
  /\ _lines s1 !! 7 = Some 0%nat
  /\ forall ctag cdata,
       RequestLog_new (mk 7 RClient ctag cdata) s1 = (inl AssertionError, s1).
Proof.
  intros s. know (_lines s !! 7). record_at s 0%nat.
  eapply (C1_reuse_after_backend_asserts (F:=decimal_float) 7 "backendclose" "b1");
    [eassumption|eassumption|assumption|lia|assumption|left; reflexivity].
Defined.

(** C1 as stated fails: descriptor 7 is used by a backend transaction that
    completes, then a client start chunk comes on 7.  The factory raises
    [AssertionError]; the heap still holds one record, the completed
    backend record, bound to 7: there is no second, client record. *)
Lemma C1_counterexample :
  let s2 := after [mk 7 RBackend "backendopen" "b1 10.0.0.9 80";
                   mk 7 RBackend "backendclose" "b1"] in
  let start := mk 7 RClient "reqstart" "10.0.0.1 4000 1001" in
  fst (RequestLog_new start s2) = inl AssertionError
  /\ map summary (heap (snd (RequestLog_new start s2)))
     = [(false, 7, false, true, Some true,
         [mk 7 RBackend "backendopen" "b1 10.0.0.9 80";
          mk 7 RBackend "backendclose" "b1"])]
  /\ map_to_list (_lines (snd (RequestLog_new start s2))) = [(7, 0%nat)].
Proof. cbv zeta. repeat split; vm_compute; reflexivity. Qed.

(** C2, at a completed backend record on 7 and at an active client record
    on 12. *)
Lemma C2_witness :
  (let s := after [mk 7 RBackend "backendopen" "b1 10.0.0.9 80";
                   mk 7 RBackend "backendclose" "b1"] in
   snd (RequestLog_new (mk 7 RBackend "txurl" "/") s) = s)
  /\ (let s := after [mk 12 RClient "reqstart" "10.0.0.1 4000 1001"] in
      let s1 := snd (RequestLog_new (mk 12 RClient "reqend" "1001 1.0 2.0 0.1 0.2 0.3") s) in
      _lines s1 !! 12 = None
      /\ (exists r' c', heap s1 !! 0%nat = Some (ClientRequestLog r' c')
                        /\ complete r' = true /\ active r' = false)
      /\ forall chunk,
           chunk_fd chunk = 12 -> chunk_role chunk <> RNone ->
           let s2 := snd (RequestLog_new chunk s1) in
           _lines s2 !! 12 = Some (List.length (heap s1))
           /\ heap s2 !! 0%nat = heap s1 !! 0%nat).
Proof.
  destruct (C2_completed_record_and_unbinding (F:=decimal_float)) as [H1 H2].
  split.
  - intros s. know (_lines s !! 7). record_at s 0%nat.
    eapply (H1 (mk 7 RBackend "txurl" "/") s 0%nat);
      [eassumption|eassumption|assumption|assumption|reflexivity].
  - intros s. know (_lines s !! 12). record_at s 0%nat.
    eapply (H2 12 "1001 1.0 2.0 0.1 0.2 0.3" s 0%nat);
      [eassumption|eassumption|assumption|lia|assumption].
Defined.

(** C2 as stated fails: a backend record that is complete is changed by a
    later [backendopen] chunk on its descriptor.  The chunk is appended,
    the record is active again while [complete] stays set, and its
    [backend_name] is replaced. *)
Lemma C2_counterexample :
  let c1 := mk 7 RBackend "backendopen" "b1 10.0.0.9 80" in
  let c2 := mk 7 RBackend "backendclose" "b1" in
  let c3 := mk 7 RBackend "backendopen" "b2 10.0.0.8 80" in
  let s2 := after [c1; c2] in
  let s3 := snd (RequestLog_new c3 s2) in
  look s2 0%nat = Some (false, 7, false, true, Some true, [c1; c2])
  /\ look s3 0%nat = Some (false, 7, true, true, Some true, [c1; c2; c3])
  /\ backend_name <$> names s2 0%nat = Some (Some "b1")
  /\ backend_name <$> names s3 0%nat = Some (Some "b2").
Proof. cbv zeta. repeat split; vm_compute; reflexivity. Qed.

(** C3, at a chunk that does not complete the record it goes to. *)
Lemma C3_witness :
  match fst (RequestLog_new (mk 12 RClient "rxurl" "/")
               (after [mk 12 RClient "reqstart" "10.0.0.1 4000 1001"])) with
  | inr ev => ev = Some (default (List.length
                                    (heap (after [mk 12 RClient "reqstart" "10.0.0.1 4000 1001"])))
                           (_lines (after [mk 12 RClient "reqstart" "10.0.0.1 4000 1001"])
                              !! chunk_fd (mk 12 RClient "rxurl" "/")))
  | inl _ => True
  end.
Proof.
  apply (C3_factory_returns_the_record (F:=decimal_float)). discriminate.
Defined.

(** C3 as stated fails: the start chunk of a client does not complete the
    record, and the factory returns the record all the same; so does a
    later chunk that leaves it incomplete. *)
Lemma C3_counterexample :
  let start := mk 12 RClient "reqstart" "10.0.0.1 4000 1001" in
  let url := mk 12 RClient "rxurl" "/" in
  let s1 := snd (RequestLog_new (F:=decimal_float) start initial) in
  let s2 := snd (RequestLog_new url s1) in
  fst (RequestLog_new (F:=decimal_float) start initial) = inr (Some 0%nat)
  /\ look s1 0%nat = Some (true, 12, true, false, Some false, [start])
  /\ fst (RequestLog_new url s1) = inr (Some 0%nat)
  /\ look s2 0%nat = Some (true, 12, true, false, Some false, [start; url]).
Proof. cbv zeta. repeat split; vm_compute; reflexivity. Qed.

(** C4, on descriptors 13 and 12, with the client's reference coming
    before the backend opens, the chunks of the two transactions in
    turn, and two chunks that belong to no request. *)
Lemma C4_witness :
  let bchunks := [ mk 13 RBackend "backendopen" "b1 10.0.0.9 80";
                   mk 13 RBackend "txurl" "/";
                   mk 13 RBackend "backendreuse" "b1" ] in
  let cchunks := [ mk 12 RClient "reqstart" "10.0.0.1 4000 1001";
                   mk 12 RClient "rxurl" "/";
                   mk 12 RClient "backend" "13 dir b1";
                   mk 12 RClient "length" "5";
                   mk 12 RClient "reqend" "1001 1.0 2.0 0.1 0.2 0.3" ] in
  let stream := [ mk 12 RClient "sessionopen" "10.0.0.1 4000";
                  mk 12 RClient "reqstart" "10.0.0.1 4000 1001";
                  mk 12 RClient "rxurl" "/";
                  mk 12 RClient "backend" "13 dir b1";
                  mk 13 RBackend "backendopen" "b1 10.0.0.9 80";
                  mk 13 RBackend "txurl" "/";
                  mk 0 RNone "cli" "Rd ping";
                  mk 12 RClient "length" "5";
                  mk 13 RBackend "backendreuse" "b1";
                  mk 12 RClient "reqend" "1001 1.0 2.0 0.1 0.2 0.3" ] in
  (exists ab ac rc cc rb bb,
      let s' := snd (dispatch_requests quiet true None stream initial) in
      deliveries (calls s')
      = deliveries (calls (initial (F:=decimal_float)))
        ++ [Delivered ac (ClientRequestLog rc cc)]
      /\ complete rc = true /\ chunks rc = cchunks
      /\ backend_request cc = Some ab
      /\ _lines s' !! 13 = Some ab
      /\ heap s' !! ab = Some (BackendRequestLog rb bb)
      /\ complete rb = true /\ chunks rb = bchunks)
  /\ (exists ab ac rc cc rb bb,
        let s' := snd (dispatch_requests quiet false None stream initial) in
        (deliveries (calls s')
         = deliveries (calls (initial (F:=decimal_float)))
           ++ [Delivered ab (BackendRequestLog rb bb);
               Delivered ac (ClientRequestLog rc cc)]
         \/ deliveries (calls s')
            = deliveries (calls (initial (F:=decimal_float)))
              ++ [Delivered ac (ClientRequestLog rc cc);
                  Delivered ab (BackendRequestLog rb bb)])
        /\ complete rb = true /\ chunks rb = bchunks
        /\ complete rc = true /\ chunks rc = cchunks
        /\ backend_request cc = Some ab
        /\ _lines s' !! 13 = Some ab).
Proof.
  intros bchunks cchunks stream.
  apply (C4_aggregation_policy (F:=decimal_float) quiet None initial 13 12
           "b1 10.0.0.9 80" [mk 13 RBackend "txurl" "/"] "backendreuse" "b1"
           "10.0.0.1 4000 1001" "10.0.0.1" "4000" "1001"
           [mk 12 RClient "rxurl" "/"]
           "13 dir b1" "13" "dir" "b1"
           [mk 12 RClient "length" "5"]
           "1001 1.0 2.0 0.1 0.2 0.3" "1001" "1.0" "2.0" "0.1" "0.2" "0.3"
           "1.0" "2.0" "1.0" "2.0" "0.1" "0.2" "0.3"
           [mk 12 RClient "sessionopen" "10.0.0.1 4000"; mk 0 RNone "cli" "Rd ping"]
           stream);
    try (vm_compute; reflexivity); try lia.
  - repeat constructor.
  - now right.
  - repeat constructor; discriminate.
  - repeat constructor; discriminate.
  - repeat constructor.
  - subst stream. cbn [app].
    apply merge3_thd. do 3 apply merge3_snd. do 2 apply merge3_fst.
    apply merge3_thd. apply merge3_snd. apply merge3_fst. apply merge3_snd.
    apply merge3_nil.
Defined.

(** C5, with a status that is not a number in the middle of the client
    transaction on 12, followed by a client transaction on 14. *)
Lemma C5_witness :
  let s := after [mk 12 RClient "reqstart" "10.0.0.1 4000 1001"] in
  let bad := mk 12 RClient "txstatus" "abc" in
  let s1 := snd (RequestLog_new bad s) in
  let stream := bad :: mk 14 RClient "reqstart" "10.0.0.2 4001 1002"
                    :: mk 14 RClient "reqend" "1002 3.0 4.0 0.1 0.2 0.3" :: [] in
  fst (RequestLog_new bad s) = inl ValueError
  /\ exists r c s3 es,
      dispatch_requests quiet true None stream s
      = dispatch_requests quiet true None [] s3
      /\ fst (dispatch_requests quiet true None stream s) = inr tt
      /\ stderr s3 = stderr s1 ++ ValueError :: es
      /\ calls s3 = calls s1 ++ [Delivered (List.length (heap s1)) (ClientRequestLog r c)]
      /\ heap s3 !! List.length (heap s1) = Some (ClientRequestLog r c)
      /\ _lines s3 !! 14 = None
      /\ complete r = true /\ fd r = 14
      /\ chunks r = [mk 14 RClient "reqstart" "10.0.0.2 4001 1002";
                     mk 14 RClient "reqend" "1002 3.0 4.0 0.1 0.2 0.3"]
      /\ id c = Some "1002" /\ client_ip c = Some "10.0.0.2"
      /\ client_port c = Some "4001".
Proof.
  intros s bad s1 stream.
  know (fst (RequestLog_new bad s)). know (_lines s1 !! 14).
  split; [exact K|].
  assert (Hrun : RequestLog_new bad s = (inl ValueError, s1)).
  { subst s1. rewrite (surjective_pairing (RequestLog_new bad s)) at 1.
    now rewrite K. }
  eapply (C5_fault_is_printed_and_the_stream_goes_on (F:=decimal_float)
            quiet true None bad s ValueError s1 14
            "10.0.0.2 4001 1002" "10.0.0.2" "4001" "1002"
            "1002 3.0 4.0 0.1 0.2 0.3" "1002" "3.0" "4.0" "0.1" "0.2" "0.3"
            "3.0" "4.0" "3.0" "4.0" "0.1" "0.2" "0.3");
    [discriminate|reflexivity|left; exact Hrun|exact K0|lia| | | | | | | | | ];
    vm_compute; reflexivity.
Defined.

(** C6, at a backend record on 7 that has not seen its [backendopen]. *)
Lemma C6_witness :
  let s := after [mk 7 RBackend "txrequest" "GET"] in
  let chunk := mk 7 RBackend "rxstatus" "200" in
  look s 0%nat = Some (false, 7, false, false, None, [])
  /\ exists o,
      heap s !! 0%nat = Some o
      /\ add_chunk 0%nat chunk s = (inr false, s)
      /\ snd (RequestLog_new chunk s) = s
      /\ heap (snd (RequestLog_new chunk s)) !! 0%nat = Some o.
Proof.
  intros s chunk. split; [vm_compute; reflexivity|].
  know (_lines s !! 7). record_at s 0%nat.
  eexists. split; [reflexivity|].
  apply (C6_inactive_record_drops_chunk (F:=decimal_float) chunk s 0%nat);
    [eassumption|eassumption|assumption|reflexivity].
Defined.

(** C7, with four headers, two of them under one key. *)
Lemma C7_witness :
  let s := after [mk 12 RClient "reqstart" "10.0.0.1 4000 1001"] in
  let datas := ["Host: Example.org "; "Accept : */*"; "X-A: 1"; "x-a:2"] in
  let kvs := [("host", "Example.org"); ("accept", "*/*"); ("x-a", "1"); ("x-a", "2")] in
  let s' := snd (dispatch_requests quiet true None
                   (map (mk 12 RClient "rxheader") datas) s) in
  exists r c,
    heap s !! 0%nat = Some (ClientRequestLog r c)
    /\ rxheaders r = []
    /\ exists r',
        heap s' !! 0%nat = Some (ClientRequestLog r' c)
        /\ rxheaders r' = rxheaders r ++ kvs
        /\ List.length (rxheaders r')
           = (List.length (rxheaders r) + List.length datas)%nat
        /\ forall key, md_getall key (rxheaders r')
                       = md_getall key (rxheaders r) ++ md_getall key kvs.
Proof.
  intros s datas kvs s'.
  know (_lines s !! 12). know (rxheaders_at s 0%nat). unfold rxheaders_at in K0.
  record_at s 0%nat. cbn in K0. injection K0 as K0.
  eexists _, _. split; [reflexivity|]. split; [exact K0|].
  eapply (C7_request_headers (F:=decimal_float) quiet true None 12 datas kvs s 0%nat);
    [eassumption|eassumption|assumption|lia|assumption|assumption|].
  subst datas kvs.
  repeat (constructor;
          [match goal with
           | |- exists key value, PyStr.split1 ":" ?d = _ /\ _ =>
               let v := eval vm_compute in (PyStr.split1 ":" d) in
               match v with
               | Some (?key, ?value) => exists key, value; split; vm_compute; reflexivity
               end
           end|]).
  constructor.
Defined.

(** C8, at a backend record made by a client's reference: a second
    reference with other names changes neither name. *)
Lemma C8_witness :
  let s := after [mk 12 RClient "reqstart" "10.0.0.1 4000 1001";
                  mk 12 RClient "backend" "13 dir b1"] in
  let chunk := mk 12 RClient "backend" "13 other b9" in
  exists r b,
    heap s !! 1%nat = Some (BackendRequestLog r b)
    /\ director_name b = Some "dir" /\ backend_name b = Some "b1"
    /\ exists r' b',
        heap (snd (RequestLog_new chunk s)) !! 1%nat = Some (BackendRequestLog r' b')
        /\ (PyStr.truthy (director_name b) = true -> director_name b' = director_name b)
        /\ (chunk_role chunk = RClient -> backend_name b' = backend_name b).
Proof.
  intros s chunk. know (names s 1%nat). unfold names in K.
  record_at s 1%nat. cbn in K. injection K as K.
  eexists _, _. split; [reflexivity|]. rewrite K.
  split; [reflexivity|]. split; [reflexivity|].
  rewrite <- K.
  eapply (C8_director_set_once_name_kept_by_clients (F:=decimal_float) chunk s 1%nat).
  eassumption.
Defined.

(** C8 as stated fails for [backend_name]: the record made by a client's
    reference holds the name the client gave, and the backend's own
    [backendopen] chunk, coming second, replaces it. *)
Lemma C8_counterexample :
  let s := after [mk 12 RClient "reqstart" "10.0.0.1 4000 1001";
                  mk 12 RClient "backend" "13 dir b1"] in
  let s' := snd (RequestLog_new (mk 13 RBackend "backendopen" "b2 10.0.0.9 80") s) in
  names s 1%nat = Some {| backend_name := Some "b1"; director_name := Some "dir" |}
  /\ names s' 1%nat = Some {| backend_name := Some "b2"; director_name := Some "dir" |}.
Proof. cbv zeta. split; vm_compute; reflexivity. Qed.

(** C9, on descriptor 12, with the routine [recv] that returns [hit]. *)
Lemma C9_witness :
  let s := after [mk 12 RClient "reqstart" "10.0.0.1 4000 1001"] in
  let s' := snd (dispatch_requests quiet true None
                   [mk 12 RClient "vcl_call" "recv";
                    mk 12 RClient "vcl_return" "hit"] s) in
  exists r c r' c',
    heap s !! 0%nat = Some (ClientRequestLog r c)
    /\ heap s' !! 0%nat = Some (ClientRequestLog r' c')
    /\ vcl_calls c' = vcl_calls c ++ [("recv", "hit")]
    /\ (hit c' = true <-> hit c = true \/ "hit" = "hit")
    /\ (miss c' = true <-> miss c = true \/ "hit" = "miss").
Proof.
  intros s s'. know (_lines s !! 12). record_at s 0%nat.
  destruct (C9_hit_miss_test_the_outcomes (F:=decimal_float)) as [_ Hrun].
  destruct (Hrun quiet true None 12 "recv" "hit" s 0%nat r c)
    as (r' & c' & Hh & Hv & Hhit & Hmiss);
    [assumption|assumption|assumption|lia|assumption|assumption|].
  exists r, c, r', c'. split; [reflexivity|]. auto.
Defined.



(** * Runs for the further properties *)

(** Every run from [initial] ends in a well-formed state. *)
Lemma after_wf stream : lines_wf (after stream) /\ roles_wf (after stream).
Proof.
  unfold after. apply dispatch_requests_keeps_wf; apply initial_wf.
Qed.

(** X1, with a session chunk and two chunks on descriptor 0 while a
    client record is open on 12. *)
Lemma chunks_outside_requests_witness :
  let s := after [mk 12 RClient "reqstart" "10.0.0.1 4000 1001"] in
  let stream := [ mk 0 RNone "cli" "Rd ping";
                  mk 12 RClient "sessionclose" "timeout";
                  mk 0 RNone "expkill" "1002 LRU" ] in
  let s' := snd (dispatch_requests quiet true (Some hush) stream s) in
  heap s' = heap s /\ _lines s' = _lines s
  /\ calls s' = calls s ++ [NonRequest (mk 0 RNone "cli" "Rd ping");
                            NonRequest (mk 0 RNone "expkill" "1002 LRU")].
Proof.
  intros s stream.
  apply (chunks_outside_requests_make_no_record (F:=decimal_float)
           quiet true (Some hush) stream s).
  reflexivity.
Defined.

(** X2, with a [reqend] of three fields on the client record on 12. *)
Lemma unparsable_reqend_witness :
  let s := after [mk 12 RClient "reqstart" "10.0.0.1 4000 1001"] in
  let chunk := mk 12 RClient "reqend" "1001 1.0 2.0" in
  exists r c,
    heap s !! 0%nat = Some (ClientRequestLog r c)
    /\ exists r',
        cb quiet true None chunk s
        = (inr false,
           Build_State (<[0%nat := ClientRequestLog r' c]> (heap s))
             (delete 12 (_lines s)) (calls s) (stderr s ++ [ValueError]))
        /\ complete r' = true /\ active r' = false
        /\ chunks r' = chunks r ++ [chunk].
Proof.
  intros s chunk. know (_lines s !! 12). record_at s 0%nat.
  eexists _, _. split; [reflexivity|].
  eapply (unparsable_reqend_loses_the_transaction (F:=decimal_float)
            quiet true None 12 "1001 1.0 2.0" s 0%nat);
    [eassumption|eassumption|assumption|lia|assumption|vm_compute; lia].
Defined.

(** X3, with a [Host] header that names a port, on a client record and
    on a backend record. *)
Lemma header_first_colon_witness :
  let s := after [mk 12 RClient "reqstart" "10.0.0.1 4000 1001";
                  mk 13 RBackend "backendopen" "b1 10.0.0.9 80"] in
  (exists o o',
      heap s !! 0%nat = Some o
      /\ cb quiet true None (mk 12 RClient "rxheader" "Host: example.org:8080") s
         = (inr true, Build_State (<[0%nat := o']> (heap s)) (_lines s) (calls s) (stderr s))
      /\ rxheaders (base o') = rxheaders (base o) ++ [("host", "example.org:8080")]
      /\ txheaders (base o') = txheaders (base o))
  /\ (exists o o',
        heap s !! 1%nat = Some o
        /\ cb quiet true None (mk 13 RBackend "txheader" "Host: example.org:8080") s
           = (inr true, Build_State (<[1%nat := o']> (heap s)) (_lines s) (calls s) (stderr s))
        /\ txheaders (base o') = txheaders (base o) ++ [("host", "example.org:8080")]
        /\ rxheaders (base o') = rxheaders (base o)).
Proof.
  intros s. split.
  - know (_lines s !! 12). record_at s 0%nat.
    destruct (header_is_cut_at_the_first_colon (F:=decimal_float)
                quiet true None 12 "rxheader" "Host" " example.org:8080" s 0%nat
                (ClientRequestLog r c))
      as (o' & Hrun & _ & _ & Hrx & Htx);
      [eassumption|eassumption|assumption|lia|assumption|assumption
      |left; reflexivity|vm_compute; intuition discriminate|].
    exists (ClientRequestLog r c), o'. split; [reflexivity|]. split; [exact Hrun|].
    split; [exact Hrx|]. rewrite Htx. apply app_nil_r.
  - know (_lines s !! 13). record_at s 1%nat.
    destruct (header_is_cut_at_the_first_colon (F:=decimal_float)
                quiet true None 13 "txheader" "Host" " example.org:8080" s 1%nat
                (BackendRequestLog r b))
      as (o' & Hrun & _ & _ & Hrx & Htx);
      [eassumption|eassumption|assumption|lia|assumption|assumption
      |right; reflexivity|vm_compute; intuition discriminate|].
    exists (BackendRequestLog r b), o'. split; [reflexivity|]. split; [exact Hrun|].
    split; [exact Htx|]. rewrite Hrx. apply app_nil_r.
Defined.

(** X4, with a header line that has no colon. *)
Lemma header_without_colon_witness :
  let s := after [mk 12 RClient "reqstart" "10.0.0.1 4000 1001"] in
  let chunk := mk 12 RClient "rxheader" "Host example.org" in
  exists o : @PyObj decimal_float,
    heap s !! 0%nat = Some o
    /\ cb quiet true None chunk s
       = (inr false,
          Build_State (<[0%nat := on_base (with_chunk (F:=decimal_float) chunk) o]> (heap s))
            (_lines s)
            (calls s) (stderr s ++ [ValueError])).
Proof.
  intros s chunk. know (_lines s !! 12). record_at s 0%nat.
  exists (ClientRequestLog r c). split; [reflexivity|].
  apply (header_without_colon_is_kept_as_chunk (F:=decimal_float)
           quiet true None 12 "rxheader" "Host example.org" s 0%nat (ClientRequestLog r c));
    [assumption|assumption|assumption|lia|assumption
    |left; reflexivity|vm_compute; intuition discriminate].
Defined.

(** X5, with the routine hit and the outcome deliver. *)
Lemma vcl_call_then_vcl_return_witness :
  let s := after [mk 12 RClient "reqstart" "10.0.0.1 4000 1001"] in
  let call := mk 12 RClient "vcl_call" "hit" in
  let retn := mk 12 RClient "vcl_return" "deliver" in
  let s' := snd (dispatch_requests quiet true None [call; retn] s) in
  exists r c r' c',
    heap s !! 0%nat = Some (ClientRequestLog r c)
    /\ s' = Build_State (<[0%nat := ClientRequestLog r' c']> (heap s)) (_lines s)
              (calls s) (stderr s)
    /\ vcl_calls c' = vcl_calls c ++ [("hit", "deliver")]
    /\ _last_vcl c' = None
    /\ chunks r' = chunks r ++ [call; retn].
Proof.
  intros s call retn s'. know (_lines s !! 12). record_at s 0%nat.
  destruct (vcl_call_then_vcl_return (F:=decimal_float)
              quiet true None 12 "hit" "deliver" s 0%nat r c)
    as (r' & c' & Hs & Hv & Hl & Hch);
    [assumption|assumption|assumption|lia|assumption|assumption|].
  exists r, c, r', c'. split; [reflexivity|]. split; [exact Hs|].
  split; [exact Hv|]. split; [exact Hl|]. exact Hch.
Defined.

(** X6, with a [vcl_return] that comes first. *)
Lemma vcl_return_without_vcl_call_witness :
  let s := after [mk 12 RClient "reqstart" "10.0.0.1 4000 1001"] in
  let chunk := mk 12 RClient "vcl_return" "deliver" in
  exists r c,
    heap s !! 0%nat = Some (ClientRequestLog r c)
    /\ cb quiet true None chunk s
       = (inr false,
          Build_State
            (<[0%nat := ClientRequestLog (with_chunk (F:=decimal_float) chunk r) c]> (heap s))
            (_lines s) (calls s) (stderr s ++ [AttributeError])).
Proof.
  intros s chunk. know (_lines s !! 12).
  know (@_last_vcl decimal_float <$> (heap s !! 0%nat ≫= client_attrs)).
  record_at s 0%nat. cbn in K0. injection K0 as K0.
  exists r, c. split; [reflexivity|].
  apply (vcl_return_without_vcl_call (F:=decimal_float)
           quiet true None 12 "deliver" s 0%nat r c);
    [assumption|assumption|assumption|lia|assumption|assumption|assumption].
Defined.

(** X7, with a client on 12 that names descriptor 13 before the backend
    on 13 opens. *)
Lemma backend_named_before_it_opens_witness :
  let s := after [mk 12 RClient "reqstart" "10.0.0.1 4000 1001"] in
  let ref := mk 12 RClient "backend" "13 dir b1" in
  let open := mk 13 RBackend "backendopen" "b2 10.0.0.9 80" in
  let n := List.length (heap s) in
  exists r c r' rb,
    heap s !! 0%nat = Some (ClientRequestLog r c)
    /\ snd (dispatch_requests quiet true None [ref; open] s)
       = Build_State
           (<[0%nat := ClientRequestLog r' (set_backend_request (Some n) c)]> (heap s)
            ++ [BackendRequestLog rb
                  {| backend_name := Some "b2"; director_name := Some "dir" |}])
           (<[13 := n]> (_lines s)) (calls s) (stderr s)
    /\ chunks r' = chunks r ++ [ref]
    /\ fd rb = 13 /\ active rb = true /\ complete rb = false
    /\ chunks rb = [open].
Proof.
  intros s ref open n. know (_lines s !! 12). know (_lines s !! 13).
  record_at s 0%nat.
  exists r, c.
  destruct (backend_named_before_it_opens (F:=decimal_float)
              quiet true None 12 13 "13 dir b1" "13" "dir" "b1" "b2 10.0.0.9 80"
              s 0%nat r c)
    as (r' & rb & Hrun);
    [assumption|assumption|assumption|lia|assumption|assumption
    |reflexivity|reflexivity|assumption|lia|].
  exists r', rb. split; [reflexivity|exact Hrun].
Defined.

(** X8, with a client on 12 whose [backend] chunk names 14, where another
    client is open. *)
Lemma backend_reference_to_a_client_record_witness :
  let s := after [mk 12 RClient "reqstart" "10.0.0.1 4000 1001";
                  mk 14 RClient "reqstart" "10.0.0.2 4001 1002"] in
  let chunk := mk 12 RClient "backend" "14 dir b1" in
  exists r c,
    heap s !! 0%nat = Some (ClientRequestLog r c)
    /\ cb quiet true None chunk s
       = (inr false,
          Build_State
            (<[0%nat := ClientRequestLog (with_chunk (F:=decimal_float) chunk r)
                          (set_backend_request (Some 1%nat) c)]> (heap s))
            (_lines s) (calls s) (stderr s ++ [AssertionError])).
Proof.
  intros s chunk. know (_lines s !! 12). know (_lines s !! 14).
  know (@backend_request decimal_float <$> (heap s !! 1%nat ≫= client_attrs)).
  record_at s 0%nat. record_at s 1%nat. cbn in K1. injection K1 as K1.
  exists r, c. split; [reflexivity|].
  apply (backend_reference_to_a_client_record (F:=decimal_float)
           quiet true None 12 14 "14 dir b1" "14" "dir" "b1" s 0%nat r c 1%nat r0 c0);
    [assumption|assumption|assumption|lia|assumption
    |reflexivity|reflexivity|assumption|lia|assumption|].
  intros b0 Hb. rewrite K1 in Hb. discriminate.
Defined.

(** X9, with a backend chunk on 12 while a client record is open there. *)
Lemma backend_chunk_on_client_descriptor_witness :
  let s := after [mk 12 RClient "reqstart" "10.0.0.1 4000 1001"] in
  cb quiet true None (mk 12 RBackend "txurl" "/") s
  = (inr false, set_stderr (stderr s ++ [AssertionError]) s).
Proof.
  intros s. know (_lines s !! 12).
  know (@backend_request decimal_float <$> (heap s !! 0%nat ≫= client_attrs)).
  record_at s 0%nat. cbn in K0. injection K0 as K0.
  apply (backend_chunk_on_client_descriptor (F:=decimal_float)
           quiet true None (mk 12 RBackend "txurl" "/") s 0%nat r c);
    [discriminate|reflexivity|reflexivity|assumption|assumption|].
  intros b0 Hb. rewrite K0 in Hb. discriminate.
Defined.

(** X10, with a backend on 7 that is opened again after it was closed. *)
Lemma completed_backend_delivered_at_every_chunk_witness :
  let s := after [mk 7 RBackend "backendopen" "b1 10.0.0.9 80";
                  mk 7 RBackend "backendclose" "b1"] in
  let chunk := mk 7 RBackend "backendopen" "b1 10.0.0.9 80" in
  let s' := snd (cb quiet false None chunk s) in
  exists r b r' b',
    heap s !! 0%nat = Some (BackendRequestLog r b)
    /\ heap s' = <[0%nat := BackendRequestLog r' b']> (heap s)
    /\ _lines s' = _lines s
    /\ complete r' = true
    /\ chunks r' = chunks r ++ [chunk]
    /\ (calls s' = calls s ++ [Delivered 0%nat (BackendRequestLog r' b')]
        \/ calls s' = calls s /\ stderr s' = stderr s ++ [ValueError]
           /\ In "backendopen" ["rxheader"; "txheader"; "length"; "rxstatus"]).
Proof.
  intros s chunk s'. know (_lines s !! 7). record_at s 0%nat.
  exists r, b.
  destruct (completed_backend_is_delivered_at_every_chunk (F:=decimal_float)
              quiet None 7 "backendopen" "b1 10.0.0.9 80" s 0%nat r b)
    as (r' & b' & Hrun);
    [assumption|assumption|assumption|lia|reflexivity|assumption|right; reflexivity|].
  exists r', b'. split; [reflexivity|exact Hrun].
Defined.

(** X11, from the state before any chunk. *)
Lemma table_stays_well_formed_witness :
  let s' := snd (dispatch_requests quiet true None fixture initial) in
  lines_wf s' /\ roles_wf s'.
Proof.
  apply (table_stays_well_formed (F:=decimal_float) quiet true None fixture initial);
    apply initial_wf.
Defined.

(** X12, from the state before any chunk, with aggregation. *)
Lemma only_complete_records_are_delivered_witness :
  exists new,
    calls (snd (dispatch_requests quiet true None fixture initial))
    = calls (initial (F:=decimal_float)) ++ new
    /\ Forall (delivery_ok true) new.
Proof.
  apply (only_complete_records_are_delivered (F:=decimal_float)
           quiet true None fixture initial);
    apply initial_wf.
Defined.

(** X13, with the client record of a transaction on 12 that has ended,
    and a second transaction that comes on 12. *)
Lemma unbound_record_never_changes_witness :
  let s := after [mk 12 RClient "reqstart" "10.0.0.1 4000 1001";
                  mk 12 RClient "reqend" "1001 1.0 2.0 0.1 0.2 0.3"] in
  let stream := [mk 12 RClient "reqstart" "10.0.0.2 4001 1002";
                 mk 12 RClient "rxurl" "/";
                 mk 12 RClient "reqend" "1002 3.0 4.0 0.1 0.2 0.3"] in
  let s' := snd (dispatch_requests quiet true None stream s) in
  exists o : @PyObj decimal_float,
    heap s !! 0%nat = Some o
    /\ heap s' !! 0%nat = Some o
    /\ forall k, _lines s' !! k <> Some 0%nat.
Proof.
  intros s stream s'. know (map_to_list (_lines s)). record_at s 0%nat.
  exists (ClientRequestLog r c). split; [reflexivity|].
  apply (unbound_record_never_changes (F:=decimal_float) quiet true None stream s 0%nat).
  - apply after_wf.
  - assumption.
  - apply map_to_list_empty_iff in K. intros k. rewrite K, lookup_empty. discriminate.
Defined.

(** X14, with a backend record on 7 that has been closed, a client chunk
    that comes on 7 and a client transaction on 12 that names 7. *)
Lemma backend_descriptor_stays_bound_witness :
  let s := after [mk 7 RBackend "backendopen" "b1 10.0.0.9 80";
                  mk 7 RBackend "backendclose" "b1"] in
  let stream := [mk 7 RClient "reqstart" "10.0.0.1 4000 1001";
                 mk 12 RClient "reqstart" "10.0.0.1 4000 1001";
                 mk 12 RClient "backend" "7 dir b1";
                 mk 12 RClient "reqend" "1001 1.0 2.0 0.1 0.2 0.3"] in
  let s' := snd (dispatch_requests quiet true None stream s) in
  _lines s' !! 7 = Some 0%nat
  /\ exists o', heap s' !! 0%nat = Some o' /\ is_backend o' = true.
Proof.
  intros s stream s'. know (_lines s !! 7). record_at s 0%nat.
  apply (backend_descriptor_stays_bound (F:=decimal_float) quiet true None stream s
           7 0%nat (BackendRequestLog r b));
    [apply after_wf|assumption|assumption|reflexivity].
Defined.

(** X15, with the client record on 12 through the rest of its
    transaction. *)
Lemma records_only_grow_witness :
  let s := after [mk 12 RClient "reqstart" "10.0.0.1 4000 1001"] in
  let stream := [mk 12 RClient "rxurl" "/";
                 mk 12 RClient "txstatus" "abc";
                 mk 12 RClient "reqend" "1001 1.0 2.0 0.1 0.2 0.3"] in
  let out := dispatch_requests quiet true None stream s in
  exists o : @PyObj decimal_float,
    heap s !! 0%nat = Some o
    /\ fst out = inr tt
    /\ exists o', heap (snd out) !! 0%nat = Some o' /\ grows o o'.
Proof.
  intros s stream out. record_at s 0%nat.
  exists (ClientRequestLog r c). split; [reflexivity|].
  apply (records_only_grow (F:=decimal_float) quiet true None stream s 0%nat);
    [apply after_wf|assumption].
Defined.

(** X16, on descriptors 13 and 12, with chunks inside both transactions,
    one of them with a payload that does not convert. *)
Lemma transactions_with_inner_chunks_witness :
  let bbody := [mk 13 RBackend "txrequest" "GET"; mk 13 RBackend "rxstatus" "abc"] in
  let cbody1 := [mk 12 RClient "rxrequest" "GET"; mk 12 RClient "rxurl" "/"] in
  let cbody2 := [mk 12 RClient "txstatus" "200"] in
  let bchunks := mk 13 RBackend "backendopen" "b1 10.0.0.9 80" :: bbody
                 ++ [mk 13 RBackend "backendreuse" "b1"] in
  let cchunks := mk 12 RClient "reqstart" "10.0.0.1 4000 1001" :: cbody1
                 ++ mk 12 RClient "backend" "13 dir b1" :: cbody2
                 ++ [mk 12 RClient "reqend" "1001 1.0 2.0 0.1 0.2 0.3"] in
  let s' := snd (dispatch_requests quiet false None (bchunks ++ cchunks)
                   (initial (F:=decimal_float))) in
  exists rb bb bb' rc cc,
    calls s' = calls (initial (F:=decimal_float))
               ++ [Delivered 0%nat (BackendRequestLog rb bb)]
               ++ [Delivered 1%nat (ClientRequestLog rc cc)]
    /\ complete rb = true /\ chunks rb = bchunks
    /\ complete rc = true /\ chunks rc = cchunks
    /\ backend_request cc = Some 0%nat
    /\ heap s' !! 0%nat = Some (BackendRequestLog rb bb').
Proof.
  intros bbody cbody1 cbody2.
  apply (transactions_with_inner_chunks (F:=decimal_float) quiet false None initial 13 12
           "b1 10.0.0.9 80" bbody "backendreuse" "b1"
           "10.0.0.1 4000 1001" "10.0.0.1" "4000" "1001" cbody1
           "13 dir b1" "13" "dir" "b1" cbody2
           "1001 1.0 2.0 0.1 0.2 0.3" "1001" "1.0" "2.0" "0.1" "0.2" "0.3"
           "1.0" "2.0" "1.0" "2.0" "0.1" "0.2" "0.3");
    try (vm_compute; reflexivity); try lia;
    try (repeat constructor; discriminate).
Defined.

(** ** Runs of the constructor *)

Section SettingsRuns.

Import Settings.

Ltac items_of_by_cases :=
  apply items_of_intro;
  [ apply (bool_decide_unpack _); vm_compute; reflexivity
  | intros k v H; cbn in H;
    repeat (destruct H as [[= <- <-]|H]; [reflexivity|]); contradiction
  | intros k; unfold settings_of; cbn;
    repeat match goal with
           | |- context [String.eqb k ?x] => destruct (String.eqb_spec k x) as [->|?]
           end; cbn; intros H; tauto ].

(** X17, with [stop_after=0] and a name that is no setting, given [None]. *)
Lemma unset_settings_witness :
  VarnishLogs_init silent
    [ ("colour", VNone);
      ("process_old_entries", VBool false);
      ("process_backend_requests", VBool false);
      ("process_client_requests", VBool false);
      ("include_tag", VNone);
      ("include_tag_regex", VNone);
      ("exclude_tag", VNone);
      ("exclude_tag_regex", VNone);
      ("stop_after", VInt 0);
      ("skip_first", VNone);
      ("read_entries_from_file", VNone);
      ("filter_transactions_by_tag_regex", VNone);
      ("ignore_case_in_regex", VBool false) ]
  = (None, [init_call]).
Proof.
  apply (unset_settings_make_no_call silent [("stop_after", VInt 0); ("colour", VNone)]).
  - items_of_by_cases.
  - intros k v H. cbn in H.
    repeat (destruct H as [[= <- <-]|H]; [reflexivity|]). contradiction.
Defined.

(** X18, with a name that is no setting, given a string, which the dict
    yields after two settings that are set. *)
Lemma unknown_setting_witness :
  let items :=
    [ ("process_old_entries", VBool true);
      ("stop_after", VInt 10);
      ("colour", VStr "red");
      ("process_backend_requests", VBool false);
      ("process_client_requests", VBool false);
      ("include_tag", VNone);
      ("include_tag_regex", VNone);
      ("exclude_tag", VNone);
      ("exclude_tag_regex", VNone);
      ("skip_first", VNone);
      ("read_entries_from_file", VNone);
      ("filter_transactions_by_tag_regex", VNone);
      ("ignore_case_in_regex", VBool false) ] in
  exists e,
    fst (VarnishLogs_init silent items) = Some e
    /\ ((forall c, silent c = None) ->
        getkey "filter_transactions_by_tag_regex"
          [("process_old_entries", VBool true); ("stop_after", VInt 10);
           ("colour", VStr "red")] = None ->
        e = KeyError
        /\ exists t, snd (VarnishLogs_init silent items) = init_call :: t).
Proof.
  intros items.
  apply (unknown_setting_raises silent
           [("process_old_entries", VBool true); ("stop_after", VInt 10);
            ("colour", VStr "red")] items "colour" (VStr "red"));
    [items_of_by_cases|reflexivity|reflexivity|reflexivity].
Defined.

(** X19, with the pair (tag, regular expression) as the filter. *)
Lemma transaction_filter_witness :
  let pair := VTuple [VStr "rxurl"; VStr "^/admin"] in
  let items :=
    [ ("process_old_entries", VBool false);
      ("process_backend_requests", VBool false);
      ("process_client_requests", VBool true);
      ("include_tag", VNone);
      ("include_tag_regex", VNone);
      ("exclude_tag", VNone);
      ("exclude_tag_regex", VNone);
      ("stop_after", VNone);
      ("skip_first", VNone);
      ("read_entries_from_file", VNone);
      ("filter_transactions_by_tag_regex", pair);
      ("ignore_case_in_regex", VBool false) ] in
  exists t1 t2,
    VarnishLogs_init silent items
    = (None,
       init_call :: t1
       ++ [ {| fn := "filter_transactions_by_tag_regex"; args := [pair] |};
            {| fn := "filter_transactions_by_tag_regex";
               args := [VStr "rxurl"; VStr "^/admin"] |} ]
       ++ t2).
Proof.
  intros pair items.
  apply (transaction_filter_is_applied_twice silent
           [("filter_transactions_by_tag_regex", pair);
            ("process_client_requests", VBool true)] items pair
           (VStr "rxurl") (VStr "^/admin"));
    [items_of_by_cases|reflexivity| |reflexivity|reflexivity|reflexivity|reflexivity].
  intros k v H. cbn in H.
  repeat (destruct H as [[= <- <-]|H]; [discriminate|]). contradiction.
Defined.

End SettingsRuns.
